(** * Resume builders and PDF converter: a shallow embedding

    The repository holds four python-docx scripts that build a resume
    document tree (create_resume_twocolumn3.py, create_resume_app_developer.py,
    create_resume_rajnish_template.py, create_resume_react_template.py) and
    one script that turns the DOCX into a PDF (convert_to_pdf.py).

    Python [str] values are modelled as Rocq strings holding the UTF-8
    bytes of the text.  The characters the code looks for (['@'], [' '],
    ['*']) are ASCII, and an ASCII byte never occurs inside a multi-byte
    UTF-8 sequence, so searching, splitting and replacing on bytes agrees
    with Python on code points. *)

From Stdlib Require Import ZArith QArith Ascii String List Bool Lia DecimalString SpecFloat.
From stdpp Require Import base option list strings gmap.
Import ListNotations.

Local Open Scope string_scope.
Local Open Scope list_scope.

(** ** Python string built-ins used by the scripts *)

Module PyStr.

(** [sub in s] for a non-empty [sub]. *)
Fixpoint contains (sub s : string) : bool :=
  match s with
  | EmptyString => String.prefix sub EmptyString
  | String _ s' => String.prefix sub s || contains sub s'
  end.

(** Prepend a character to the first segment of a split result. *)
Definition push_head (c : ascii) (parts : list string) : list string :=
  match parts with
  | [] => [String c EmptyString]
  | h :: t => String c h :: t
  end.

(** [s.split(sep)] for a non-empty [sep]: a left-to-right scan for
    non-overlapping occurrences.  [skip] counts the characters of an
    occurrence that was matched and is still to be passed over. *)
Fixpoint split_from (sep : string) (skip : nat) (s : string) : list string :=
  match s with
  | EmptyString => [EmptyString]
  | String c s' =>
      match skip with
      | S k => split_from sep k s'
      | O =>
          if String.prefix sep s
          then EmptyString :: split_from sep (String.length sep - 1) s'
          else push_head c (split_from sep 0 s')
      end
  end.

Definition split (sep s : string) : list string := split_from sep 0 s.

(** [s.count(sep)]: the number of non-overlapping occurrences. *)
Fixpoint count_from (sep : string) (skip : nat) (s : string) : nat :=
  match s with
  | EmptyString => 0
  | String _ s' =>
      match skip with
      | S k => count_from sep k s'
      | O =>
          if String.prefix sep s
          then S (count_from sep (String.length sep - 1) s')
          else count_from sep 0 s'
      end
  end.

Definition count (sep s : string) : nat := count_from sep 0 s.

(** [s.replace(old, new)] for a non-empty [old]. *)
Fixpoint replace_from (old new : string) (skip : nat) (s : string) : string :=
  match s with
  | EmptyString => EmptyString
  | String c s' =>
      match skip with
      | S k => replace_from old new k s'
      | O =>
          if String.prefix old s
          then new +:+ replace_from old new (String.length old - 1) s'
          else String c (replace_from old new 0 s')
      end
  end.

Definition replace (old new s : string) : string := replace_from old new 0 s.

(** [s.upper()] on ASCII text: the letters a-z are mapped to A-Z, every
    other byte is kept.  All header labels of the scripts are ASCII.
    Python's [str.upper] also maps letters outside a-z (e-acute to
    E-acute, sharp s to SS); the bytes of such characters are kept here,
    so what is stated about upper-cased text is stated for ASCII text. *)
Definition upper_ascii (c : ascii) : ascii :=
  let n := nat_of_ascii c in
  if (97 <=? n)%nat && (n <=? 122)%nat then ascii_of_nat (n - 32) else c.

Fixpoint upper (s : string) : string :=
  match s with
  | EmptyString => EmptyString
  | String c s' => String (upper_ascii c) (upper s')
  end.

(** [enumerate(l, start)] and [enumerate(l)] *)
Fixpoint enumerate_from {A} (start : nat) (l : list A) : list (nat * A) :=
  match l with
  | [] => []
  | x :: l' => (start, x) :: enumerate_from (S start) l'
  end.

Definition enumerate {A} (l : list A) : list (nat * A) := enumerate_from 0 l.

End PyStr.

(** The two-character bold delimiter and the characters of the e-mail
    heuristic. *)
Definition DELIM : string := "**".
Definition NBSP : string := String (ascii_of_nat 194) (String (ascii_of_nat 160) EmptyString).
Definition THIN_SPACE : string :=
  String (ascii_of_nat 226) (String (ascii_of_nat 128) (String (ascii_of_nat 137) EmptyString)).
Definition BULLET : string :=
  String (ascii_of_nat 226) (String (ascii_of_nat 128) (String (ascii_of_nat 162) " ")).

(** ** The python-docx document tree, as far as the scripts touch it *)

(** [docx.shared] lengths, kept as written in the source. *)
Inductive Length :=
  | Pt (q : Q)
  | Inches (q : Q)
  | Twips (z : Z).

(** A length in English Metric Units, as an exact rational. *)
Definition emu (l : Length) : Q :=
  match l with
  | Pt q => q * 12700
  | Inches q => q * 914400
  | Twips z => inject_Z z * 635
  end.

Record RGBColor := RGB { red : Z; green : Z; blue : Z }.

Inductive WD_ALIGN_PARAGRAPH := ALIGN_LEFT | ALIGN_CENTER | ALIGN_RIGHT | ALIGN_JUSTIFY.
Inductive WD_CELL_VERTICAL_ALIGNMENT := VALIGN_TOP | VALIGN_CENTER | VALIGN_BOTTOM.

(** [OxmlElement(tag)] with the attributes set on it and its children. *)
#[warnings="-register-all"]
Inductive Xml := Elem (tag : string) (attrs : list (string * string)) (children : list Xml).

Definition xml_tag (x : Xml) : string := let 'Elem t _ _ := x in t.
Definition xml_attrs (x : Xml) : list (string * string) := let 'Elem _ a _ := x in a.
Definition xml_children (x : Xml) : list Xml := let 'Elem _ _ c := x in c.

(** [elt.set(key, value)] *)
Definition attr_set (k v : string) (attrs : list (string * string)) : list (string * string) :=
  if existsb (fun kv => String.eqb (fst kv) k) attrs
  then map (fun kv => if String.eqb (fst kv) k then (k, v) else kv) attrs
  else attrs ++ [(k, v)].

Definition attr_get (k : string) (attrs : list (string * string)) : option string :=
  snd <$> List.find (fun kv => String.eqb (fst kv) k) attrs.

Record Picture := { pic_path : string; pic_width : Length; pic_height : Length }.

(** A run: its text, the inline pictures added to it, and its character
    formatting.  [run_attrs] holds the attributes set directly on the
    [w:r] element with [run.element.set]. *)
Record Run := {
  run_text : string;
  run_pictures : list Picture;
  run_bold : option bool;
  font_size : option Length;
  font_name : option string;
  font_color : option RGBColor;
  run_attrs : list (string * string)
}.

(** The [w:ind] element of a paragraph. *)
Record Ind := {
  ind_left : option Length;
  ind_right : option Length;
  ind_first_line : option Length
}.

Record ParagraphFormat := {
  space_before : option Length;
  space_after : option Length;
  line_spacing : option Q;
  ind : option Ind;
  widow_control : option bool;
  keep_together : option bool
}.

(** A paragraph.  [extra_pPr] holds the property elements the scripts
    insert as raw XML next to the ones python-docx manages. *)
Record Paragraph := {
  runs : list Run;
  alignment : option WD_ALIGN_PARAGRAPH;
  paragraph_format : ParagraphFormat;
  extra_pPr : list Xml
}.

Record Cell := {
  tcPr : option (list Xml);
  vertical_alignment : option WD_CELL_VERTICAL_ALIGNMENT;
  paragraphs : list Paragraph
}.

Record DocSection := {
  top_margin : option Length;
  bottom_margin : option Length;
  left_margin : option Length;
  right_margin : option Length
}.

Definition new_run (text : string) : Run :=
  {| run_text := text; run_pictures := []; run_bold := None; font_size := None;
     font_name := None; font_color := None; run_attrs := [] |}.

Definition new_format : ParagraphFormat :=
  {| space_before := None; space_after := None; line_spacing := None; ind := None;
     widow_control := None; keep_together := None |}.

Definition new_paragraph : Paragraph :=
  {| runs := []; alignment := None; paragraph_format := new_format; extra_pPr := [] |}.

Definition new_ind : Ind := {| ind_left := None; ind_right := None; ind_first_line := None |}.

(** *** Field updates *)

Definition run_set_bold (b : bool) (r : Run) : Run :=
  {| run_text := run_text r; run_pictures := run_pictures r; run_bold := Some b;
     font_size := font_size r; font_name := font_name r; font_color := font_color r;
     run_attrs := run_attrs r |}.
Definition run_set_size (l : Length) (r : Run) : Run :=
  {| run_text := run_text r; run_pictures := run_pictures r; run_bold := run_bold r;
     font_size := Some l; font_name := font_name r; font_color := font_color r;
     run_attrs := run_attrs r |}.
Definition run_set_name (n : string) (r : Run) : Run :=
  {| run_text := run_text r; run_pictures := run_pictures r; run_bold := run_bold r;
     font_size := font_size r; font_name := Some n; font_color := font_color r;
     run_attrs := run_attrs r |}.
Definition run_set_color (c : RGBColor) (r : Run) : Run :=
  {| run_text := run_text r; run_pictures := run_pictures r; run_bold := run_bold r;
     font_size := font_size r; font_name := font_name r; font_color := Some c;
     run_attrs := run_attrs r |}.
Definition run_set_attr (k v : string) (r : Run) : Run :=
  {| run_text := run_text r; run_pictures := run_pictures r; run_bold := run_bold r;
     font_size := font_size r; font_name := font_name r; font_color := font_color r;
     run_attrs := attr_set k v (run_attrs r) |}.
Definition run_add_picture (p : Picture) (r : Run) : Run :=
  {| run_text := run_text r; run_pictures := run_pictures r ++ [p]; run_bold := run_bold r;
     font_size := font_size r; font_name := font_name r; font_color := font_color r;
     run_attrs := run_attrs r |}.

Definition fmt_set_space_before (l : Length) (f : ParagraphFormat) : ParagraphFormat :=
  {| space_before := Some l; space_after := space_after f; line_spacing := line_spacing f;
     ind := ind f; widow_control := widow_control f; keep_together := keep_together f |}.
Definition fmt_set_space_after (l : Length) (f : ParagraphFormat) : ParagraphFormat :=
  {| space_before := space_before f; space_after := Some l; line_spacing := line_spacing f;
     ind := ind f; widow_control := widow_control f; keep_together := keep_together f |}.
Definition fmt_set_line_spacing (q : Q) (f : ParagraphFormat) : ParagraphFormat :=
  {| space_before := space_before f; space_after := space_after f; line_spacing := Some q;
     ind := ind f; widow_control := widow_control f; keep_together := keep_together f |}.
Definition fmt_set_ind (i : option Ind) (f : ParagraphFormat) : ParagraphFormat :=
  {| space_before := space_before f; space_after := space_after f; line_spacing := line_spacing f;
     ind := i; widow_control := widow_control f; keep_together := keep_together f |}.
Definition fmt_set_widow_control (b : bool) (f : ParagraphFormat) : ParagraphFormat :=
  {| space_before := space_before f; space_after := space_after f; line_spacing := line_spacing f;
     ind := ind f; widow_control := Some b; keep_together := keep_together f |}.
Definition fmt_set_keep_together (b : bool) (f : ParagraphFormat) : ParagraphFormat :=
  {| space_before := space_before f; space_after := space_after f; line_spacing := line_spacing f;
     ind := ind f; widow_control := widow_control f; keep_together := Some b |}.

(** The indentation setters create the [w:ind] element when it is absent. *)
Definition the_ind (f : ParagraphFormat) : Ind := default new_ind (ind f).
Definition fmt_set_left_indent (l : Length) (f : ParagraphFormat) : ParagraphFormat :=
  fmt_set_ind (Some {| ind_left := Some l; ind_right := ind_right (the_ind f);
                       ind_first_line := ind_first_line (the_ind f) |}) f.
Definition fmt_set_right_indent (l : Length) (f : ParagraphFormat) : ParagraphFormat :=
  fmt_set_ind (Some {| ind_left := ind_left (the_ind f); ind_right := Some l;
                       ind_first_line := ind_first_line (the_ind f) |}) f.
Definition fmt_set_first_line_indent (l : Length) (f : ParagraphFormat) : ParagraphFormat :=
  fmt_set_ind (Some {| ind_left := ind_left (the_ind f); ind_right := ind_right (the_ind f);
                       ind_first_line := Some l |}) f.

Definition par_set_runs (rs : list Run) (p : Paragraph) : Paragraph :=
  {| runs := rs; alignment := alignment p; paragraph_format := paragraph_format p;
     extra_pPr := extra_pPr p |}.
Definition par_set_alignment (a : WD_ALIGN_PARAGRAPH) (p : Paragraph) : Paragraph :=
  {| runs := runs p; alignment := Some a; paragraph_format := paragraph_format p;
     extra_pPr := extra_pPr p |}.
Definition par_set_format (f : ParagraphFormat) (p : Paragraph) : Paragraph :=
  {| runs := runs p; alignment := alignment p; paragraph_format := f;
     extra_pPr := extra_pPr p |}.
Definition par_insert_pPr (x : Xml) (p : Paragraph) : Paragraph :=
  {| runs := runs p; alignment := alignment p; paragraph_format := paragraph_format p;
     extra_pPr := x :: extra_pPr p |}.

Definition cell_set_paragraphs (ps : list Paragraph) (c : Cell) : Cell :=
  {| tcPr := tcPr c; vertical_alignment := vertical_alignment c; paragraphs := ps |}.
Definition cell_set_tcPr (x : option (list Xml)) (c : Cell) : Cell :=
  {| tcPr := x; vertical_alignment := vertical_alignment c; paragraphs := paragraphs c |}.
Definition cell_set_vertical_alignment (a : WD_CELL_VERTICAL_ALIGNMENT) (c : Cell) : Cell :=
  {| tcPr := tcPr c; vertical_alignment := Some a; paragraphs := paragraphs c |}.

Definition section_set_top (l : Length) (s : DocSection) : DocSection :=
  {| top_margin := Some l; bottom_margin := bottom_margin s;
     left_margin := left_margin s; right_margin := right_margin s |}.
Definition section_set_bottom (l : Length) (s : DocSection) : DocSection :=
  {| top_margin := top_margin s; bottom_margin := Some l;
     left_margin := left_margin s; right_margin := right_margin s |}.
Definition section_set_left (l : Length) (s : DocSection) : DocSection :=
  {| top_margin := top_margin s; bottom_margin := bottom_margin s;
     left_margin := Some l; right_margin := right_margin s |}.
Definition section_set_right (l : Length) (s : DocSection) : DocSection :=
  {| top_margin := top_margin s; bottom_margin := bottom_margin s;
     left_margin := left_margin s; right_margin := Some l |}.

(** *** Tables and the document *)

Record Row := {
  trPr : option (list Xml);
  cells : list Cell
}.

Record Table := {
  tblPr : option (list Xml);
  column_widths : list (option Length);
  rows : list Row
}.

Record Document := {
  sections : list DocSection;
  normal_font_name : option string;
  normal_font_size : option Length;
  tables : list Table
}.

(** The property elements python-docx puts into a table it creates; they
    are library data, so the model takes them as given. *)
Record TableDefaults := {
  fresh_tblPr : option (list Xml);
  fresh_trPr : option (list Xml);
  fresh_tcPr : option (list Xml)
}.

(** [doc.add_table(rows, cols)]: every cell starts with one empty paragraph. *)
Definition new_table (d : TableDefaults) (nrows ncols : nat) : Table :=
  {| tblPr := fresh_tblPr d;
     column_widths := replicate ncols None;
     rows := replicate nrows
       {| trPr := fresh_trPr d;
          cells := replicate ncols
            {| tcPr := fresh_tcPr d; vertical_alignment := None;
               paragraphs := [new_paragraph] |} |} |}.

(** [Document()]: one section, no table. *)
Definition new_document (default_section : DocSection) : Document :=
  {| sections := [default_section]; normal_font_name := None;
     normal_font_size := None; tables := [] |}.

Definition table_set_tblPr (x : option (list Xml)) (t : Table) : Table :=
  {| tblPr := x; column_widths := column_widths t; rows := rows t |}.
Definition table_set_width (i : nat) (l : Length) (t : Table) : Table :=
  {| tblPr := tblPr t; column_widths := <[i := Some l]> (column_widths t); rows := rows t |}.
Definition table_alter_row (i : nat) (f : Row -> Row) (t : Table) : Table :=
  {| tblPr := tblPr t; column_widths := column_widths t; rows := alter f i (rows t) |}.
Definition row_set_trPr (x : option (list Xml)) (r : Row) : Row :=
  {| trPr := x; cells := cells r |}.
Definition row_alter_cell (j : nat) (f : Cell -> Cell) (r : Row) : Row :=
  {| trPr := trPr r; cells := alter f j (cells r) |}.
(** A mutation through the proxy [table.rows[i].cells[j]]. *)
Definition table_alter_cell (i j : nat) (f : Cell -> Cell) (t : Table) : Table :=
  table_alter_row i (row_alter_cell j f) t.

(** [x = elt.xPr; if x is None: x = OxmlElement(..); elt.insert(0, x)]
    followed by [x.append(child)]. *)
Definition pr_append (child : Xml) (pr : option (list Xml)) : option (list Xml) :=
  Some (default [] pr ++ [child]).

(** The fill color of a cell: the [w:fill] of a [w:shd] element among its
    properties, if there is one. *)
Definition cell_shading (c : Cell) : option string :=
  match List.find (fun x => String.eqb (xml_tag x) "w:shd") (default [] (tcPr c)) with
  | Some shd => attr_get "w:fill" (xml_attrs shd)
  | None => None
  end.

(** [str(int(x))] for a rational [x]: truncation towards zero.  The cell
    margins are computed with it from the rationals the literals of the
    source denote; for the values the scripts pass (0.0, 0.1, 0.15) the
    float product of Python truncates to the same integer. *)
Definition str_int (x : Q) : string :=
  NilZero.string_of_int (Z.to_int (Z.quot (Qnum x) (Zpos (Qden x)))).

(** ** Python numbers

    [set_margins] receives Python numbers and hands them to
    [docx.shared.Inches], which multiplies and truncates.  An [int] is an
    unbounded integer; a [float] is an IEEE 754 binary64 number, and its
    arithmetic rounds to the nearest representable number, ties to even. *)

Inductive PyError := ValueError | OverflowError | IndexError.

Module PyNum.

Definition float := spec_float.
Definition prec : Z := 53.
Definition emax : Z := 1024.

Definition fmul (x y : float) : float := SFmul prec emax x y.
Definition fdiv (x y : float) : float := SFdiv prec emax x y.

(** [float(n)] *)
Definition of_int (n : Z) : float := binary_normalize prec emax n 0 false.

(** The float a decimal literal of the source denotes: the number
    nearest to the rational written. *)
Definition literal (q : Q) : float :=
  match Qnum q with
  | Z0 => S754_zero false
  | Zpos n => SFdiv prec emax (S754_finite false n 0) (S754_finite false (Qden q) 0)
  | Zneg n => SFdiv prec emax (S754_finite true n 0) (S754_finite false (Qden q) 0)
  end.

(** [int(x)]: truncation towards zero; [nan] and the infinities raise. *)
Definition int_of_float (x : float) : PyError + Z :=
  match x with
  | S754_zero _ => inr 0%Z
  | S754_infinity _ => inl OverflowError
  | S754_nan => inl ValueError
  | S754_finite s m e =>
      inr (cond_Zopp s (match e with
                        | Zneg k => Z.shiftr (Zpos m) (Zpos k)
                        | _ => Z.shiftl (Zpos m) e
                        end))
  end.

(** [round(x)]: the nearest integer, ties to the even one. *)
Definition round_of_float (x : float) : PyError + Z :=
  match x with
  | S754_zero _ => inr 0%Z
  | S754_infinity _ => inl OverflowError
  | S754_nan => inl ValueError
  | S754_finite s m e =>
      inr (cond_Zopp s
             (match e with
              | Zneg k =>
                  let d := Z.shiftl 1 (Zpos k) in
                  let q := (Zpos m / d)%Z in
                  match (2 * (Zpos m mod d) ?= d)%Z with
                  | Lt => q
                  | Gt => (q + 1)%Z
                  | Eq => if Z.even q then q else (q + 1)%Z
                  end
              | _ => Z.shiftl (Zpos m) e
              end))
  end.

End PyNum.

Inductive PyNumber :=
  | PyInt (n : Z)
  | PyFloat (x : PyNum.float).

(** A decimal literal with a fraction, such as [0.2]. *)
Definition float_literal (q : Q) : PyNumber := PyFloat (PyNum.literal q).

(** ** docx.shared and the page margins of a section

    The margin properties of a section are python-docx code.  A length is
    an [int] of English Metric Units.  Assigning a margin validates the
    length against the range of the XML attribute type and then writes it
    in whole twips: [w:top] and [w:bottom] are signed 32 bit
    ([ST_SignedTwipsMeasure]), [w:left] and [w:right] unsigned 64 bit
    ([ST_TwipsMeasure]).  A value out of range raises [ValueError] and
    leaves the attribute as it was. *)

(** [Inches(x)]: [Length(int(x * 914400))], in EMU. *)
Definition Inches_emu (inches : PyNumber) : PyError + Z :=
  match inches with
  | PyInt n => inr (n * 914400)%Z
  | PyFloat x => PyNum.int_of_float (PyNum.fmul x (PyNum.of_int 914400))
  end.

(** [Length.twips]: [int(round(emu / 635.0))].  It is called on lengths
    that passed the range check, for which the quotient is finite. *)
Definition Length_twips (emu : Z) : Z :=
  match PyNum.round_of_float (PyNum.fdiv (PyNum.of_int emu) (PyNum.of_int 635)) with
  | inr twips => twips
  | inl _ => 0%Z
  end.

Definition ST_SignedTwipsMeasure_valid (emu : Z) : bool :=
  (-2147483648 <=? emu)%Z && (emu <=? 2147483647)%Z.

Definition ST_TwipsMeasure_valid (emu : Z) : bool :=
  (0 <=? emu)%Z && (emu <=? 18446744073709551615)%Z.

(** Statements that mutate a section and may raise. *)
Definition Assign (A : Type) : Type := DocSection -> (PyError + A) * DocSection.

#[global] Instance Assign_ret : MRet Assign := fun A x s => (inr x, s).
#[global] Instance Assign_bind : MBind Assign :=
  fun A B f m s =>
    match m s with
    | (inl e, s') => (inl e, s')
    | (inr x, s') => f x s'
    end.

(** Evaluating an expression that may raise. *)
Definition eval {A} (r : PyError + A) : Assign A := fun s => (r, s).

(** [section.top_margin = value] and its three siblings. *)
Definition assign_top_margin (value : Z) : Assign unit := fun s =>
  if ST_SignedTwipsMeasure_valid value
  then (inr tt, section_set_top (Twips (Length_twips value)) s)
  else (inl ValueError, s).

Definition assign_bottom_margin (value : Z) : Assign unit := fun s =>
  if ST_SignedTwipsMeasure_valid value
  then (inr tt, section_set_bottom (Twips (Length_twips value)) s)
  else (inl ValueError, s).

Definition assign_left_margin (value : Z) : Assign unit := fun s =>
  if ST_TwipsMeasure_valid value
  then (inr tt, section_set_left (Twips (Length_twips value)) s)
  else (inl ValueError, s).

Definition assign_right_margin (value : Z) : Assign unit := fun s =>
  if ST_TwipsMeasure_valid value
  then (inr tt, section_set_right (Twips (Length_twips value)) s)
  else (inl ValueError, s).

(** ** The builder monad

    A block builder receives a cell, calls [cell.add_paragraph()] and then
    mutates the paragraph and its runs through the proxies python-docx
    hands back.  The state is the cell, the standard output and the file
    system the builder reads; a paragraph proxy is the position of the
    paragraph in the cell, a run proxy the position of the run in its
    paragraph. *)

Record FileSystem := {
  (** [os.path.exists] *)
  fs_exists : string -> bool;
  (** [None] when [run.add_picture(path, ...)] loads the image, [Some e]
      when it raises an exception whose message is [e]. *)
  fs_picture_error : string -> option string;
  (** [os.path.dirname(os.path.abspath(__file__))] *)
  fs_script_dir : string
}.

Record St := {
  st_cell : Cell;
  st_out : list string;
  st_fs : FileSystem
}.

Definition ParaRef := nat.
Definition RunRef := (nat * nat)%type.

Definition Build (A : Type) : Type := St -> A * St.

#[global] Instance Build_ret : MRet Build := fun A x s => (x, s).
#[global] Instance Build_bind : MBind Build :=
  fun A B f m s => let '(x, s') := m s in f x s'.

Definition st_set_paragraphs (f : list Paragraph -> list Paragraph) (s : St) : St :=
  {| st_cell := cell_set_paragraphs (f (paragraphs (st_cell s))) (st_cell s);
     st_out := st_out s; st_fs := st_fs s |}.

(** [cell.add_paragraph()] *)
Definition add_paragraph : Build ParaRef := fun s =>
  (List.length (paragraphs (st_cell s)), st_set_paragraphs (fun ps => ps ++ [new_paragraph]) s).

(** A mutation through a paragraph proxy. *)
Definition modify_paragraph (p : ParaRef) (f : Paragraph -> Paragraph) : Build unit := fun s =>
  (tt, st_set_paragraphs (alter f p) s).

(** A mutation through a run proxy. *)
Definition modify_run (r : RunRef) (f : Run -> Run) : Build unit :=
  modify_paragraph (fst r) (fun p => par_set_runs (alter f (snd r) (runs p)) p).

(** [p.add_run(text)]; [p.add_run()] is [add_run p ""]. *)
Definition add_run (p : ParaRef) (text : string) : Build RunRef := fun s =>
  let n := from_option (fun para => List.length (runs para)) 0%nat (paragraphs (st_cell s) !! p) in
  ((p, n), st_set_paragraphs (alter (fun para => par_set_runs (runs para ++ [new_run text]) para) p) s).

(** [print(line)] *)
Definition print (line : string) : Build unit := fun s =>
  (tt, {| st_cell := st_cell s; st_out := st_out s ++ [line]; st_fs := st_fs s |}).

(** [os.path.exists(path)] *)
Definition os_path_exists (path : string) : Build bool := fun s =>
  (fs_exists (st_fs s) path, s).

(** [run.add_picture(path, width, height)]: the picture is added unless
    loading it raises; the result is the exception, if any. *)
Definition add_picture (r : RunRef) (path : string) (w h : Length) : Build (option string) := fun s =>
  match fs_picture_error (st_fs s) path with
  | Some e => (Some e, s)
  | None =>
      let '(_, s') := modify_run r
        (run_add_picture {| pic_path := path; pic_width := w; pic_height := h |}) s in
      (None, s')
  end.

(** [for x in l: body(x)] *)
Fixpoint for_each {A} (l : list A) (body : A -> Build unit) : Build unit :=
  match l with
  | [] => mret tt
  | x :: l' => body x ;; for_each l' body
  end.

(** [os.path.join(a, b)] on POSIX paths. *)
Definition ends_with_slash (s : string) : bool :=
  match String.length s with
  | O => false
  | S n => match String.get n s with Some c => Ascii.eqb c "/" | None => false end
  end.

Definition os_path_join (a b : string) : string :=
  if String.prefix "/" b then b
  else if (String.length a =? 0)%nat || ends_with_slash a then a +:+ b
  else a +:+ "/" +:+ b.

(** Property setters as the scripts write them. *)
Definition set_bold r b := modify_run r (run_set_bold b).
Definition set_font_size r l := modify_run r (run_set_size l).
Definition set_font_name r n := modify_run r (run_set_name n).
Definition set_font_color r c := modify_run r (run_set_color c).
Definition element_set r k v := modify_run r (run_set_attr k v).
Definition set_alignment p a := modify_paragraph p (par_set_alignment a).
Definition set_format (p : ParaRef) (f : ParagraphFormat -> ParagraphFormat) : Build unit :=
  modify_paragraph p (fun para => par_set_format (f (paragraph_format para)) para).
Definition set_space_before p l := set_format p (fmt_set_space_before l).
Definition set_space_after p l := set_format p (fmt_set_space_after l).
Definition set_line_spacing p q := set_format p (fmt_set_line_spacing q).
Definition set_left_indent p l := set_format p (fmt_set_left_indent l).
Definition set_right_indent p l := set_format p (fmt_set_right_indent l).
Definition set_first_line_indent p l := set_format p (fmt_set_first_line_indent l).
Definition set_widow_control p b := set_format p (fmt_set_widow_control b).
Definition set_keep_together p b := set_format p (fmt_set_keep_together b).

(** ** create_resume_twocolumn3.py

    create_resume_app_developer.py defines the same helper functions and
    the same page grid, line for line; the module stands for both. *)

Module TwoColumn3.

Definition WHITE : RGBColor := RGB 255 255 255.
Definition BLACK : RGBColor := RGB 0 0 0.
Definition DARK_BLUE : RGBColor := RGB 0 51 102.

Definition set_margins (section : DocSection) (top bottom left right : PyNumber)
    : (PyError + unit) * DocSection :=
  (value ← eval (Inches_emu top); assign_top_margin value;;
   value ← eval (Inches_emu bottom); assign_bottom_margin value;;
   value ← eval (Inches_emu left); assign_left_margin value;;
   value ← eval (Inches_emu right); assign_right_margin value) section.

Definition add_sidebar_header (text : string) (is_main : bool) : Build ParaRef :=
  p ← add_paragraph;
  run ← add_run p (PyStr.upper text);
  set_bold run true;;
  (if is_main then set_font_size run (Pt 12) else set_font_size run (Pt 10));;
  set_font_name run "Calibri";;
  set_font_color run WHITE;;
  set_space_before p (Pt 8);;
  set_space_after p (Pt 4);;
  mret p.

Definition add_main_header (text : string) : Build ParaRef :=
  p ← add_paragraph;
  run ← add_run p (PyStr.upper text);
  set_bold run true;;
  set_font_size run (Pt 10.5);;
  set_font_name run "Calibri";;
  set_font_color run DARK_BLUE;;
  set_space_before p (Pt 5);;
  set_space_after p (Pt 1);;
  set_line_spacing p 1.0;;
  mret p.

Definition add_sidebar_text (text : string) (size : Length) (color : RGBColor) : Build ParaRef :=
  p ← add_paragraph;
  run ← add_run p text;
  set_font_size run size;;
  set_font_name run "Calibri";;
  set_font_color run color;;
  set_space_after p (Pt 2);;
  set_line_spacing p 1.1;;
  mret p.

Definition add_sidebar_text_with_icon (icon_path text : string)
    (size : Length) (color : RGBColor) (icon_size : Length) : Build ParaRef :=
  p ← add_paragraph;
  set_alignment p ALIGN_LEFT;;
  set_widow_control p false;;
  set_keep_together p true;;
  found ← os_path_exists icon_path;
  (if found : bool then
     icon_run ← add_run p "";
     add_picture icon_run icon_path icon_size icon_size;;
     mret tt
   else mret tt);;
  space_run ← add_run p " ";
  set_font_size space_run (Pt 3);;
  (if PyStr.contains "@" text then
     let text := PyStr.replace " " NBSP text in
     text_run ← add_run p text;
     set_font_size text_run size;;
     set_font_name text_run "Calibri";;
     set_font_color text_run color;;
     element_set text_run "w:noBreak" "1"
   else
     text_run ← add_run p text;
     set_font_size text_run size;;
     set_font_name text_run "Calibri";;
     set_font_color text_run color);;
  set_space_after p (Pt 2);;
  set_line_spacing p 1.0;;
  set_left_indent p (Pt 0);;
  mret p.

Definition add_sidebar_bullet (text : string) (size : Length) : Build ParaRef :=
  p ← add_paragraph;
  bullet_run ← add_run p BULLET;
  set_font_size bullet_run size;;
  set_font_name bullet_run "Calibri";;
  set_font_color bullet_run WHITE;;
  set_bold bullet_run true;;
  text_run ← add_run p text;
  set_font_size text_run size;;
  set_font_name text_run "Calibri";;
  set_font_color text_run WHITE;;
  set_space_after p (Pt 1.5);;
  set_left_indent p (Inches 0.15);;
  set_line_spacing p 1.05;;
  mret p.

Definition add_compact_bullet (text : string) : Build ParaRef :=
  p ← add_paragraph;
  bullet_run ← add_run p BULLET;
  set_font_size bullet_run (Pt 9);;
  set_font_name bullet_run "Calibri";;
  set_font_color bullet_run BLACK;;
  set_bold bullet_run true;;
  set_space_after p (Pt 1.5);;
  set_left_indent p (Inches 0.2);;
  set_line_spacing p 1.05;;
  (if PyStr.contains DELIM text then
     let parts := PyStr.split DELIM text in
     for_each (PyStr.enumerate parts) (fun '(i, part) =>
       if (i mod 2 =? 0)%nat then
         if negb (String.eqb part "") then
           run ← add_run p part;
           set_font_size run (Pt 9);;
           set_font_name run "Calibri";;
           set_font_color run BLACK
         else mret tt
       else
         run ← add_run p part;
         set_font_size run (Pt 9);;
         set_font_name run "Calibri";;
         set_bold run true;;
         set_font_color run DARK_BLUE)
   else
     run ← add_run p text;
     set_font_size run (Pt 9);;
     set_font_name run "Calibri";;
     set_font_color run BLACK);;
  mret p.

(** The page grid of [create_twocolumn_resume]: the function from its start
    to the two [set_cell_margins] calls.  What follows in the function
    adds paragraphs and runs to the two cells and saves the document; it
    does not touch the table, row or cell properties again. *)

Definition border_names : list string :=
  ["top"; "left"; "bottom"; "right"; "insideH"; "insideV"].

Definition tblBorders : Xml :=
  Elem "w:tblBorders" []
    (map (fun border_name =>
            Elem ("w:" +:+ border_name)
              [("w:val", "nil"); ("w:sz", "0"); ("w:space", "0"); ("w:color", "FFFFFF")] [])
         border_names).

Definition trHeight : Xml := Elem "w:trHeight" [("w:val", "0"); ("w:hRule", "auto")] [].

Definition shading : Xml := Elem "w:shd" [("w:fill", "003366")] [].

Definition set_cell_margins (top bottom left right : Q) (cell : Cell) : Cell :=
  let tcMar :=
    Elem "w:tcMar" []
      (map (fun '(margin_name, margin_value) =>
              Elem ("w:" +:+ margin_name)
                [("w:w", str_int (margin_value * 1440)); ("w:type", "dxa")] [])
           [("top", top); ("bottom", bottom); ("left", left); ("right", right)]) in
  cell_set_tcPr (pr_append tcMar (tcPr cell)) cell.

Definition create_twocolumn_resume_grid (d : TableDefaults) (default_section : DocSection)
    : PyError + Document :=
  let doc := new_document default_section in
  match sections doc !! 0%nat with
  | None => inl IndexError
  | Some section =>
  match set_margins section (float_literal 0.2) (float_literal 0.3) (float_literal 0.3)
          (float_literal 0.15) with
  | (inl e, _) => inl e
  | (inr _, section) =>
  let sections' := <[0%nat := section]> (sections doc) in
  let table := new_table d 1 2 in
  let table := table_set_width 0 (Inches 2.2) table in
  let table := table_set_width 1 (Inches 5.3) table in
  let table := table_set_tblPr (pr_append tblBorders (tblPr table)) table in
  let table := table_alter_row 0 (fun tr => row_set_trPr (pr_append trHeight (trPr tr)) tr) table in
  let table := table_alter_cell 0 0
    (fun left_cell => cell_set_tcPr (pr_append shading (tcPr left_cell)) left_cell) table in
  let table := table_alter_cell 0 0 (cell_set_vertical_alignment VALIGN_TOP) table in
  let table := table_alter_cell 0 1 (cell_set_vertical_alignment VALIGN_TOP) table in
  let table := table_alter_cell 0 0 (set_cell_margins 0.0 0.1 0.15 0.1) table in
  let table := table_alter_cell 0 1 (set_cell_margins 0.0 0.1 0.15 0.1) table in
  inr {| sections := sections'; normal_font_name := Some "Calibri";
         normal_font_size := Some (Pt 9.5); tables := tables doc ++ [table] |}
  end
  end.

End TwoColumn3.

(** ** create_resume_rajnish_template.py and create_resume_react_template.py

    The two scripts define the same helper functions; they differ in eight
    spacing constants, which [Consts] collects. *)

Module Template.

Record Consts := {
  header_space_before : Length;      (* add_section_header: p space_before *)
  border_space_after : Length;       (* add_section_header: border_p space_after *)
  border_right_indent_left : Length; (* add_section_header: border_p right_indent, left column *)
  border_right_indent_right : Length;(* add_section_header: border_p right_indent, right column *)
  body_space_after : Length;         (* add_body_text *)
  body_line_spacing : Q;             (* add_body_text *)
  bullet_space_after : Length;       (* add_bullet *)
  bullet_line_spacing : Q;           (* add_bullet *)
  contact_space_after : Length       (* add_contact_header_centered *)
}.

Definition SERIF_FONT : string := "Times New Roman".
Definition SANS_SERIF_FONT : string := "Times New Roman".
Definition SECTION_ACCENT_COLOR : string := "2D5A5A".
Definition BLACK : RGBColor := RGB 0 0 0.

Definition ICON_FILES : gmap string string :=
  <["profile" := "profile.png"]>
  (<["skills" := "skill.png"]>
  (<["education" := "education.png"]>
  (<["certificates" := "certificate.png"]>
  (<["findmeonline" := "findme.png"]>
  (<["experience" := "experience.png"]>
  (<["projects" := "project.png"]>
  (<["external_link" := "link.png"]>
  (<["location" := "location-pin.png"]>
  (<["email" := "email.png"]>
  (<["phone" := "call.png"]> ∅)))))))))).

Definition get_icon_path (icon_key : string) : Build (option string) :=
  match ICON_FILES !! icon_key with
  | None => mret None
  | Some icon_file =>
      fun s =>
        let icon_path := os_path_join (os_path_join (fs_script_dir (st_fs s)) "icon") icon_file in
        (if fs_exists (st_fs s) icon_path then Some icon_path else None, s)
  end.

Definition set_margins (section : DocSection) (top bottom left right : PyNumber)
    : (PyError + unit) * DocSection :=
  (value ← eval (Inches_emu top); assign_top_margin value;;
   value ← eval (Inches_emu bottom); assign_bottom_margin value;;
   value ← eval (Inches_emu left); assign_left_margin value;;
   value ← eval (Inches_emu right); assign_right_margin value) section.

(** The [w:pPr] element holding the accent-colored bottom border. *)
Definition bottom_border_pPr : Xml :=
  Elem "w:pPr" []
    [Elem "w:pBdr" []
      [Elem "w:bottom"
        [("w:val", "single"); ("w:sz", "12"); ("w:space", "1"); ("w:color", SECTION_ACCENT_COLOR)]
        []]].

Definition _add_short_bold_line : Build ParaRef :=
  p ← add_paragraph;
  set_space_before p (Pt 0);;
  set_left_indent p (Pt 0);;
  set_right_indent p (Inches 3);;
  modify_paragraph p (par_insert_pPr bottom_border_pPr);;
  mret p.

Section WithConsts.
Variable k : Consts.

Definition add_section_header (text : string) (icon_key : option string)
    (is_left_column : bool) : Build ParaRef :=
  p ← add_paragraph;
  set_space_before p (header_space_before k);;
  set_space_after p (Pt 0);;
  set_line_spacing p 1.0;;
  set_left_indent p (Pt 0);;
  set_first_line_indent p (Pt 0);;
  match icon_key with
  | Some key =>
      if negb (String.eqb key "") then
        icon_path ← get_icon_path key;
        match icon_path with
        | Some icon_path =>
            (* try: *)
            set_format p (fmt_set_ind None);;
            (if is_left_column : bool then
               set_format p (fmt_set_ind
                 (Some {| ind_left := Some (Twips (-144)); ind_right := None;
                          ind_first_line := Some (Twips 0) |}))
             else
               set_format p (fmt_set_ind
                 (Some {| ind_left := Some (Twips (-144)); ind_right := None;
                          ind_first_line := Some (Twips 0) |})));;
            icon_run ← add_run p "";
            raised ← add_picture icon_run icon_path (Pt 10) (Pt 10);
            match raised with
            | None =>
                sp ← add_run p THIN_SPACE;
                set_font_size sp (Pt 0.5)
            | Some e =>
                (* except Exception as e: *)
                print ("Warning: Could not add icon " +:+ key +:+ ": " +:+ e)
            end
        | None => mret tt
        end
      else mret tt
  | None => mret tt
  end;;
  run ← add_run p (PyStr.upper text);
  set_bold run true;;
  set_font_size run (Pt 11);;
  set_font_name run SANS_SERIF_FONT;;
  set_font_color run BLACK;;
  border_p ← add_paragraph;
  set_space_before border_p (Pt 0);;
  set_space_after border_p (border_space_after k);;
  set_line_spacing border_p 1.0;;
  set_left_indent border_p (Pt 0);;
  (if is_left_column then
     set_right_indent border_p (border_right_indent_left k)
   else
     set_right_indent border_p (border_right_indent_right k));;
  border_run ← add_run border_p NBSP;
  set_font_size border_run (Pt 1);;
  modify_paragraph border_p (par_insert_pPr bottom_border_pPr);;
  mret p.

Definition add_body_text (text : string) (size : Length) : Build ParaRef :=
  p ← add_paragraph;
  run ← add_run p text;
  set_font_size run size;;
  set_font_name run SANS_SERIF_FONT;;
  set_font_color run BLACK;;
  set_space_after p (body_space_after k);;
  set_line_spacing p (body_line_spacing k);;
  mret p.

Definition add_bullet (text : string) (size : Length) : Build ParaRef :=
  p ← add_paragraph;
  bullet_run ← add_run p BULLET;
  set_font_size bullet_run size;;
  set_font_name bullet_run SANS_SERIF_FONT;;
  set_font_color bullet_run BLACK;;
  set_bold bullet_run true;;
  set_space_after p (bullet_space_after k);;
  set_left_indent p (Inches 0.15);;
  set_line_spacing p (bullet_line_spacing k);;
  (if PyStr.contains DELIM text then
     let parts := PyStr.split DELIM text in
     for_each (PyStr.enumerate parts) (fun '(i, part) =>
       if negb (String.eqb part "") then
         run ← add_run p part;
         set_font_size run size;;
         set_font_name run SANS_SERIF_FONT;;
         set_font_color run BLACK;;
         (if (i mod 2 =? 1)%nat then set_bold run true else mret tt)
       else mret tt)
   else
     run ← add_run p text;
     set_font_size run size;;
     set_font_name run SANS_SERIF_FONT;;
     set_font_color run BLACK);;
  mret p.

Definition add_contact_header_centered (icon_dir location email phone : string)
    (icon_size : Length) : Build ParaRef :=
  p ← add_paragraph;
  set_alignment p ALIGN_CENTER;;
  set_space_after p (contact_space_after k);;
  let items := [("location", location); ("email", email); ("phone", phone)] in
  for_each (PyStr.enumerate items) (fun '(i, (icon_key, text)) =>
    icon_path ← get_icon_path icon_key;
    match icon_path with
    | Some icon_path =>
        (* try: *)
        icon_run ← add_run p "";
        raised ← add_picture icon_run icon_path icon_size icon_size;
        match raised with
        | None =>
            sp ← add_run p THIN_SPACE;
            set_font_size sp (Pt 2)
        | Some e =>
            (* except Exception as e: *)
            print ("Warning: Could not add icon " +:+ icon_key +:+ ": " +:+ e)
        end
    | None => mret tt
    end;;
    txt ← add_run p text;
    set_font_size txt (Pt 10);;
    set_font_name txt SANS_SERIF_FONT;;
    set_font_color txt BLACK;;
    (if PyStr.contains "@" text then element_set txt "w:noBreak" "1" else mret tt);;
    (if (i <? List.length items - 1)%nat then
       sep ← add_run p "  ";
       set_font_size sep (Pt 4)
     else mret tt));;
  mret p.

End WithConsts.
End Template.

Module Rajnish.

Definition consts : Template.Consts :=
  {| Template.header_space_before := Pt 8;
     Template.border_space_after := Pt 4;
     Template.border_right_indent_left := Inches 1.5;
     Template.border_right_indent_right := Inches 0.5;
     Template.body_space_after := Pt 2;
     Template.body_line_spacing := 1.1;
     Template.bullet_space_after := Pt 1.5;
     Template.bullet_line_spacing := 1.05;
     Template.contact_space_after := Pt 6 |}.

Definition add_section_header := Template.add_section_header consts.
Definition add_body_text := Template.add_body_text consts.
Definition add_bullet := Template.add_bullet consts.
Definition add_contact_header_centered := Template.add_contact_header_centered consts.

End Rajnish.

Module ReactTemplate.

Definition consts : Template.Consts :=
  {| Template.header_space_before := Pt 5;
     Template.border_space_after := Pt 2;
     Template.border_right_indent_left := Inches 0.5;
     Template.border_right_indent_right := Inches 0.5;
     Template.body_space_after := Pt 1;
     Template.body_line_spacing := 1.05;
     Template.bullet_space_after := Pt 1;
     Template.bullet_line_spacing := 1.0;
     Template.contact_space_after := Pt 3 |}.

Definition add_section_header := Template.add_section_header consts.
Definition add_body_text := Template.add_body_text consts.
Definition add_bullet := Template.add_bullet consts.
Definition add_contact_header_centered := Template.add_contact_header_centered consts.

End ReactTemplate.

(** ** convert_to_pdf.py

    The converter talks to the outside world: it asks whether files exist,
    imports and calls docx2pdf, spawns LibreOffice and prints.  A run is
    modelled against an environment that answers each request from the
    history of all earlier requests, so the answers may change as the
    run goes on (the PDF exists after a successful conversion).  Python
    exceptions are values; [try]/[except] is [try_except].  The
    exceptions of the model are instances of [Exception], the class the
    two outer [except] clauses name; [KeyboardInterrupt] and
    [SystemExit], which those clauses let pass, and a [print] that fails
    are outside the model. *)

Module ConvertToPdf.

Inductive ExnClass := FileNotFoundError | TimeoutExpired | OtherException.

(** An instance of a subclass of [Exception] and its [str()]. *)
Record Exn := { exn_class : ExnClass; exn_str : string }.

Inductive Event :=
  | EPrint (line : string)
  | EExists (path : string)
  | EImportDocx2pdf
  | EConvert (docx pdf : string)
  | ERun (argv : list string) (timeout : Z).

Definition Trace := list Event.

Record Env := {
  (** [os.path.exists(path)] *)
  env_exists : Trace -> string -> bool;
  (** [from docx2pdf import convert]: the exception raised, if any *)
  env_import : Trace -> option Exn;
  (** [convert(docx, pdf)]: the exception raised, if any *)
  env_convert : Trace -> string -> string -> option Exn;
  (** [subprocess.run(argv, capture_output=True, timeout=t)]: the
      exception raised, or the return code of the process *)
  env_run : Trace -> list string -> Z -> Exn + Z
}.

Definition Conv (A : Type) : Type := Env -> Trace -> (Exn + A) * Trace.

#[global] Instance Conv_ret : MRet Conv := fun A x env h => (inr x, h).
#[global] Instance Conv_bind : MBind Conv :=
  fun A B f m env h =>
    match m env h with
    | (inl e, h') => (inl e, h')
    | (inr x, h') => f x env h'
    end.

(** [try: body / except <classes>: handler]: an exception of [body] whose
    class the clause names is handled, any other is raised further. *)
Definition try_except {A} (body : Conv A) (catches : Exn -> bool) (handler : Exn -> Conv A)
    : Conv A :=
  fun env h =>
    match body env h with
    | (inl e, h') => if catches e then handler e env h' else (inl e, h')
    | (inr x, h') => (inr x, h')
    end.

Definition print (line : string) : Conv unit := fun env h => (inr tt, h ++ [EPrint line]).

Definition os_path_exists (path : string) : Conv bool := fun env h =>
  (inr (env_exists env h path), h ++ [EExists path]).

Definition import_docx2pdf : Conv unit := fun env h =>
  (match env_import env h with Some e => inl e | None => inr tt end, h ++ [EImportDocx2pdf]).

Definition convert (docx pdf : string) : Conv unit := fun env h =>
  (match env_convert env h docx pdf with Some e => inl e | None => inr tt end,
   h ++ [EConvert docx pdf]).

Definition subprocess_run (argv : list string) (timeout : Z) : Conv Z := fun env h =>
  (env_run env h argv timeout, h ++ [ERun argv timeout]).

(** [except Exception] and [except (FileNotFoundError, subprocess.TimeoutExpired)] *)
Definition is_Exception (e : Exn) : bool := true.
Definition is_FileNotFound_or_Timeout (e : Exn) : bool :=
  match exn_class e with
  | FileNotFoundError | TimeoutExpired => true
  | OtherException => false
  end.

Definition NEWLINE : string := String (ascii_of_nat 10) EmptyString.
Definition CHECK_MARK : string :=
  String (ascii_of_nat 226) (String (ascii_of_nat 156) (String (ascii_of_nat 147) EmptyString)).

(** [s * n] *)
Fixpoint str_repeat (s : string) (n : nat) : string :=
  match n with
  | O => EmptyString
  | S n' => s +:+ str_repeat s n'
  end.

Definition docx_file : string := "Prabhat_Kumar_Resume_TwoColumn.docx".
Definition pdf_file : string := "Prabhat_Kumar_Resume_TwoColumn.pdf".

Definition libreoffice_paths : list string :=
  ["/Applications/LibreOffice.app/Contents/MacOS/soffice"; "libreoffice"; "soffice"].

Definition argv_of (lo_path : string) : list string :=
  [lo_path; "--headless"; "--convert-to"; "pdf"; "--outdir"; "."; docx_file].

Definition success_line : string := CHECK_MARK +:+ " Successfully created: " +:+ pdf_file.

(** The lines printed when every method has failed. *)
Definition remediation : list string :=
  [ NEWLINE +:+ str_repeat "=" 60;
    "PDF conversion failed. Please try one of these options:";
    str_repeat "=" 60;
    NEWLINE +:+ "Option 1: Use Microsoft Word";
    "  - Open the DOCX file in Microsoft Word";
    "  - Go to File > Export > PDF";
    "  - Save as PDF";
    NEWLINE +:+ "Option 2: Use online converter";
    "  - Visit: https://www.ilovepdf.com/word-to-pdf";
    "  - Upload the DOCX file and convert";
    NEWLINE +:+ "Option 3: Install LibreOffice";
    "  - Download from: https://www.libreoffice.org/";
    "  - Then run this script again";
    str_repeat "=" 60 ].

Fixpoint print_all (lines : list string) : Conv unit :=
  match lines with
  | [] => mret tt
  | l :: ls => print l ;; print_all ls
  end.

(** A statement list that may [return]: [Some v] is [return v], [None]
    means control reached the end of the list. *)

(** Method 1, the body of the first [try]. *)
Definition try_native : Conv (option bool) :=
  import_docx2pdf;;
  print "Converting DOCX to PDF using docx2pdf...";;
  convert docx_file pdf_file;;
  made ← os_path_exists pdf_file;
  if made : bool then
    print success_line;;
    mret (Some true)
  else mret None.

(** One round of the loop over [libreoffice_paths]: the inner [try]. *)
Definition try_candidate (lo_path : string) : Conv (option bool) :=
  try_except
    (returncode ← subprocess_run (argv_of lo_path) 30;
     if (returncode =? 0)%Z then
       made ← os_path_exists pdf_file;
       if made : bool then
         print success_line;;
         mret (Some true)
       else mret None
     else mret None)
    is_FileNotFound_or_Timeout
    (fun _ => (* continue *) mret None).

(** [for lo_path in paths: ...] *)
Fixpoint try_candidates (paths : list string) : Conv (option bool) :=
  match paths with
  | [] => mret None
  | lo_path :: rest =>
      r ← try_candidate lo_path;
      match r with
      | Some v => mret (Some v)
      | None => try_candidates rest
      end
  end.

Definition convert_docx_to_pdf : Conv bool :=
  found ← os_path_exists docx_file;
  if negb found then
    print ("Error: " +:+ docx_file +:+ " not found!");;
    mret false
  else
    r1 ← try_except try_native is_Exception
           (fun e => print ("docx2pdf failed: " +:+ exn_str e);; mret None);
    match r1 with
    | Some v => mret v
    | None =>
        r2 ← try_except (try_candidates libreoffice_paths) is_Exception
               (fun e => print ("LibreOffice conversion failed: " +:+ exn_str e);; mret None);
        match r2 with
        | Some v => mret v
        | None =>
            print_all remediation;;
            mret false
        end
    end.

(** What a run appends to the history, and the lines it prints. *)
Definition printed (t : Trace) : list string :=
  omap (fun ev => match ev with EPrint l => Some l | _ => None end) t.

Definition spawned (t : Trace) : list (list string * Z) :=
  omap (fun ev => match ev with ERun a t => Some (a, t) | _ => None end) t.

End ConvertToPdf.

(** * Definitions used to state the properties *)

(** ** Cells and what builders leave in them *)

(** The state of a builder on cell [c] holding the paragraphs [ps]. *)
Definition mkSt (c : Cell) (ps : list Paragraph) (out : list string) (fs : FileSystem) : St :=
  {| st_cell := cell_set_paragraphs ps c; st_out := out; st_fs := fs |}.

(** The bold-delimiter convention as the specification words it: split
    the text on the delimiter; the segment at an even index is plain, the
    segment at an odd index is emphasized. *)
Definition tagged_split (text : string) : list (string * bool) :=
  map (fun '(i, part) => (part, Nat.odd i)) (PyStr.enumerate (PyStr.split DELIM text)).

(** A run as the reader sees it: its text and whether it is bold. *)
Definition is_bold (r : Run) : bool :=
  match run_bold r with Some true => true | _ => false end.

Definition styled (r : Run) : string * bool := (run_text r, is_bold r).

(** The styled runs of the paragraph a builder returns. *)
Definition emitted_runs (b : Build ParaRef) (s : St) : list (string * bool) :=
  let '(p, s') := b s in
  match paragraphs (st_cell s') !! p with
  | Some para => map styled (runs para)
  | None => []
  end.

(** The segments a builder keeps. *)
Definition nonempty (seg : string * bool) : bool := negb (String.eqb (fst seg) "").
Definition bold_or_nonempty (seg : string * bool) : bool := snd seg || nonempty seg.

(** The bullet glyph, in bold. *)
Definition GLYPH : string * bool := (BULLET, true).

(** ** The runs and paragraphs the builders make *)

(** A text run with all its character formatting set. *)
Definition text_run (text : string) (bold : option bool) (size : Length) (name : string)
    (color : RGBColor) : Run :=
  {| run_text := text; run_pictures := []; run_bold := bold; font_size := Some size;
     font_name := Some name; font_color := Some color; run_attrs := [] |}.

Definition bullet_format (after : Length) (left : Length) (spacing : Q) : ParagraphFormat :=
  {| space_before := None; space_after := Some after; line_spacing := Some spacing;
     ind := Some {| ind_left := Some left; ind_right := None; ind_first_line := None |};
     widow_control := None; keep_together := None |}.

(** The runs [add_compact_bullet] makes of the enumerated segments: an
    empty segment at an even index makes none. *)
Fixpoint compact_runs (l : list (nat * string)) : list Run :=
  match l with
  | [] => []
  | (i, part) :: l' =>
      (if (i mod 2 =? 0)%nat then
         if negb (String.eqb part "") then
           [text_run part None (Pt 9) "Calibri" TwoColumn3.BLACK]
         else []
       else [text_run part (Some true) (Pt 9) "Calibri" TwoColumn3.DARK_BLUE])
      ++ compact_runs l'
  end.

(** The runs [add_bullet] makes of the enumerated segments: an empty
    segment makes none. *)
Fixpoint bullet_runs (size : Length) (l : list (nat * string)) : list Run :=
  match l with
  | [] => []
  | (i, part) :: l' =>
      (if negb (String.eqb part "") then
         [text_run part (if (i mod 2 =? 1)%nat then Some true else None) size
                   Template.SANS_SERIF_FONT Template.BLACK]
       else [])
      ++ bullet_runs size l'
  end.


Definition header_format (before after : Length) (spacing : option Q) : ParagraphFormat :=
  {| space_before := Some before; space_after := Some after; line_spacing := spacing;
     ind := None; widow_control := None; keep_together := None |}.

(** The icon run of an icon+text row: none when the file is missing, an
    empty run when the image does not load. *)
Definition sidebar_icon_runs (fs : FileSystem) (icon_path : string) (icon_size : Length)
    : list Run :=
  if fs_exists fs icon_path then
    [match fs_picture_error fs icon_path with
     | None => run_add_picture {| pic_path := icon_path; pic_width := icon_size;
                                  pic_height := icon_size |} (new_run "")
     | Some _ => new_run ""
     end]
  else [].

(** The text run of an icon+text row of the two-column scripts. *)
Definition sidebar_text_run (text : string) (size : Length) (color : RGBColor) : Run :=
  if PyStr.contains "@" text then
    run_set_attr "w:noBreak" "1"
      (text_run (PyStr.replace " " NBSP text) None size "Calibri" color)
  else text_run text None size "Calibri" color.

Definition sidebar_icon_row (fs : FileSystem) (icon_path text : string)
    (size : Length) (color : RGBColor) (icon_size : Length) : Paragraph :=
  {| runs := sidebar_icon_runs fs icon_path icon_size
             ++ [run_set_size (Pt 3) (new_run " "); sidebar_text_run text size color];
     alignment := Some ALIGN_LEFT;
     paragraph_format :=
       {| space_before := None; space_after := Some (Pt 2); line_spacing := Some 1.0%Q;
          ind := Some {| ind_left := Some (Pt 0); ind_right := None; ind_first_line := None |};
          widow_control := Some false; keep_together := Some true |};
     extra_pPr := [] |}.

(** The icon file [get_icon_path] resolves a key to. *)
Definition icon_lookup (fs : FileSystem) (icon_key : string) : option string :=
  match Template.ICON_FILES !! icon_key with
  | None => None
  | Some icon_file =>
      let icon_path := os_path_join (os_path_join (fs_script_dir fs) "icon") icon_file in
      if fs_exists fs icon_path then Some icon_path else None
  end.

(** The icon a section header asks for, if it resolves to a file. *)
Definition header_icon (fs : FileSystem) (icon_key : option string) : option (string * string) :=
  match icon_key with
  | Some key =>
      if negb (String.eqb key "") then (fun path => (key, path)) <$> icon_lookup fs key
      else None
  | None => None
  end.

Definition picture_run (path : string) (size : Length) : Run :=
  run_add_picture {| pic_path := path; pic_width := size; pic_height := size |} (new_run "").

(** The runs in front of a header label or contact text: the picture run
    and a thin space, or the empty run left behind when the image did not
    load; nothing when no icon file was found. *)
Definition icon_prefix (fs : FileSystem) (icon : option string) (size gap : Length) : list Run :=
  match icon with
  | Some path =>
      match fs_picture_error fs path with
      | None => [picture_run path size; run_set_size gap (new_run THIN_SPACE)]
      | Some _ => [new_run ""]
      end
  | None => []
  end.

Definition icon_warning (fs : FileSystem) (icon : option (string * string)) : list string :=
  match icon with
  | Some (key, path) =>
      match fs_picture_error fs path with
      | None => []
      | Some e => ["Warning: Could not add icon " +:+ key +:+ ": " +:+ e]
      end
  | None => []
  end.

Definition label_run (text : string) : Run :=
  text_run (PyStr.upper text) (Some true) (Pt 11) Template.SANS_SERIF_FONT Template.BLACK.

Definition label_paragraph (k : Template.Consts) (fs : FileSystem) (text : string)
    (icon_key : option string) : Paragraph :=
  {| runs := icon_prefix fs (snd <$> header_icon fs icon_key) (Pt 10) (Pt 0.5) ++ [label_run text];
     alignment := None;
     paragraph_format :=
       {| space_before := Some (Template.header_space_before k);
          space_after := Some (Pt 0); line_spacing := Some 1.0%Q;
          ind := Some (match header_icon fs icon_key with
                       | Some _ => {| ind_left := Some (Twips (-144)); ind_right := None;
                                      ind_first_line := Some (Twips 0) |}
                       | None => {| ind_left := Some (Pt 0); ind_right := None;
                                    ind_first_line := Some (Pt 0) |}
                       end);
          widow_control := None; keep_together := None |};
     extra_pPr := [] |}.

(** The accent rule under a section header. *)
Definition rule_paragraph (k : Template.Consts) (is_left_column : bool) : Paragraph :=
  {| runs := [run_set_size (Pt 1) (new_run NBSP)];
     alignment := None;
     paragraph_format :=
       {| space_before := Some (Pt 0);
          space_after := Some (Template.border_space_after k);
          line_spacing := Some 1.0%Q;
          ind := Some {| ind_left := Some (Pt 0);
                         ind_right := Some (if is_left_column
                                            then Template.border_right_indent_left k
                                            else Template.border_right_indent_right k);
                         ind_first_line := None |};
          widow_control := None; keep_together := None |};
     extra_pPr := [Template.bottom_border_pPr] |}.

(** The text run of a contact item of the template scripts: the text is
    kept as it is. *)
Definition contact_text_run (text : string) : Run :=
  if PyStr.contains "@" text then
    run_set_attr "w:noBreak" "1" (text_run text None (Pt 10) Template.SANS_SERIF_FONT Template.BLACK)
  else text_run text None (Pt 10) Template.SANS_SERIF_FONT Template.BLACK.

Definition contact_item_runs (fs : FileSystem) (icon_size : Length) (n : nat)
    (item : nat * (string * string)) : list Run :=
  let '(i, (icon_key, text)) := item in
  icon_prefix fs (icon_lookup fs icon_key) icon_size (Pt 2)
  ++ [contact_text_run text]
  ++ (if (i <? n)%nat then [run_set_size (Pt 4) (new_run "  ")] else []).

Definition contact_item_warning (fs : FileSystem) (item : nat * (string * string)) : list string :=
  let '(_, (icon_key, _)) := item in
  icon_warning fs ((fun path => (icon_key, path)) <$> icon_lookup fs icon_key).

Definition contact_items (location email phone : string) : list (nat * (string * string)) :=
  PyStr.enumerate [("location", location); ("email", email); ("phone", phone)].

(** ** Concrete cells, file systems and sections *)

Definition empty_cell : Cell := {| tcPr := None; vertical_alignment := None; paragraphs := [] |}.

Definition no_files : FileSystem :=
  {| fs_exists := fun _ => false; fs_picture_error := fun _ => None;
     fs_script_dir := "/home/user/resume" |}.

Definition all_files : FileSystem :=
  {| fs_exists := fun _ => true; fs_picture_error := fun _ => None;
     fs_script_dir := "/home/user/resume" |}.

Definition start (fs : FileSystem) : St := {| st_cell := empty_cell; st_out := []; st_fs := fs |}.

Definition blank_section : DocSection :=
  {| top_margin := None; bottom_margin := None; left_margin := None; right_margin := None |}.

(** ** Predicates on builders *)

(** The paragraph a builder returns, read back from the cell. *)
Definition returned_paragraph (b : Build ParaRef) (s : St) : option Paragraph :=
  paragraphs (st_cell (b s).2) !! (b s).1.

(** A builder appends to the cell: the paragraphs it finds stay where
    and as they are, the new ones come after them, and the proxy it
    returns designates the first new paragraph. *)
Definition appends_only (b : Build ParaRef) : Prop :=
  forall s : St, exists (node : Paragraph) (more : list Paragraph),
    paragraphs (st_cell (b s).2) = paragraphs (st_cell s) ++ node :: more
    /\ (b s).1 = List.length (paragraphs (st_cell s))
    /\ returned_paragraph b s = Some node
    /\ (forall i para, paragraphs (st_cell s) !! i = Some para ->
                       paragraphs (st_cell (b s).2) !! i = Some para)
    /\ tcPr (st_cell (b s).2) = tcPr (st_cell s)
    /\ vertical_alignment (st_cell (b s).2) = vertical_alignment (st_cell s).

(** A cell that holds one paragraph, and the same cell after a builder
    has run on it. *)
Definition one_paragraph_cell : St := mkSt empty_cell [new_paragraph] [] no_files.
Definition after_sidebar_text : St :=
  (TwoColumn3.add_sidebar_text "Gurugram" (Pt 9) TwoColumn3.WHITE one_paragraph_cell).2.

(** The path [get_icon_path] tries for an icon file. *)
Definition icon_file_path (fs : FileSystem) (icon_file : string) : string :=
  os_path_join (os_path_join (fs_script_dir fs) "icon") icon_file.

(** No file exists for the key (or the key is unknown). *)
Definition icon_missing (fs : FileSystem) (icon_key : string) : Prop :=
  forall icon_file, Template.ICON_FILES !! icon_key = Some icon_file ->
                    fs_exists fs (icon_file_path fs icon_file) = false.

Definition no_picture (para : Paragraph) : Prop :=
  Forall (fun r => run_pictures r = []) (runs para).

(** The [w:noBreak] attribute set on the run element. *)
Definition no_break (r : Run) : option string := attr_get "w:noBreak" (run_attrs r).

(** The contact row with an e-mail text that holds a space. *)
Definition contact_example : Build ParaRef :=
  Rajnish.add_contact_header_centered "icon" "Gurugram" "first last@example.com" "9939147728" (Pt 9).




(** ** The page grid *)

(** The table properties python-docx 1.x writes for a new table. *)
Definition python_docx_defaults : TableDefaults :=
  {| fresh_tblPr := Some [Elem "w:tblW" [("w:type", "auto"); ("w:w", "0")] [];
                          Elem "w:tblLook" [("w:firstColumn", "1"); ("w:firstRow", "1")] []];
     fresh_trPr := None;
     fresh_tcPr := Some [Elem "w:tcW" [("w:type", "dxa"); ("w:w", "0")] []] |}.

(** A new cell carries no shading of its own. *)
Definition fresh_cell_unshaded (d : TableDefaults) : Prop :=
  List.find (fun x => String.eqb (xml_tag x) "w:shd") (default [] (fresh_tcPr d)) = None.

(** The border element makes every edge of the table [nil]. *)
Definition all_edges_nil (borders : Xml) : Prop :=
  xml_tag borders = "w:tblBorders"
  /\ map xml_tag (xml_children borders)
     = ["w:top"; "w:left"; "w:bottom"; "w:right"; "w:insideH"; "w:insideV"]
  /\ Forall (fun edge => attr_get "w:val" (xml_attrs edge) = Some "nil") (xml_children borders).

(** ** Texts of runs *)

(** The texts of the runs after the bullet glyph, one after the other. *)
Definition bullet_text (b : Build ParaRef) (s : St) : string :=
  String.concat "" (map fst (tail (emitted_runs b s))).

(** The text run of the icon+text row a builder returns: its last run. *)
Definition row_text_run (b : Build ParaRef) (s : St) : option Run :=
  para ← returned_paragraph b s; last (runs para).

(** ** What a builder adds *)

(** The lines a builder prints. *)
Definition new_output (b : Build ParaRef) (s : St) : list string :=
  drop (List.length (st_out s)) (st_out (b s).2).

(** The number of paragraphs a builder adds to the cell. *)
Definition paragraphs_added (b : Build ParaRef) (s : St) : nat :=
  (List.length (paragraphs (st_cell (b s).2)) - List.length (paragraphs (st_cell s)))%nat.

(** The small runs between icon and text. *)
Definition sidebar_spacer : Run := run_set_size (Pt 3) (new_run " ").
Definition header_thin_space : Run := run_set_size (Pt 0.5) (new_run THIN_SPACE).

(** A file system in which every file exists and no image loads. *)
Definition broken_images : FileSystem :=
  {| fs_exists := fun _ => true; fs_picture_error := fun _ => Some "cannot identify image file";
     fs_script_dir := "/home/user/resume" |}.

(** The number of elements with a given tag among the properties of a cell. *)
Definition count_tag (tag : string) (c : Cell) : nat :=
  List.length (List.filter (fun x => String.eqb (xml_tag x) tag) (default [] (tcPr c))).

(** The picture an icon run holds. *)
Definition icon_picture (path : string) (size : Length) : Picture :=
  {| pic_path := path; pic_width := size; pic_height := size |}.

(** The indentation of the paragraph a builder returns. *)
Definition returned_ind (b : Build ParaRef) (s : St) : option Ind :=
  para ← returned_paragraph b s; ind (paragraph_format para).

(** The state after two builders in a row, and the proxy of the second. *)
Definition then_run (b1 b2 : Build ParaRef) (s : St) : ParaRef * St := b2 (b1 s).2.

(** The number of bold runs after the bullet glyph. *)
Definition bold_runs (b : Build ParaRef) (s : St) : nat :=
  List.length (List.filter snd (tail (emitted_runs b s))).

(** ** Page margins *)

(** The lengths, in EMU, that python-docx accepts for a top or bottom
    margin and for a left or right margin. *)
Definition fits_signed_twips (emu : Z) : Prop := (-2147483648 <= emu <= 2147483647)%Z.
Definition fits_unsigned_twips (emu : Z) : Prop := (0 <= emu <= 18446744073709551615)%Z.

(** A margin as the section holds it after an assignment of [emu]. *)
Definition stored (emu : Z) : option Length := Some (Twips (Length_twips emu)).

(** ** Upper case *)




(** ** Alternation of styles *)





(** ** The converter *)

Module ConverterSpec.
Import ConvertToPdf.

Definition attempt (lo_path : string) : Event := ERun (argv_of lo_path) 30.

Definition not_found_line : string := "Error: Prabhat_Kumar_Resume_TwoColumn.docx not found!".

(** The line that opens the list of manual options. *)
Definition remediation_header : string :=
  "PDF conversion failed. Please try one of these options:".

(** The native method fails from history [h]: the import raises, or the
    conversion raises, or it returns and the PDF is still not there. *)
Definition native_fails (env : Env) (h : Trace) : Prop :=
  match env_import env h with
  | Some _ => True
  | None =>
      let h1 := h ++ [EImportDocx2pdf; EPrint "Converting DOCX to PDF using docx2pdf..."] in
      match env_convert env h1 docx_file pdf_file with
      | Some _ => True
      | None => env_exists env (h1 ++ [EConvert docx_file pdf_file]) pdf_file = false
      end
  end.

(** A candidate fails from history [h]: the spawn raises, or the process
    exits with a non-zero code, or it exits with zero and the PDF is not
    there. *)
Definition candidate_fails (env : Env) (h : Trace) (lo_path : string) : Prop :=
  match env_run env h (argv_of lo_path) 30 with
  | inl _ => True
  | inr returncode =>
      returncode <> 0%Z \/ env_exists env (h ++ [attempt lo_path]) pdf_file = false
  end.

(** The header of the manual options is not among the printed lines. *)
Definition quiet (t : Trace) : Prop :=
  Forall (fun line => line <> remediation_header) (printed t).

(** The two [except Exception as e] clauses. *)
Definition native_handler (e : Exn) : Conv (option bool) :=
  print ("docx2pdf failed: " +:+ exn_str e);; mret None.

Definition libreoffice_handler (e : Exn) : Conv (option bool) :=
  print ("LibreOffice conversion failed: " +:+ exn_str e);; mret None.

Definition nothing_exn (what : string) : Exn :=
  {| exn_class := FileNotFoundError; exn_str := what |}.

(** An environment with nothing in it: no PDF exists, docx2pdf is not
    installed, no LibreOffice binary is found. *)
Definition bare_env (docx_there : bool) : Env :=
  {| env_exists := fun _ path => docx_there && String.eqb path docx_file;
     env_import := fun _ => Some {| exn_class := OtherException;
                                    exn_str := "No module named 'docx2pdf'" |};
     env_convert := fun _ _ _ => None;
     env_run := fun _ argv _ => inl (nothing_exn "[Errno 2] No such file or directory") |}.

Definition ran_soffice (h : Trace) : bool :=
  existsb (fun ev => match ev with
                     | ERun ("soffice" :: _) _ => true
                     | _ => false
                     end) h.

(** An environment in which the third candidate works: docx2pdf is not
    installed, the application bundle is not there, [libreoffice] hangs,
    and [soffice] exits with zero and leaves the PDF behind. *)
Definition soffice_env : Env :=
  {| env_exists := fun h path =>
       String.eqb path docx_file || (String.eqb path pdf_file && ran_soffice h);
     env_import := fun _ => Some {| exn_class := OtherException;
                                    exn_str := "No module named 'docx2pdf'" |};
     env_convert := fun _ _ _ => None;
     env_run := fun _ argv _ =>
       match argv with
       | "soffice" :: _ => inr 0%Z
       | "libreoffice" :: _ =>
           inl {| exn_class := TimeoutExpired; exn_str := "timed out after 30 seconds" |}
       | _ => inl (nothing_exn "[Errno 2] No such file or directory")
       end |}.

(** A candidate cannot be used from history [h]: the binary is missing,
    or it hangs, or it exits with a non-zero code, or it exits with zero
    and leaves no PDF. *)
Definition candidate_unusable (env : Env) (h : Trace) (lo_path : string) : Prop :=
  match env_run env h (argv_of lo_path) 30 with
  | inl e => exn_class e = FileNotFoundError \/ exn_class e = TimeoutExpired
  | inr returncode =>
      returncode <> 0%Z \/ env_exists env (h ++ [attempt lo_path]) pdf_file = false
  end.

(** The events of a successful run of docx2pdf. *)
Definition native_success_events : Trace :=
  [EExists docx_file; EImportDocx2pdf; EPrint "Converting DOCX to PDF using docx2pdf...";
   EConvert docx_file pdf_file; EExists pdf_file; EPrint success_line].

(** The last two events of every successful run. *)
Definition confirmation : Trace := [EExists pdf_file; EPrint success_line].

Definition first_candidate : string := "/Applications/LibreOffice.app/Contents/MacOS/soffice".

(** An environment in which docx2pdf works. *)
Definition word_env : Env :=
  {| env_exists := fun _ _ => true;
     env_import := fun _ => None;
     env_convert := fun _ _ _ => None;
     env_run := fun _ _ _ => inl (nothing_exn "[Errno 2] No such file or directory") |}.

(** An environment in which the first candidate may not be executed, and
    one in which every candidate exits with code 1. *)
Definition permission_denied : Exn :=
  {| exn_class := OtherException; exn_str := "[Errno 13] Permission denied" |}.

Definition denied_env : Env :=
  {| env_exists := fun _ path => String.eqb path docx_file;
     env_import := fun _ => Some {| exn_class := OtherException;
                                    exn_str := "No module named 'docx2pdf'" |};
     env_convert := fun _ _ _ => None;
     env_run := fun _ _ _ => inl permission_denied |}.

Definition failing_env : Env :=
  {| env_exists := fun _ path => String.eqb path docx_file;
     env_import := fun _ => Some {| exn_class := OtherException;
                                    exn_str := "No module named 'docx2pdf'" |};
     env_convert := fun _ _ _ => None;
     env_run := fun _ _ _ => inr 1%Z |}.

(** What the run does once the loop leaves a candidate behind: it spawns
    the next candidate of the list or, behind the last one, prints the
    manual options and returns [False]. *)
Definition goes_on (after : list string) (post : Trace) (res : Exn + bool) : Prop :=
  match after with
  | next :: _ => exists post', post = attempt next :: post'
  | [] => post = map EPrint remediation /\ res = inr false
  end.

(** What follows the spawn of candidate [lo_path] at history [h] in a run
    with result [res]; [after] are the candidates behind it in the list
    and [post] the events of the run after the spawn.  Success is the PDF
    check and the success line, and [True]; a missing binary, a timeout, a
    non-zero exit code and a PDF that is not there let the run go on; any
    other exception ends the loop. *)
Definition after_spawn (env : Env) (h : Trace) (lo_path : string) (after : list string)
    (post : Trace) (res : Exn + bool) : Prop :=
  match env_run env h (argv_of lo_path) 30 with
  | inl e =>
      match exn_class e with
      | FileNotFoundError | TimeoutExpired => goes_on after post res
      | OtherException =>
          post = EPrint ("LibreOffice conversion failed: " +:+ exn_str e)
                 :: map EPrint remediation
          /\ res = inr false
      end
  | inr returncode =>
      if (returncode =? 0)%Z then
        if env_exists env (h ++ [attempt lo_path]) pdf_file
        then post = confirmation /\ res = inr true
        else exists post', post = EExists pdf_file :: post' /\ goes_on after post' res
      else goes_on after post res
  end.

(** What the function does with the outcome of the loop: the second
    [except] clause and the statements behind the second [try]. *)
Definition finish (res : Exn + option bool) : (Exn + bool) * Trace :=
  match res with
  | inr (Some v) => (inr v, [])
  | inr None => (inr false, map EPrint remediation)
  | inl e =>
      (inr false,
       EPrint ("LibreOffice conversion failed: " +:+ exn_str e) :: map EPrint remediation)
  end.

End ConverterSpec.

(** * Properties *)

(** ** Running a builder step by step

    A builder works on the paragraph it has just appended; the lemmas
    below execute one primitive on a cell whose last paragraph is that
    one. *)

Lemma St_eta (s : St) :
  s = mkSt (st_cell s) (paragraphs (st_cell s)) (st_out s) (st_fs s).
Proof. destruct s as [[? ? ?] ? ?]; reflexivity. Qed.

Lemma alter_last {A} (f : A -> A) (l : list A) (x : A) :
  alter f (List.length l) (l ++ [x]) = l ++ [f x].
Proof.
  replace (List.length l) with (List.length l + 0)%nat by lia.
  rewrite alter_app_r. reflexivity.
Qed.

Lemma lookup_last {A} (l : list A) (x : A) : (l ++ [x]) !! List.length l = Some x.
Proof.
  rewrite lookup_app_r by lia.
  replace (List.length l - List.length l)%nat with 0%nat by lia. reflexivity.
Qed.

Lemma add_paragraph_run c ps out fs :
  add_paragraph (mkSt c ps out fs) = (List.length ps, mkSt c (ps ++ [new_paragraph]) out fs).
Proof. reflexivity. Qed.

Lemma modify_paragraph_run c ps para out fs f :
  modify_paragraph (List.length ps) f (mkSt c (ps ++ [para]) out fs)
  = (tt, mkSt c (ps ++ [f para]) out fs).
Proof.
  unfold modify_paragraph, st_set_paragraphs, mkSt; cbn.
  rewrite alter_last. reflexivity.
Qed.

Lemma modify_run_run c ps para out fs r f :
  modify_run (List.length ps, r) f (mkSt c (ps ++ [para]) out fs)
  = (tt, mkSt c (ps ++ [par_set_runs (alter f r (runs para)) para]) out fs).
Proof. unfold modify_run; cbn [fst snd]. rewrite modify_paragraph_run. reflexivity. Qed.

Lemma add_run_run c ps para out fs text :
  add_run (List.length ps) text (mkSt c (ps ++ [para]) out fs)
  = ((List.length ps, List.length (runs para)),
     mkSt c (ps ++ [par_set_runs (runs para ++ [new_run text]) para]) out fs).
Proof.
  unfold add_run, st_set_paragraphs, mkSt; cbn.
  rewrite lookup_last, alter_last. reflexivity.
Qed.

Lemma set_format_run c ps para out fs f :
  set_format (List.length ps) f (mkSt c (ps ++ [para]) out fs)
  = (tt, mkSt c (ps ++ [par_set_format (f (paragraph_format para)) para]) out fs).
Proof. unfold set_format. rewrite modify_paragraph_run. reflexivity. Qed.

Lemma print_run c ps out fs line :
  print line (mkSt c ps out fs) = (tt, mkSt c ps (out ++ [line]) fs).
Proof. reflexivity. Qed.

Lemma os_path_exists_run c ps out fs path :
  os_path_exists path (mkSt c ps out fs) = (fs_exists fs path, mkSt c ps out fs).
Proof. reflexivity. Qed.

Lemma add_picture_run c ps para out fs r path w h :
  add_picture (List.length ps, r) path w h (mkSt c (ps ++ [para]) out fs)
  = match fs_picture_error fs path with
    | Some e => (Some e, mkSt c (ps ++ [para]) out fs)
    | None =>
        (None, mkSt c (ps ++ [par_set_runs
           (alter (run_add_picture {| pic_path := path; pic_width := w; pic_height := h |})
                  r (runs para)) para]) out fs)
    end.
Proof.
  unfold add_picture. cbn [st_fs mkSt].
  destruct (fs_picture_error fs path); [reflexivity|].
  change {| st_cell := cell_set_paragraphs (ps ++ [para]) c; st_out := out; st_fs := fs |}
    with (mkSt c (ps ++ [para]) out fs).
  rewrite modify_run_run. reflexivity.
Qed.

Lemma bind_run {A B} (m : Build A) (f : A -> Build B) s x s' :
  m s = (x, s') -> (m ≫= f) s = f x s'.
Proof. intros H. unfold mbind, Build_bind. rewrite H. reflexivity. Qed.

Lemma bind_assoc_run {A B C} (m : Build A) (f : A -> Build B) (g : B -> Build C) s :
  ((m ≫= f) ≫= g) s = (m ≫= (fun x => f x ≫= g)) s.
Proof. unfold mbind, Build_bind. destruct (m s) as [x s']. reflexivity. Qed.

Lemma ret_bind_run {A B} (x : A) (f : A -> Build B) s : (mret x ≫= f) s = f x s.
Proof. reflexivity. Qed.

Ltac unfold_setters :=
  unfold set_bold, set_font_size, set_font_name, set_font_color, element_set,
    set_alignment, set_space_before, set_space_after, set_line_spacing,
    set_left_indent, set_right_indent, set_first_line_indent,
    set_widow_control, set_keep_together.

(** One step of the symbolic run: execute the primitive at the head of a
    sequence. *)
Ltac build_step :=
  first
    [ rewrite bind_assoc_run
    | rewrite ret_bind_run
    | erewrite bind_run by (first
        [ apply add_paragraph_run | apply modify_run_run | apply add_run_run
        | apply set_format_run | apply modify_paragraph_run | apply print_run
        | apply os_path_exists_run ])
    | rewrite add_run_run | rewrite modify_run_run | rewrite set_format_run
    | rewrite modify_paragraph_run | rewrite print_run ];
  cbn [runs par_set_runs par_set_format par_set_alignment par_insert_pPr
       alignment paragraph_format extra_pPr new_paragraph List.length List.app
       Nat.add].

Ltac build_run := unfold_setters; repeat (build_step; rewrite ?alter_last).

Lemma add_sidebar_text_run text size color c ps out fs :
  TwoColumn3.add_sidebar_text text size color (mkSt c ps out fs)
  = (List.length ps,
     mkSt c (ps ++ [ {| runs := [ {| run_text := text; run_pictures := []; run_bold := None;
                                     font_size := Some size; font_name := Some "Calibri";
                                     font_color := Some color; run_attrs := [] |} ];
                        alignment := None;
                        paragraph_format :=
                          {| space_before := None; space_after := Some (Pt 2);
                             line_spacing := Some 1.1%Q; ind := None;
                             widow_control := None; keep_together := None |};
                        extra_pPr := [] |} ]) out fs).
Proof.
  unfold TwoColumn3.add_sidebar_text. build_run. reflexivity.
Qed.

(** ** Facts about the string built-ins *)

Lemma push_head_length c l : l <> [] -> List.length (PyStr.push_head c l) = List.length l.
Proof. destruct l; [congruence | reflexivity]. Qed.

Lemma split_from_length sep s : forall skip,
  List.length (PyStr.split_from sep skip s) = S (PyStr.count_from sep skip s).
Proof.
  induction s as [|c s IH]; intros skip; [reflexivity|].
  cbn [PyStr.split_from PyStr.count_from].
  destruct skip as [|k]; [|apply IH].
  destruct (String.prefix sep (String c s)).
  - cbn [List.length]. rewrite IH. reflexivity.
  - rewrite push_head_length; [apply IH|].
    intros E. specialize (IH 0%nat). rewrite E in IH. discriminate.
Qed.

(** The number of segments is one more than the number of delimiters. *)
Lemma split_length sep s : List.length (PyStr.split sep s) = S (PyStr.count sep s).
Proof. apply split_from_length. Qed.

Lemma contains_false_split sep s :
  PyStr.contains sep s = false -> PyStr.split sep s = [s].
Proof.
  unfold PyStr.split. induction s as [|c s IH]; intros H; [reflexivity|].
  cbn [PyStr.contains] in H. apply orb_false_iff in H as [Hp Hc].
  cbn [PyStr.split_from]. rewrite Hp, (IH Hc). reflexivity.
Qed.



(** ** What the bullet builders append *)

Lemma par_set_runs_id para : par_set_runs (runs para) para = para.
Proof. destruct para; reflexivity. Qed.

Lemma odd_mod2 i : Nat.odd i = negb (i mod 2 =? 0)%nat.
Proof.
  rewrite <- Nat.negb_even. f_equal.
  destruct (Nat.even i) eqn:E.
  - apply Nat.even_spec in E. destruct E as [m ->].
    symmetry. apply Nat.eqb_eq. rewrite Nat.mul_comm. apply Nat.Div0.mod_mul.
  - symmetry. apply Nat.eqb_neq. intros H.
    apply Nat.Div0.mod_divides in H. destruct H as [m ->].
    assert (Nat.even (2 * m) = true) by (apply Nat.even_spec; exists m; reflexivity).
    congruence.
Qed.

Lemma odd_mod2_1 i : Nat.odd i = (i mod 2 =? 1)%nat.
Proof.
  rewrite odd_mod2.
  pose proof (Nat.mod_upper_bound i 2 ltac:(lia)) as Hb.
  destruct (i mod 2) as [|[|n]] eqn:E; cbn; try reflexivity. lia.
Qed.

Lemma compact_loop_run c ps out fs (l : list (nat * string)) : forall para,
  for_each l (fun '(i, part) =>
       if (i mod 2 =? 0)%nat then
         if negb (String.eqb part "") then
           run ← add_run (List.length ps) part;
           set_font_size run (Pt 9);;
           set_font_name run "Calibri";;
           set_font_color run TwoColumn3.BLACK
         else mret tt
       else
         run ← add_run (List.length ps) part;
         set_font_size run (Pt 9);;
         set_font_name run "Calibri";;
         set_bold run true;;
         set_font_color run TwoColumn3.DARK_BLUE)
    (mkSt c (ps ++ [para]) out fs)
  = (tt, mkSt c (ps ++ [par_set_runs (runs para ++ compact_runs l) para]) out fs).
Proof.
  induction l as [|[i part] l IH]; intros para.
  - cbn [for_each compact_runs]. rewrite app_nil_r, par_set_runs_id. reflexivity.
  - cbn [for_each compact_runs].
    destruct (i mod 2 =? 0)%nat; [destruct (negb (String.eqb part ""))|].
    + unfold mbind at 1, Build_bind at 1.
      build_run. cbn [mret Build_ret]. rewrite IH.
      cbn [runs par_set_runs]. rewrite <- app_assoc. reflexivity.
    + unfold mbind at 1, Build_bind at 1. cbn [mret Build_ret].
      rewrite IH. reflexivity.
    + unfold mbind at 1, Build_bind at 1.
      build_run. cbn [mret Build_ret]. rewrite IH.
      cbn [runs par_set_runs]. rewrite <- app_assoc. reflexivity.
Qed.

Lemma add_compact_bullet_run text c ps out fs :
  TwoColumn3.add_compact_bullet text (mkSt c ps out fs)
  = (List.length ps,
     mkSt c (ps ++ [ {| runs :=
                          text_run BULLET (Some true) (Pt 9) "Calibri" TwoColumn3.BLACK
                          :: (if PyStr.contains DELIM text
                              then compact_runs (PyStr.enumerate (PyStr.split DELIM text))
                              else [text_run text None (Pt 9) "Calibri" TwoColumn3.BLACK]);
                        alignment := None;
                        paragraph_format := bullet_format (Pt 1.5) (Inches 0.2) 1.05;
                        extra_pPr := [] |} ]) out fs).
Proof.
  unfold TwoColumn3.add_compact_bullet. build_run.
  destruct (PyStr.contains DELIM text).
  - erewrite bind_run by apply compact_loop_run. reflexivity.
  - build_run. reflexivity.
Qed.

Lemma bullet_loop_run size c ps out fs (l : list (nat * string)) : forall para,
  for_each l (fun '(i, part) =>
       if negb (String.eqb part "") then
         run ← add_run (List.length ps) part;
         set_font_size run size;;
         set_font_name run Template.SANS_SERIF_FONT;;
         set_font_color run Template.BLACK;;
         (if (i mod 2 =? 1)%nat then set_bold run true else mret tt)
       else mret tt)
    (mkSt c (ps ++ [para]) out fs)
  = (tt, mkSt c (ps ++ [par_set_runs (runs para ++ bullet_runs size l) para]) out fs).
Proof.
  induction l as [|[i part] l IH]; intros para.
  - cbn [for_each bullet_runs]. rewrite app_nil_r, par_set_runs_id. reflexivity.
  - cbn [for_each bullet_runs].
    destruct (negb (String.eqb part "")).
    + unfold mbind at 1, Build_bind at 1.
      destruct (i mod 2 =? 1)%nat.
      * build_run. cbn [mret Build_ret]. rewrite IH.
        cbn [runs par_set_runs]. rewrite <- app_assoc. reflexivity.
      * build_run. cbn [mret Build_ret]. rewrite IH.
        cbn [runs par_set_runs]. rewrite <- app_assoc. reflexivity.
    + unfold mbind at 1, Build_bind at 1. cbn [mret Build_ret].
      rewrite IH. reflexivity.
Qed.

Lemma add_bullet_run k text size c ps out fs :
  Template.add_bullet k text size (mkSt c ps out fs)
  = (List.length ps,
     mkSt c (ps ++ [ {| runs :=
                          text_run BULLET (Some true) size Template.SANS_SERIF_FONT Template.BLACK
                          :: (if PyStr.contains DELIM text
                              then bullet_runs size (PyStr.enumerate (PyStr.split DELIM text))
                              else [text_run text None size Template.SANS_SERIF_FONT Template.BLACK]);
                        alignment := None;
                        paragraph_format :=
                          bullet_format (Template.bullet_space_after k) (Inches 0.15)
                                        (Template.bullet_line_spacing k);
                        extra_pPr := [] |} ]) out fs).
Proof.
  unfold Template.add_bullet. build_run.
  destruct (PyStr.contains DELIM text).
  - erewrite bind_run by apply bullet_loop_run. reflexivity.
  - build_run. reflexivity.
Qed.

Lemma compact_runs_styled (l : list string) : forall start,
  map styled (compact_runs (PyStr.enumerate_from start l))
  = List.filter bold_or_nonempty
      (map (fun '(i, part) => (part, Nat.odd i)) (PyStr.enumerate_from start l)).
Proof.
  induction l as [|part l IH]; intros start; [reflexivity|].
  cbn [PyStr.enumerate_from compact_runs map List.filter]. rewrite map_app, IH.
  rewrite odd_mod2.
  change (bold_or_nonempty (part, negb (start mod 2 =? 0)%nat))
    with (negb (start mod 2 =? 0)%nat || negb (String.eqb part "")).
  destruct (start mod 2 =? 0)%nat; destruct (String.eqb part ""); reflexivity.
Qed.

Lemma bullet_runs_styled size (l : list string) : forall start,
  map styled (bullet_runs size (PyStr.enumerate_from start l))
  = List.filter nonempty
      (map (fun '(i, part) => (part, Nat.odd i)) (PyStr.enumerate_from start l)).
Proof.
  induction l as [|part l IH]; intros start; [reflexivity|].
  cbn [PyStr.enumerate_from bullet_runs map List.filter]. rewrite map_app, IH.
  rewrite odd_mod2_1.
  change (nonempty (part, (start mod 2 =? 1)%nat)) with (negb (String.eqb part "")).
  destruct (start mod 2 =? 1)%nat; destruct (String.eqb part ""); reflexivity.
Qed.

Lemma emitted_runs_eq b c ps out fs para out' s :
  s = mkSt c ps out fs ->
  b s = (List.length ps, mkSt c (ps ++ [para]) out' fs) ->
  emitted_runs b s = map styled (runs para).
Proof.
  intros -> H. unfold emitted_runs. rewrite H. cbn [st_cell mkSt cell_set_paragraphs paragraphs].
  rewrite lookup_last. reflexivity.
Qed.

Lemma tagged_split_plain text :
  PyStr.contains DELIM text = false -> tagged_split text = [(text, false)].
Proof. intros H. unfold tagged_split. rewrite (contains_false_split _ _ H). reflexivity. Qed.

Lemma filter_filter_sub {A} (f g : A -> bool) (l : list A) :
  (forall x, f x = true -> g x = true) ->
  List.filter f (List.filter g l) = List.filter f l.
Proof.
  intros Hsub. induction l as [|x l IH]; [reflexivity|]. cbn [List.filter].
  destruct (g x) eqn:Eg.
  - cbn [List.filter]. rewrite IH. reflexivity.
  - destruct (f x) eqn:Ef; [rewrite (Hsub x Ef) in Eg; discriminate|]. exact IH.
Qed.











(** ** What the other builders of the two-column scripts append *)

Lemma add_sidebar_header_run text is_main c ps out fs :
  TwoColumn3.add_sidebar_header text is_main (mkSt c ps out fs)
  = (List.length ps,
     mkSt c (ps ++ [ {| runs := [text_run (PyStr.upper text) (Some true)
                                   (if is_main then Pt 12 else Pt 10) "Calibri" TwoColumn3.WHITE];
                        alignment := None;
                        paragraph_format := header_format (Pt 8) (Pt 4) None;
                        extra_pPr := [] |} ]) out fs).
Proof.
  unfold TwoColumn3.add_sidebar_header. destruct is_main; build_run; reflexivity.
Qed.

Lemma add_main_header_run text c ps out fs :
  TwoColumn3.add_main_header text (mkSt c ps out fs)
  = (List.length ps,
     mkSt c (ps ++ [ {| runs := [text_run (PyStr.upper text) (Some true)
                                   (Pt 10.5) "Calibri" TwoColumn3.DARK_BLUE];
                        alignment := None;
                        paragraph_format := header_format (Pt 5) (Pt 1) (Some 1.0%Q);
                        extra_pPr := [] |} ]) out fs).
Proof. unfold TwoColumn3.add_main_header. build_run. reflexivity. Qed.

Lemma add_sidebar_bullet_run text size c ps out fs :
  TwoColumn3.add_sidebar_bullet text size (mkSt c ps out fs)
  = (List.length ps,
     mkSt c (ps ++ [ {| runs := [text_run BULLET (Some true) size "Calibri" TwoColumn3.WHITE;
                                 text_run text None size "Calibri" TwoColumn3.WHITE];
                        alignment := None;
                        paragraph_format := bullet_format (Pt 1.5) (Inches 0.15) 1.05;
                        extra_pPr := [] |} ]) out fs).
Proof. unfold TwoColumn3.add_sidebar_bullet. build_run. reflexivity. Qed.

Lemma add_sidebar_text_with_icon_run icon_path text size color icon_size c ps out fs :
  TwoColumn3.add_sidebar_text_with_icon icon_path text size color icon_size (mkSt c ps out fs)
  = (List.length ps,
     mkSt c (ps ++ [sidebar_icon_row fs icon_path text size color icon_size]) out fs).
Proof.
  unfold TwoColumn3.add_sidebar_text_with_icon, sidebar_icon_row, sidebar_icon_runs,
    sidebar_text_run.
  build_run.
  destruct (fs_exists fs icon_path).
  - build_run.
    destruct (fs_picture_error fs icon_path) eqn:E;
      (erewrite bind_run by (rewrite add_picture_run, E; reflexivity));
      destruct (PyStr.contains "@" text); build_run; reflexivity.
  - destruct (PyStr.contains "@" text); build_run; reflexivity.
Qed.

(** ** What the builders of the template scripts append *)

Lemma get_icon_path_run icon_key c ps out fs :
  Template.get_icon_path icon_key (mkSt c ps out fs) = (icon_lookup fs icon_key, mkSt c ps out fs).
Proof.
  unfold Template.get_icon_path, icon_lookup.
  destruct (Template.ICON_FILES !! icon_key); reflexivity.
Qed.

Lemma _add_short_bold_line_run c ps out fs :
  Template._add_short_bold_line (mkSt c ps out fs)
  = (List.length ps,
     mkSt c (ps ++ [ {| runs := []; alignment := None;
                        paragraph_format :=
                          {| space_before := Some (Pt 0); space_after := None;
                             line_spacing := None;
                             ind := Some {| ind_left := Some (Pt 0);
                                            ind_right := Some (Inches 3);
                                            ind_first_line := None |};
                             widow_control := None; keep_together := None |};
                        extra_pPr := [Template.bottom_border_pPr] |} ]) out fs).
Proof. unfold Template._add_short_bold_line. build_run. reflexivity. Qed.

Lemma add_body_text_run k text size c ps out fs :
  Template.add_body_text k text size (mkSt c ps out fs)
  = (List.length ps,
     mkSt c (ps ++ [ {| runs := [text_run text None size Template.SANS_SERIF_FONT Template.BLACK];
                        alignment := None;
                        paragraph_format :=
                          {| space_before := None;
                             space_after := Some (Template.body_space_after k);
                             line_spacing := Some (Template.body_line_spacing k);
                             ind := None; widow_control := None; keep_together := None |};
                        extra_pPr := [] |} ]) out fs).
Proof. unfold Template.add_body_text. build_run. reflexivity. Qed.

Lemma app_two {A} (l : list A) (x y : A) : (l ++ [x]) ++ [y] = l ++ [x; y].
Proof. rewrite <- app_assoc. reflexivity. Qed.

Lemma add_section_header_run k text icon_key is_left_column c ps out fs :
  Template.add_section_header k text icon_key is_left_column (mkSt c ps out fs)
  = (List.length ps,
     mkSt c (ps ++ [label_paragraph k fs text icon_key; rule_paragraph k is_left_column])
          (out ++ icon_warning fs (header_icon fs icon_key)) fs).
Proof.
  unfold Template.add_section_header, label_paragraph, rule_paragraph, header_icon.
  destruct is_left_column;
    (destruct icon_key as [key|]; [destruct (negb (String.eqb key ""))|]);
    build_run;
    try (cbn [mret Build_ret icon_prefix icon_warning fmap option_fmap option_map app];
         rewrite app_two, app_nil_r; reflexivity).
  all: erewrite bind_run by apply get_icon_path_run.
  all: destruct (icon_lookup fs key) as [path|];
    cbn [fmap option_fmap option_map icon_prefix icon_warning snd].
  all: build_run.
  all: try (cbn [mret Build_ret app]; rewrite app_two, app_nil_r; reflexivity).
  all: destruct (fs_picture_error fs path) eqn:E;
    (erewrite bind_run by (rewrite add_picture_run, E; reflexivity));
    build_run; cbn [mret Build_ret app]; rewrite app_two, ?app_nil_r; reflexivity.
Qed.

Lemma contact_loop_run fs icon_size n c ps (l : list (nat * (string * string))) :
  forall para out,
  for_each l (fun '(i, (icon_key, text)) =>
    icon_path ← Template.get_icon_path icon_key;
    match icon_path with
    | Some icon_path =>
        icon_run ← add_run (List.length ps) "";
        raised ← add_picture icon_run icon_path icon_size icon_size;
        match raised with
        | None =>
            sp ← add_run (List.length ps) THIN_SPACE;
            set_font_size sp (Pt 2)
        | Some e =>
            print ("Warning: Could not add icon " +:+ icon_key +:+ ": " +:+ e)
        end
    | None => mret tt
    end;;
    txt ← add_run (List.length ps) text;
    set_font_size txt (Pt 10);;
    set_font_name txt Template.SANS_SERIF_FONT;;
    set_font_color txt Template.BLACK;;
    (if PyStr.contains "@" text then element_set txt "w:noBreak" "1" else mret tt);;
    (if (i <? n)%nat then
       sep ← add_run (List.length ps) "  ";
       set_font_size sep (Pt 4)
     else mret tt))
    (mkSt c (ps ++ [para]) out fs)
  = (tt, mkSt c (ps ++ [par_set_runs
                          (runs para ++ flat_map (contact_item_runs fs icon_size n) l) para])
              (out ++ flat_map (contact_item_warning fs) l) fs).
Proof.
  induction l as [|[i [icon_key text]] l IH]; intros para out.
  - cbn [for_each flat_map]. rewrite !app_nil_r, par_set_runs_id. reflexivity.
  - cbn [for_each flat_map contact_item_runs contact_item_warning].
    unfold contact_text_run.
    rewrite !bind_assoc_run. erewrite bind_run by apply get_icon_path_run.
    destruct (icon_lookup fs icon_key) as [path|];
      cbn [fmap option_fmap option_map icon_prefix icon_warning].
    + build_run.
      destruct (fs_picture_error fs path) eqn:E;
        (erewrite bind_run by (rewrite add_picture_run, E; reflexivity));
        destruct (PyStr.contains "@" text); destruct (i <? n)%nat;
        build_run; cbn [mret Build_ret]; rewrite IH;
        cbn [runs par_set_runs app]; rewrite <- !app_assoc; reflexivity.
    + destruct (PyStr.contains "@" text); destruct (i <? n)%nat;
        build_run; cbn [mret Build_ret]; rewrite IH;
        cbn [runs par_set_runs app]; rewrite <- !app_assoc, ?app_nil_r; reflexivity.
Qed.

Lemma add_contact_header_centered_run k icon_dir location email phone icon_size c ps out fs :
  Template.add_contact_header_centered k icon_dir location email phone icon_size
    (mkSt c ps out fs)
  = (List.length ps,
     mkSt c (ps ++ [ {| runs := flat_map (contact_item_runs fs icon_size 2)
                                  (contact_items location email phone);
                        alignment := Some ALIGN_CENTER;
                        paragraph_format :=
                          {| space_before := None;
                             space_after := Some (Template.contact_space_after k);
                             line_spacing := None; ind := None;
                             widow_control := None; keep_together := None |};
                        extra_pPr := [] |} ])
          (out ++ flat_map (contact_item_warning fs) (contact_items location email phone)) fs).
Proof.
  unfold Template.add_contact_header_centered. build_run.
  erewrite bind_run by apply (contact_loop_run fs icon_size 2).
  reflexivity.
Qed.

(** ** Builders only append *)

Lemma appends_only_intro (b : Build ParaRef) :
  (forall c ps out fs, exists node more out',
      b (mkSt c ps out fs) = (List.length ps, mkSt c (ps ++ node :: more) out' fs)) ->
  appends_only b.
Proof.
  intros H s. rewrite (St_eta s).
  destruct (H (st_cell s) (paragraphs (st_cell s)) (st_out s) (st_fs s))
    as (node & more & out' & E).
  exists node, more. unfold returned_paragraph. rewrite E.
  cbn [fst snd st_cell mkSt cell_set_paragraphs paragraphs tcPr vertical_alignment].
  repeat split.
  - rewrite lookup_app_r by lia.
    replace (List.length (paragraphs (st_cell s)) - List.length (paragraphs (st_cell s)))%nat
      with 0%nat by lia.
    reflexivity.
  - intros i para Hi. rewrite lookup_app_l; [exact Hi|].
    apply lookup_lt_Some in Hi. exact Hi.
Qed.

Ltac appends_by lem :=
  apply appends_only_intro; intros c ps out fs;
  do 3 eexists; rewrite lem; reflexivity.

(** C9.  Every block builder of the four scripts only appends to the
    cell: the new paragraph comes after all paragraphs already there,
    the builder returns that paragraph, and every paragraph that was in
    the cell, with its runs, is unchanged.  ([add_section_header] appends
    the accent-rule paragraph after the label paragraph it returns.) *)
Theorem builders_only_append :
  forall (k : Template.Consts) (text icon_path icon_dir location email phone : string)
         (icon_key : option string) (flag : bool) (size icon_size : Length) (color : RGBColor),
    appends_only (TwoColumn3.add_sidebar_header text flag)
    /\ appends_only (TwoColumn3.add_main_header text)
    /\ appends_only (TwoColumn3.add_sidebar_text text size color)
    /\ appends_only (TwoColumn3.add_sidebar_text_with_icon icon_path text size color icon_size)
    /\ appends_only (TwoColumn3.add_sidebar_bullet text size)
    /\ appends_only (TwoColumn3.add_compact_bullet text)
    /\ appends_only Template._add_short_bold_line
    /\ appends_only (Template.add_section_header k text icon_key flag)
    /\ appends_only (Template.add_body_text k text size)
    /\ appends_only (Template.add_bullet k text size)
    /\ appends_only (Template.add_contact_header_centered k icon_dir location email phone icon_size).
Proof.
  intros. repeat split.
  - appends_by add_sidebar_header_run.
  - appends_by add_main_header_run.
  - appends_by add_sidebar_text_run.
  - appends_by add_sidebar_text_with_icon_run.
  - appends_by add_sidebar_bullet_run.
  - appends_by add_compact_bullet_run.
  - appends_by _add_short_bold_line_run.
  - appends_by add_section_header_run.
  - appends_by add_body_text_run.
  - appends_by add_bullet_run.
  - appends_by add_contact_header_centered_run.
Qed.

(** Two builders in a row on a cell that is not empty: the paragraph
    that was there is still the first one. *)
Lemma builders_only_append_witness :
  paragraphs (st_cell (TwoColumn3.add_compact_bullet "Built **React** apps"
                         after_sidebar_text).2) !! 0%nat
  = Some new_paragraph.
Proof.
  destruct (builders_only_append Rajnish.consts "Built **React** apps" "" "" "" "" ""
              None false (Pt 9) (Pt 9) TwoColumn3.WHITE)
    as (_ & _ & _ & _ & _ & H & _).
  destruct (H after_sidebar_text) as (node & more & _ & _ & _ & Hkeep & _).
  apply Hkeep. reflexivity.
Defined.

(** ** Missing icons *)

Lemma icon_missing_lookup fs icon_key : icon_missing fs icon_key -> icon_lookup fs icon_key = None.
Proof.
  unfold icon_missing, icon_lookup, icon_file_path. intros H.
  destruct (Template.ICON_FILES !! icon_key) as [f|]; [|reflexivity].
  rewrite (H f eq_refl). reflexivity.
Qed.

Lemma sidebar_text_run_no_picture text size color :
  run_pictures (sidebar_text_run text size color) = [].
Proof. unfold sidebar_text_run. destruct (PyStr.contains "@" text); reflexivity. Qed.

Lemma contact_text_run_no_picture text : run_pictures (contact_text_run text) = [].
Proof. unfold contact_text_run. destruct (PyStr.contains "@" text); reflexivity. Qed.

(** C4.  A builder that is given an icon whose file does not exist
    returns normally and appends a paragraph without any picture that
    still holds the text run: [add_sidebar_text_with_icon] appends the
    small spacer run and the text run, [get_icon_path] returns [None],
    [add_section_header] then appends the label run alone (followed by
    the rule paragraph) and [add_contact_header_centered] the three texts
    with their separators; nothing is printed. *)
Theorem missing_icon_renders_text_only :
  forall (k : Template.Consts) (s : St) (icon_path text icon_key icon_dir location email phone : string)
         (size icon_size : Length) (color : RGBColor) (is_left_column : bool),
    (fs_exists (st_fs s) icon_path = false ->
       exists para,
         TwoColumn3.add_sidebar_text_with_icon icon_path text size color icon_size s
         = (List.length (paragraphs (st_cell s)),
            mkSt (st_cell s) (paragraphs (st_cell s) ++ [para]) (st_out s) (st_fs s))
         /\ runs para = [run_set_size (Pt 3) (new_run " "); sidebar_text_run text size color]
         /\ no_picture para)
    /\ (icon_missing (st_fs s) icon_key ->
         Template.get_icon_path icon_key s = (None, s)
         /\ exists para,
           Template.add_section_header k text (Some icon_key) is_left_column s
           = (List.length (paragraphs (st_cell s)),
              mkSt (st_cell s) (paragraphs (st_cell s) ++ [para; rule_paragraph k is_left_column])
                   (st_out s) (st_fs s))
           /\ runs para = [label_run text]
           /\ no_picture para)
    /\ (icon_missing (st_fs s) "location" -> icon_missing (st_fs s) "email" ->
         icon_missing (st_fs s) "phone" ->
         exists para,
           Template.add_contact_header_centered k icon_dir location email phone icon_size s
           = (List.length (paragraphs (st_cell s)),
              mkSt (st_cell s) (paragraphs (st_cell s) ++ [para]) (st_out s) (st_fs s))
           /\ runs para = [contact_text_run location; run_set_size (Pt 4) (new_run "  ");
                           contact_text_run email; run_set_size (Pt 4) (new_run "  ");
                           contact_text_run phone]
           /\ no_picture para).
Proof.
  intros. split; [|split].
  - intros Hmiss. eexists. split; [|split].
    + rewrite (St_eta s) at 1. rewrite add_sidebar_text_with_icon_run. reflexivity.
    + unfold sidebar_icon_row, sidebar_icon_runs. cbn [runs]. rewrite Hmiss. reflexivity.
    + unfold no_picture, sidebar_icon_row, sidebar_icon_runs. cbn [runs]. rewrite Hmiss.
      cbn [app]. repeat constructor. apply sidebar_text_run_no_picture.
  - intros Hmiss. pose proof (icon_missing_lookup _ _ Hmiss) as El. split.
    + rewrite (St_eta s) at 1. rewrite get_icon_path_run, El, <- St_eta. reflexivity.
    + eexists. split; [|split].
      * rewrite (St_eta s) at 1. rewrite add_section_header_run.
        unfold header_icon. rewrite El.
        destruct (negb (String.eqb icon_key "")); cbn [fmap option_fmap option_map icon_warning];
          rewrite app_nil_r; reflexivity.
      * unfold label_paragraph, header_icon. cbn [runs]. rewrite El.
        destruct (negb (String.eqb icon_key "")); reflexivity.
      * unfold no_picture, label_paragraph, header_icon. cbn [runs]. rewrite El.
        destruct (negb (String.eqb icon_key "")); repeat constructor.
  - intros H1 H2 H3.
    pose proof (icon_missing_lookup _ _ H1) as E1.
    pose proof (icon_missing_lookup _ _ H2) as E2.
    pose proof (icon_missing_lookup _ _ H3) as E3.
    eexists. split; [|split].
    + rewrite (St_eta s) at 1. rewrite add_contact_header_centered_run.
      unfold contact_items, PyStr.enumerate.
      cbn [PyStr.enumerate_from flat_map contact_item_warning]. rewrite E1, E2, E3.
      cbn [fmap option_fmap option_map icon_warning app].
      rewrite (app_nil_r (st_out s)). reflexivity.
    + unfold contact_items, PyStr.enumerate.
      cbn [runs PyStr.enumerate_from flat_map contact_item_runs]. rewrite E1, E2, E3.
      reflexivity.
    + unfold no_picture, contact_items, PyStr.enumerate.
      cbn [runs PyStr.enumerate_from flat_map contact_item_runs]. rewrite E1, E2, E3.
      cbn. repeat constructor; apply contact_text_run_no_picture.
Qed.

Lemma no_files_icon_missing icon_key : icon_missing no_files icon_key.
Proof. intros f _. reflexivity. Qed.

Lemma missing_icon_renders_text_only_witness :
  (exists para,
     TwoColumn3.add_sidebar_text_with_icon "/Users/prabhat/Desktop/resume/phone.png"
       "Skills" (Pt 8.5) TwoColumn3.WHITE (Pt 6.5) (start no_files)
     = (0%nat, mkSt empty_cell [para] [] no_files)
     /\ runs para = [run_set_size (Pt 3) (new_run " ");
                     text_run "Skills" None (Pt 8.5) "Calibri" TwoColumn3.WHITE])
  /\ Template.get_icon_path "skills" (start no_files) = (None, start no_files)
  /\ (exists para,
       Rajnish.add_section_header "Skills" (Some "skills") true (start no_files)
       = (0%nat, mkSt empty_cell [para; rule_paragraph Rajnish.consts true] [] no_files)
       /\ runs para = [label_run "Skills"]).
Proof.
  destruct (missing_icon_renders_text_only Rajnish.consts (start no_files)
              "/Users/prabhat/Desktop/resume/phone.png" "Skills" "skills" "" "" "" ""
              (Pt 8.5) (Pt 6.5) TwoColumn3.WHITE true) as (H1 & H2 & _).
  destruct (H1 eq_refl) as (p1 & E1 & R1 & _).
  destruct (H2 (no_files_icon_missing "skills")) as (G & p2 & E2 & R2 & _).
  split; [|split].
  - exists p1. split; [exact E1 | exact R1].
  - exact G.
  - exists p2. split; [exact E2 | exact R2].
Defined.

(** ** The e-mail heuristic of the icon+text rows *)

Lemma prefix_empty s : String.prefix EmptyString s = true.
Proof. destruct s; reflexivity. Qed.

Lemma replace_leaves_no_space text :
  PyStr.contains " " (PyStr.replace " " NBSP text) = false.
Proof.
  unfold PyStr.replace. induction text as [|c text IH]; [reflexivity|].
  cbn [PyStr.replace_from String.prefix].
  destruct (ascii_dec " " c) as [<-|Hne].
  - rewrite prefix_empty. cbn. exact IH.
  - cbn [PyStr.contains String.prefix].
    destruct (ascii_dec " " c); [contradiction|]. exact IH.
Qed.

Lemma returned_paragraph_eq b s c ps out fs para more out' :
  s = mkSt c ps out fs ->
  b s = (List.length ps, mkSt c (ps ++ para :: more) out' fs) ->
  returned_paragraph b s = Some para.
Proof.
  intros -> H. unfold returned_paragraph. rewrite H.
  cbn [fst snd st_cell mkSt cell_set_paragraphs paragraphs].
  rewrite lookup_app_r by lia.
  replace (List.length ps - List.length ps)%nat with 0%nat by lia. reflexivity.
Qed.

(** C3, as stated, fails for the contact row of the template scripts:
    the e-mail text holds an "@", yet [add_contact_header_centered] emits
    it with its space, and no run holds the text with the space
    replaced. *)
Lemma contact_header_keeps_spaces :
  PyStr.contains "@" "first last@example.com" = true
  /\ exists para,
       returned_paragraph contact_example (start no_files) = Some para
       /\ map run_text (runs para)
          = ["Gurugram"; "  "; "first last@example.com"; "  "; "9939147728"]
       /\ ~ In (PyStr.replace " " NBSP "first last@example.com") (map run_text (runs para)).
Proof.
  split; [reflexivity|].
  assert (E : returned_paragraph contact_example (start no_files)
              = Some {| runs := flat_map (contact_item_runs no_files (Pt 9) 2)
                                  (contact_items "Gurugram" "first last@example.com" "9939147728");
                        alignment := Some ALIGN_CENTER;
                        paragraph_format :=
                          {| space_before := None;
                             space_after := Some (Template.contact_space_after Rajnish.consts);
                             line_spacing := None; ind := None;
                             widow_control := None; keep_together := None |};
                        extra_pPr := [] |}).
  { unfold returned_paragraph, contact_example, Rajnish.add_contact_header_centered.
    change (start no_files) with (mkSt empty_cell [] [] no_files).
    rewrite add_contact_header_centered_run. reflexivity. }
  eexists. split; [exact E|].
  split; [vm_compute; reflexivity|].
  vm_compute. intros [H|[H|[H|[H|[H|[]]]]]]; discriminate H.
Qed.

(** C3, amended.  In the icon+text row of the two-column scripts
    ([add_sidebar_text_with_icon]) a text that contains "@" is emitted
    with every space replaced by a non-breaking space and its run carries
    [w:noBreak]; a text without "@" is emitted as it is, without the
    attribute.  In the contact row of the template scripts
    ([add_contact_header_centered]) each text is emitted as it is, spaces
    included, and its run carries [w:noBreak] exactly when the text
    contains "@". *)
Theorem email_rows_no_break :
  forall (k : Template.Consts) (s : St) (icon_path text icon_dir location email phone : string)
         (size icon_size contact_icon_size : Length) (color : RGBColor),
    (exists para icon_runs,
       returned_paragraph
         (TwoColumn3.add_sidebar_text_with_icon icon_path text size color icon_size) s
       = Some para
       /\ runs para = icon_runs ++ [run_set_size (Pt 3) (new_run " ");
                                    sidebar_text_run text size color])
    /\ run_text (sidebar_text_run text size color)
       = (if PyStr.contains "@" text then PyStr.replace " " NBSP text else text)
    /\ no_break (sidebar_text_run text size color)
       = (if PyStr.contains "@" text then Some "1" else None)
    /\ PyStr.contains " " (PyStr.replace " " NBSP text) = false
    /\ (exists para before1 before2 before3,
          returned_paragraph
            (Template.add_contact_header_centered k icon_dir location email phone
               contact_icon_size) s
          = Some para
          /\ runs para = before1 ++ contact_text_run location
                         :: before2 ++ contact_text_run email
                         :: before3 ++ [contact_text_run phone])
    /\ (forall t, run_text (contact_text_run t) = t
                  /\ no_break (contact_text_run t)
                     = (if PyStr.contains "@" t then Some "1" else None)).
Proof.
  intros. split; [|split; [|split; [|split; [|split]]]].
  - do 2 eexists. split.
    + eapply returned_paragraph_eq; [apply St_eta|].
      rewrite (St_eta s) at 1. rewrite add_sidebar_text_with_icon_run. reflexivity.
    + reflexivity.
  - unfold sidebar_text_run. destruct (PyStr.contains "@" text); reflexivity.
  - unfold sidebar_text_run. destruct (PyStr.contains "@" text); reflexivity.
  - apply replace_leaves_no_space.
  - exists {| runs := flat_map (contact_item_runs (st_fs s) contact_icon_size 2)
                        (contact_items location email phone);
              alignment := Some ALIGN_CENTER;
              paragraph_format :=
                {| space_before := None;
                   space_after := Some (Template.contact_space_after k);
                   line_spacing := None; ind := None;
                   widow_control := None; keep_together := None |};
              extra_pPr := [] |}.
    exists (icon_prefix (st_fs s) (icon_lookup (st_fs s) "location") contact_icon_size (Pt 2)).
    exists ([run_set_size (Pt 4) (new_run "  ")]
            ++ icon_prefix (st_fs s) (icon_lookup (st_fs s) "email") contact_icon_size (Pt 2)).
    exists ([run_set_size (Pt 4) (new_run "  ")]
            ++ icon_prefix (st_fs s) (icon_lookup (st_fs s) "phone") contact_icon_size (Pt 2)).
    split.
    + eapply returned_paragraph_eq; [apply St_eta|].
      rewrite (St_eta s) at 1. rewrite add_contact_header_centered_run. reflexivity.
    + unfold contact_items, PyStr.enumerate.
      cbn [runs PyStr.enumerate_from flat_map contact_item_runs Nat.ltb Nat.leb].
      rewrite app_nil_r, <- !app_assoc. reflexivity.
  - intros t. unfold contact_text_run. destruct (PyStr.contains "@" t); split; reflexivity.
Qed.

(** ** Section headers *)









(** ** Page margins *)

Lemma signed_valid emu : ST_SignedTwipsMeasure_valid emu = true <-> fits_signed_twips emu.
Proof.
  unfold ST_SignedTwipsMeasure_valid, fits_signed_twips.
  rewrite andb_true_iff, !Z.leb_le. reflexivity.
Qed.

Lemma unsigned_valid emu : ST_TwipsMeasure_valid emu = true <-> fits_unsigned_twips emu.
Proof.
  unfold ST_TwipsMeasure_valid, fits_unsigned_twips.
  rewrite andb_true_iff, !Z.leb_le. reflexivity.
Qed.

(** The four assignments, one after the other: the first value out of
    range ends the call and leaves the later margins as they were. *)
Lemma set_margins_run section top bottom left right t b l r :
  Inches_emu top = inr t -> Inches_emu bottom = inr b ->
  Inches_emu left = inr l -> Inches_emu right = inr r ->
  TwoColumn3.set_margins section top bottom left right
  = if ST_SignedTwipsMeasure_valid t then
      if ST_SignedTwipsMeasure_valid b then
        if ST_TwipsMeasure_valid l then
          if ST_TwipsMeasure_valid r then
            (inr tt, {| top_margin := stored t; bottom_margin := stored b;
                        left_margin := stored l; right_margin := stored r |})
          else
            (inl ValueError, {| top_margin := stored t; bottom_margin := stored b;
                                left_margin := stored l;
                                right_margin := right_margin section |})
        else
          (inl ValueError, {| top_margin := stored t; bottom_margin := stored b;
                              left_margin := left_margin section;
                              right_margin := right_margin section |})
      else
        (inl ValueError, {| top_margin := stored t; bottom_margin := bottom_margin section;
                            left_margin := left_margin section;
                            right_margin := right_margin section |})
    else (inl ValueError, section).
Proof.
  intros Ht Hb Hl Hr.
  unfold TwoColumn3.set_margins, mbind, Assign_bind, eval,
    assign_top_margin, assign_bottom_margin, assign_left_margin, assign_right_margin.
  rewrite Ht. destruct (ST_SignedTwipsMeasure_valid t); [|reflexivity].
  rewrite Hb. destruct (ST_SignedTwipsMeasure_valid b); [|reflexivity].
  rewrite Hl. destruct (ST_TwipsMeasure_valid l); [|reflexivity].
  rewrite Hr. destruct (ST_TwipsMeasure_valid r); reflexivity.
Qed.

(** C8, as stated, fails: [set_margins] called with a negative top
    margin, or a negative bottom margin, returns normally and the section
    holds the negative margin, in twips. *)
Lemma set_margins_accepts_negative :
  TwoColumn3.set_margins blank_section (PyInt (-1)) (float_literal 0.3) (float_literal 0.3)
    (float_literal 0.15)
  = (inr tt, {| top_margin := Some (Twips (-1440)); bottom_margin := Some (Twips 432);
                left_margin := Some (Twips 432); right_margin := Some (Twips 216) |})
  /\ Template.set_margins blank_section (PyInt 0) (float_literal (-0.5)) (PyInt 0) (PyInt 0)
     = (inr tt, {| top_margin := Some (Twips 0); bottom_margin := Some (Twips (-720));
                   left_margin := Some (Twips 0); right_margin := Some (Twips 0) |}).
Proof. split; vm_compute; reflexivity. Qed.

(** C8, amended.  [set_margins] checks nothing itself and raises no
    [ConfigError]: it assigns [Inches(top)], [Inches(bottom)],
    [Inches(left)] and [Inches(right)], in this order, to the margins of
    the section, and whether a value is refused is up to python-docx.
    The call returns normally exactly when the top and bottom lengths fit
    into a signed 32 bit number of EMU and the left and right lengths into
    an unsigned 64 bit number; the section then holds the four lengths in
    whole twips.  So a negative top or bottom margin is stored, while a
    negative left or right length raises [ValueError], after the margins
    before it were set.  No other exception arises once [Inches] has
    returned. *)
Theorem set_margins_stores_values :
  forall (section : DocSection) (top bottom left right : PyNumber) (t b l r : Z),
    Inches_emu top = inr t -> Inches_emu bottom = inr b ->
    Inches_emu left = inr l -> Inches_emu right = inr r ->
    let result := TwoColumn3.set_margins section top bottom left right in
    Template.set_margins section top bottom left right = result
    /\ (result.1 = inr tt
        <-> fits_signed_twips t /\ fits_signed_twips b
            /\ fits_unsigned_twips l /\ fits_unsigned_twips r)
    /\ (result.1 = inr tt ->
        result.2 = {| top_margin := stored t; bottom_margin := stored b;
                      left_margin := stored l; right_margin := stored r |})
    /\ (forall e, result.1 = inl e -> e = ValueError)
    /\ (fits_signed_twips t -> fits_signed_twips b -> (l < 0)%Z ->
        result = (inl ValueError,
                  {| top_margin := stored t; bottom_margin := stored b;
                     left_margin := left_margin section;
                     right_margin := right_margin section |}))
    /\ (fits_signed_twips t -> fits_signed_twips b -> fits_unsigned_twips l -> (r < 0)%Z ->
        result = (inl ValueError,
                  {| top_margin := stored t; bottom_margin := stored b;
                     left_margin := stored l;
                     right_margin := right_margin section |})).
Proof.
  intros section top bottom left right t b l r Ht Hb Hl Hr result.
  split; [reflexivity|].
  unfold result. rewrite (set_margins_run _ _ _ _ _ _ _ _ _ Ht Hb Hl Hr).
  pose proof (signed_valid t) as Vt. pose proof (signed_valid b) as Vb.
  pose proof (unsigned_valid l) as Vl. pose proof (unsigned_valid r) as Vr.
  destruct (ST_SignedTwipsMeasure_valid t), (ST_SignedTwipsMeasure_valid b),
    (ST_TwipsMeasure_valid l), (ST_TwipsMeasure_valid r); cbn [fst snd];
    unfold fits_signed_twips, fits_unsigned_twips in *;
    (split; [split; [intros E; try discriminate E; tauto
                    |intros (H1 & H2 & H3 & H4); try reflexivity;
                     try (apply Vt in H1; discriminate H1);
                     try (apply Vb in H2; discriminate H2);
                     try (apply Vl in H3; discriminate H3);
                     try (apply Vr in H4; discriminate H4)]|]);
    (split; [intros E; try discriminate E; reflexivity|]);
    (split; [intros e E; try discriminate E; injection E as <-; reflexivity|]);
    (split; [intros H1 H2 H3|intros H1 H2 H3 H4]);
    try reflexivity;
    try (apply Vt in H1; discriminate H1);
    try (apply Vb in H2; discriminate H2);
    try (apply Vl in H3; discriminate H3);
    try (exfalso; destruct Vl as [Vl _]; specialize (Vl eq_refl); lia);
    try (exfalso; destruct Vr as [Vr _]; specialize (Vr eq_refl); lia).
Qed.

Lemma set_margins_stores_values_witness :
  TwoColumn3.set_margins blank_section (float_literal (-0.5)) (float_literal 0.3)
    (float_literal 0.3) (float_literal 0.15)
  = (inr tt, {| top_margin := Some (Twips (-720)); bottom_margin := Some (Twips 432);
                left_margin := Some (Twips 432); right_margin := Some (Twips 216) |})
  /\ TwoColumn3.set_margins blank_section (float_literal 0.2) (float_literal 0.3)
       (PyInt (-1)) (float_literal 0.15)
     = (inl ValueError, {| top_margin := Some (Twips 288); bottom_margin := Some (Twips 432);
                           left_margin := None; right_margin := None |})
  /\ TwoColumn3.set_margins blank_section (float_literal 0.2) (float_literal 0.3)
       (float_literal 0.3) (float_literal (-0.15))
     = (inl ValueError, {| top_margin := Some (Twips 288); bottom_margin := Some (Twips 432);
                           left_margin := Some (Twips 432); right_margin := None |}).
Proof.
  split; [|split].
  - destruct (set_margins_stores_values blank_section (float_literal (-0.5))
                (float_literal 0.3) (float_literal 0.3) (float_literal 0.15)
                (-457200) 274320 274320 137160 eq_refl eq_refl eq_refl eq_refl)
      as (_ & Hiff & Hstored & _).
    assert (Hok : (TwoColumn3.set_margins blank_section (float_literal (-0.5))
                     (float_literal 0.3) (float_literal 0.3) (float_literal 0.15)).1 = inr tt).
    { apply Hiff. unfold fits_signed_twips, fits_unsigned_twips. lia. }
    specialize (Hstored Hok).
    destruct (TwoColumn3.set_margins blank_section (float_literal (-0.5))
                (float_literal 0.3) (float_literal 0.3) (float_literal 0.15)) as [res sec].
    cbn [fst snd] in Hok, Hstored. rewrite Hok, Hstored. reflexivity.
  - destruct (set_margins_stores_values blank_section (float_literal 0.2)
                (float_literal 0.3) (PyInt (-1)) (float_literal 0.15)
                182880 274320 (-914400) 137160 eq_refl eq_refl eq_refl eq_refl)
      as (_ & _ & _ & _ & Hleft & _).
    apply Hleft; unfold fits_signed_twips; lia.
  - destruct (set_margins_stores_values blank_section (float_literal 0.2)
                (float_literal 0.3) (float_literal 0.3) (float_literal (-0.15))
                182880 274320 274320 (-137160) eq_refl eq_refl eq_refl eq_refl)
      as (_ & _ & _ & _ & _ & Hright).
    apply Hright; unfold fits_signed_twips, fits_unsigned_twips; lia.
Defined.

(** ** The two-column page grid *)

Lemma find_app_none {A} (f : A -> bool) (l1 l2 : list A) :
  List.find f l1 = None -> List.find f (l1 ++ l2) = List.find f l2.
Proof.
  induction l1 as [|x l1 IH]; [reflexivity|]. cbn.
  destruct (f x); [discriminate|]. exact IH.
Qed.

(** The margins the page grid sets are accepted, for any section. *)
Lemma grid_margins_run section :
  TwoColumn3.set_margins section (float_literal 0.2) (float_literal 0.3) (float_literal 0.3)
    (float_literal 0.15)
  = (inr tt, {| top_margin := Some (Twips 288); bottom_margin := Some (Twips 432);
                left_margin := Some (Twips 432); right_margin := Some (Twips 216) |}).
Proof.
  rewrite (set_margins_run section _ _ _ _ 182880 274320 274320 137160)
    by (vm_compute; reflexivity).
  vm_compute. reflexivity.
Qed.

(** C6.  The page grid of [create_twocolumn_resume] is built without an
    exception and is one table of one row and two cells, with column
    widths 2.2in and 5.3in and every border set to [nil]; the left cell is
    shaded with fill 003366 and the right cell has no shading. *)
Theorem twocolumn_grid_sidebar_shaded :
  forall (d : TableDefaults) (default_section : DocSection),
    fresh_cell_unshaded d ->
    exists doc table row left_cell right_cell other_tblPr,
      TwoColumn3.create_twocolumn_resume_grid d default_section = inr doc
      /\ tables doc = [table]
      /\ column_widths table = [Some (Inches 2.2); Some (Inches 5.3)]
      /\ rows table = [row]
      /\ cells row = [left_cell; right_cell]
      /\ tblPr table = Some (other_tblPr ++ [TwoColumn3.tblBorders])
      /\ all_edges_nil TwoColumn3.tblBorders
      /\ cell_shading left_cell = Some "003366"
      /\ cell_shading right_cell = None.
Proof.
  intros d default_section Hfresh. unfold fresh_cell_unshaded in Hfresh.
  unfold TwoColumn3.create_twocolumn_resume_grid.
  cbn [new_document sections lookup list_lookup].
  rewrite grid_margins_run.
  do 5 eexists. exists (default [] (fresh_tblPr d)).
  split; [reflexivity|].
  split; [reflexivity|]. split; [reflexivity|]. split; [reflexivity|].
  split; [reflexivity|]. split; [reflexivity|]. split; [|split].
  - split; [reflexivity|]. split; [reflexivity|]. repeat constructor.
  - unfold cell_shading, TwoColumn3.set_cell_margins, pr_append.
    cbn [tcPr cell_set_tcPr cell_set_vertical_alignment default].
    unfold id. rewrite <- app_assoc, (find_app_none _ _ _ Hfresh). reflexivity.
  - unfold cell_shading, TwoColumn3.set_cell_margins, pr_append.
    cbn [tcPr cell_set_tcPr cell_set_vertical_alignment default].
    unfold id. rewrite (find_app_none _ _ _ Hfresh). reflexivity.
Qed.

Lemma twocolumn_grid_sidebar_shaded_witness :
  exists doc table row left_cell right_cell other_tblPr,
    TwoColumn3.create_twocolumn_resume_grid python_docx_defaults blank_section = inr doc
    /\ tables doc = [table]
    /\ column_widths table = [Some (Inches 2.2); Some (Inches 5.3)]
    /\ rows table = [row]
    /\ cells row = [left_cell; right_cell]
    /\ tblPr table = Some (other_tblPr ++ [TwoColumn3.tblBorders])
    /\ all_edges_nil TwoColumn3.tblBorders
    /\ cell_shading left_cell = Some "003366"
    /\ cell_shading right_cell = None.
Proof.
  apply (twocolumn_grid_sidebar_shaded python_docx_defaults blank_section).
  reflexivity.
Defined.

(** ** More facts about the string built-ins *)

Lemma prefix_trans a : forall b c,
  String.prefix a b = true -> String.prefix b c = true -> String.prefix a c = true.
Proof.
  induction a as [|x a IH]; intros b c Hab Hbc; [apply prefix_empty|].
  destruct b as [|y b]; [discriminate|]. destruct c as [|z c]; [discriminate|].
  cbn [String.prefix] in *.
  destruct (ascii_dec x y) as [->|]; [|discriminate].
  destruct (ascii_dec y z) as [->|]; [|discriminate].
  eapply IH; eassumption.
Qed.

Lemma prefix_cons_same c a b :
  String.prefix a b = true -> String.prefix (String c a) (String c b) = true.
Proof. intros H. cbn [String.prefix]. destruct (ascii_dec c c); [exact H|contradiction]. Qed.

Lemma prefix_split a : forall b, String.prefix a b = true -> exists r, b = a +:+ r.
Proof.
  induction a as [|x a IH]; intros b H; [exists b; reflexivity|].
  destruct b as [|y b]; [discriminate|]. cbn [String.prefix] in H.
  destruct (ascii_dec x y) as [->|]; [|discriminate].
  destruct (IH b H) as [r ->]. exists r. reflexivity.
Qed.

Lemma append_cons c a b : String c a +:+ b = String c (a +:+ b).
Proof. reflexivity. Qed.

Lemma append_empty_r s : s +:+ EmptyString = s.
Proof. induction s as [|c s IH]; [reflexivity|]. rewrite append_cons, IH. reflexivity. Qed.

(** The first segment of a split is a prefix of the string. *)
Lemma split_head_prefix sep s :
  exists h t, PyStr.split_from sep 0 s = h :: t /\ String.prefix h s = true.
Proof.
  induction s as [|c s IH]; [exists EmptyString, []; split; reflexivity|].
  cbn [PyStr.split_from].
  destruct (String.prefix sep (String c s)).
  - eexists EmptyString, _. split; reflexivity.
  - destruct IH as (h & t & -> & Hp). exists (String c h), t.
    split; [reflexivity|]. apply prefix_cons_same, Hp.
Qed.

(** No segment of a split holds the separator. *)
Lemma split_from_no_sep sep s :
  String.prefix sep EmptyString = false ->
  forall skip, Forall (fun part => PyStr.contains sep part = false) (PyStr.split_from sep skip s).
Proof.
  intros Hne. induction s as [|c s IH]; intros skip.
  - repeat constructor. exact Hne.
  - cbn [PyStr.split_from]. destruct skip as [|k]; [|apply IH].
    destruct (String.prefix sep (String c s)) eqn:Ep.
    + constructor; [exact Hne|apply IH].
    + destruct (split_head_prefix sep s) as (h & t & E & Hp).
      specialize (IH 0%nat). rewrite E in IH |- *. cbn [PyStr.push_head].
      apply Forall_cons in IH as [Hh Ht]. constructor; [|exact Ht].
      cbn [PyStr.contains]. rewrite Hh, orb_false_r.
      destruct (String.prefix sep (String c h)) eqn:Eh; [|reflexivity].
      rewrite (prefix_trans _ _ _ Eh (prefix_cons_same c _ _ Hp)) in Ep. discriminate.
Qed.

Lemma concat_empty_cons x (l : list string) :
  String.concat "" (x :: l) = x +:+ String.concat "" l.
Proof.
  destruct l; [|reflexivity].
  cbn [String.concat]. symmetry. apply append_empty_r.
Qed.

Lemma concat_empty_push_head c (l : list string) :
  l <> [] -> String.concat "" (PyStr.push_head c l) = String c (String.concat "" l).
Proof.
  destruct l as [|h t]; [congruence|]. intros _. cbn [PyStr.push_head].
  rewrite !concat_empty_cons. reflexivity.
Qed.

Lemma split_from_nonempty sep s skip : PyStr.split_from sep skip s <> [].
Proof.
  intros E. pose proof (split_from_length sep s skip) as H. rewrite E in H. discriminate.
Qed.

(** Gluing the segments together gives the string with the separators
    taken out. *)
Lemma concat_split_from sep s : forall skip,
  String.concat "" (PyStr.split_from sep skip s) = PyStr.replace_from sep "" skip s.
Proof.
  induction s as [|c s IH]; intros skip; [reflexivity|].
  cbn [PyStr.split_from PyStr.replace_from]. destruct skip as [|k]; [|apply IH].
  destruct (String.prefix sep (String c s)).
  - rewrite concat_empty_cons, IH. reflexivity.
  - rewrite concat_empty_push_head by apply split_from_nonempty. rewrite IH. reflexivity.
Qed.

Lemma replace_absent old new s :
  PyStr.contains old s = false -> PyStr.replace old new s = s.
Proof.
  unfold PyStr.replace. induction s as [|c s IH]; intros H; [reflexivity|].
  cbn [PyStr.contains] in H. apply orb_false_iff in H as [Hp Hc].
  cbn [PyStr.replace_from]. rewrite Hp, (IH Hc). reflexivity.
Qed.

Lemma split_from_skip sep t : forall s,
  PyStr.split_from sep (String.length t) (t +:+ s) = PyStr.split_from sep 0 s.
Proof.
  induction t as [|c t IH]; intros s; [reflexivity|].
  rewrite append_cons. cbn [String.length PyStr.split_from]. apply IH.
Qed.

Lemma concat_cons_nonempty sep x (l : list string) :
  l <> [] -> String.concat sep (x :: l) = x +:+ sep +:+ String.concat sep l.
Proof. destruct l; [congruence|reflexivity]. Qed.

Lemma concat_push_head sep c (l : list string) :
  l <> [] -> String.concat sep (PyStr.push_head c l) = String c (String.concat sep l).
Proof.
  destruct l as [|h [|h' t]]; [congruence| |]; intros _; reflexivity.
Qed.

Lemma append_length a b : String.length (a +:+ b) = (String.length a + String.length b)%nat.
Proof.
  induction a as [|c a IH]; [reflexivity|].
  rewrite append_cons. cbn [String.length Nat.add]. rewrite IH. reflexivity.
Qed.

Lemma join_split_bounded sep :
  String.prefix sep EmptyString = false ->
  forall n s, (String.length s <= n)%nat -> String.concat sep (PyStr.split sep s) = s.
Proof.
  intros Hne. unfold PyStr.split. induction n as [|n IH]; intros s Hn.
  - destruct s; [reflexivity|cbn in Hn; lia].
  - destruct s as [|c s]; [reflexivity|]. cbn [PyStr.split_from].
    destruct (String.prefix sep (String c s)) eqn:Ep.
    + destruct (prefix_split _ _ Ep) as [r Er].
      destruct sep as [|x sep]; [discriminate Hne|].
      rewrite append_cons in Er. injection Er as -> ->.
      replace (String.length (String x sep) - 1)%nat with (String.length sep)
        by (cbn [String.length]; lia).
      rewrite split_from_skip.
      rewrite concat_cons_nonempty by apply split_from_nonempty.
      rewrite IH; [reflexivity|].
      cbn in Hn. rewrite append_length in Hn. lia.
    + rewrite concat_push_head by apply split_from_nonempty.
      rewrite IH; [reflexivity|]. cbn in Hn. lia.
Qed.

(** ** More on the bullet builders and the e-mail rows *)

Lemma emitted_compact text s :
  emitted_runs (TwoColumn3.add_compact_bullet text) s
  = GLYPH :: (if PyStr.contains DELIM text
              then List.filter bold_or_nonempty (tagged_split text) else tagged_split text).
Proof.
  erewrite emitted_runs_eq; [|apply St_eta|apply add_compact_bullet_run].
  cbn [runs map]. f_equal.
  destruct (PyStr.contains DELIM text) eqn:E.
  - apply compact_runs_styled.
  - rewrite (tagged_split_plain _ E). reflexivity.
Qed.

Lemma emitted_bullet k text size s :
  emitted_runs (Template.add_bullet k text size) s
  = GLYPH :: (if PyStr.contains DELIM text
              then List.filter nonempty (tagged_split text) else tagged_split text).
Proof.
  erewrite emitted_runs_eq; [|apply St_eta|apply add_bullet_run].
  cbn [runs map]. f_equal.
  destruct (PyStr.contains DELIM text) eqn:E.
  - apply bullet_runs_styled.
  - rewrite (tagged_split_plain _ E). reflexivity.
Qed.

Lemma enumerate_from_snd {A} (l : list A) : forall start,
  map snd (PyStr.enumerate_from start l) = l.
Proof. induction l as [|x l IH]; intros start; [reflexivity|]. cbn. rewrite IH. reflexivity. Qed.

Lemma tagged_split_texts text : map fst (tagged_split text) = PyStr.split DELIM text.
Proof.
  unfold tagged_split, PyStr.enumerate. rewrite map_map.
  rewrite <- (enumerate_from_snd (PyStr.split DELIM text) 0) at 2.
  apply map_ext. intros [i part]. reflexivity.
Qed.

Lemma tagged_split_no_delim text :
  Forall (fun seg : string * bool => PyStr.contains DELIM seg.1 = false) (tagged_split text).
Proof.
  pose proof (split_from_no_sep DELIM text eq_refl 0) as H.
  fold (PyStr.split DELIM text) in H. rewrite <- tagged_split_texts in H.
  rewrite Forall_map in H. exact H.
Qed.

Lemma Forall_filter_bool {A} (P : A -> Prop) (f : A -> bool) (l : list A) :
  Forall P l -> Forall P (List.filter f l).
Proof.
  induction 1 as [|x l Hx Hl IH]; [constructor|]. cbn [List.filter].
  destruct (f x); [constructor; assumption|assumption].
Qed.

(** X1.  No run of a bulleted item holds the delimiter: whatever the
    text, the "**" markers never reach the document. *)
Theorem bullet_runs_hold_no_delimiter :
  forall (k : Template.Consts) (text : string) (size : Length) (s : St),
    Forall (fun seg : string * bool => PyStr.contains DELIM seg.1 = false)
           (emitted_runs (TwoColumn3.add_compact_bullet text) s)
    /\ Forall (fun seg : string * bool => PyStr.contains DELIM seg.1 = false)
              (emitted_runs (Template.add_bullet k text size) s).
Proof.
  intros. rewrite emitted_compact, emitted_bullet.
  split; (constructor; [reflexivity|]);
    destruct (PyStr.contains DELIM text);
    try apply Forall_filter_bool; apply tagged_split_no_delim.
Qed.

Lemma concat_filter_texts (f : string * bool -> bool) (l : list (string * bool)) :
  (forall seg, f seg = false -> seg.1 = EmptyString) ->
  String.concat "" (map fst (List.filter f l)) = String.concat "" (map fst l).
Proof.
  intros Hf. induction l as [|seg l IH]; [reflexivity|]. cbn [List.filter map].
  destruct (f seg) eqn:E.
  - cbn [map]. rewrite !concat_empty_cons, IH. reflexivity.
  - rewrite concat_empty_cons, (Hf seg E), IH. reflexivity.
Qed.

Lemma nonempty_false seg : nonempty seg = false -> seg.1 = EmptyString.
Proof.
  unfold nonempty. intros H. apply negb_false_iff in H. apply String.eqb_eq in H. exact H.
Qed.

Lemma concat_tagged_split text :
  String.concat "" (map fst (tagged_split text)) = PyStr.replace DELIM "" text.
Proof. rewrite tagged_split_texts. apply concat_split_from. Qed.

(** X2.  A bulleted item loses no text: the texts of its runs after the
    glyph, read one after the other, are the text with every delimiter
    taken out. *)
Theorem bullet_runs_keep_the_text :
  forall (k : Template.Consts) (text : string) (size : Length) (s : St),
    bullet_text (TwoColumn3.add_compact_bullet text) s = PyStr.replace DELIM "" text
    /\ bullet_text (Template.add_bullet k text size) s = PyStr.replace DELIM "" text.
Proof.
  intros. unfold bullet_text. rewrite emitted_compact, emitted_bullet. cbn [tail].
  split; (destruct (PyStr.contains DELIM text); [|apply concat_tagged_split]);
    rewrite concat_filter_texts; try apply concat_tagged_split.
  - intros seg H. unfold bold_or_nonempty in H. apply orb_false_iff in H as [_ H].
    apply nonempty_false, H.
  - apply nonempty_false.
Qed.

(** X3.  Splitting a text on the delimiter and joining the segments with
    the delimiter gives the text back. *)
Theorem split_join_round_trip :
  forall text : string, String.concat DELIM (PyStr.split DELIM text) = text.
Proof.
  intros text. apply (join_split_bounded DELIM eq_refl (String.length text)). lia.
Qed.

Lemma last_two {A} (l : list A) (x y : A) : last (l ++ [x; y]) = Some y.
Proof. rewrite <- app_two. apply last_snoc. Qed.

Lemma row_text_run_sidebar icon_path text size color icon_size s :
  row_text_run (TwoColumn3.add_sidebar_text_with_icon icon_path text size color icon_size) s
  = Some (sidebar_text_run text size color).
Proof.
  unfold row_text_run.
  erewrite returned_paragraph_eq; [|apply St_eta|].
  2: { rewrite (St_eta s) at 1. rewrite add_sidebar_text_with_icon_run. reflexivity. }
  cbn [mbind option_bind sidebar_icon_row runs].
  apply last_two.
Qed.

(** X4.  An e-mail address without spaces is emitted as it is: when the
    text of an icon+text row holds "@" and no space, the text run holds
    exactly the text and is marked [w:noBreak]. *)
Theorem email_without_space_is_verbatim :
  forall (icon_path text : string) (size icon_size : Length) (color : RGBColor) (s : St),
    PyStr.contains "@" text = true ->
    PyStr.contains " " text = false ->
    exists r,
      row_text_run (TwoColumn3.add_sidebar_text_with_icon icon_path text size color icon_size) s
      = Some r
      /\ run_text r = text
      /\ no_break r = Some "1".
Proof.
  intros icon_path text size icon_size color s Hat Hsp.
  exists (sidebar_text_run text size color). split; [apply row_text_run_sidebar|].
  unfold sidebar_text_run. rewrite Hat. split; [|reflexivity].
  cbn [run_text run_set_attr text_run]. apply replace_absent, Hsp.
Qed.

Lemma email_without_space_is_verbatim_witness :
  exists r,
    row_text_run (TwoColumn3.add_sidebar_text_with_icon
                    "/Users/prabhat/Desktop/resume/email.png" "prabhatkumar944@gmail.com"
                    (Pt 8) TwoColumn3.WHITE (Pt 6.5)) (start no_files)
    = Some r
    /\ run_text r = "prabhatkumar944@gmail.com"
    /\ no_break r = Some "1".
Proof.
  apply (email_without_space_is_verbatim
           "/Users/prabhat/Desktop/resume/email.png" "prabhatkumar944@gmail.com"
           (Pt 8) (Pt 6.5) TwoColumn3.WHITE (start no_files)); reflexivity.
Defined.

(** ** Icons that load, and icons that do not *)

Lemma get_icon_path_lookup icon_key s :
  Template.get_icon_path icon_key s = (icon_lookup (st_fs s) icon_key, s).
Proof. rewrite (St_eta s) at 1. rewrite get_icon_path_run, <- St_eta. reflexivity. Qed.

Lemma get_icon_path_some icon_key s path :
  Template.get_icon_path icon_key s = (Some path, s) ->
  icon_lookup (st_fs s) icon_key = Some path /\ negb (String.eqb icon_key "") = true.
Proof.
  rewrite get_icon_path_lookup. intros [= E]. split; [exact E|].
  destruct (String.eqb icon_key "") eqn:Ek; [|reflexivity].
  apply String.eqb_eq in Ek. subst icon_key. unfold icon_lookup in E.
  assert (Hn : Template.ICON_FILES !! "" = None) by (vm_compute; reflexivity).
  rewrite Hn in E. discriminate.
Qed.

Lemma section_header_result k text icon_key is_left_column s :
  Template.add_section_header k text icon_key is_left_column s
  = (List.length (paragraphs (st_cell s)),
     mkSt (st_cell s)
          (paragraphs (st_cell s)
           ++ [label_paragraph k (st_fs s) text icon_key; rule_paragraph k is_left_column])
          (st_out s ++ icon_warning (st_fs s) (header_icon (st_fs s) icon_key)) (st_fs s)).
Proof. rewrite (St_eta s) at 1. apply add_section_header_run. Qed.

Lemma sidebar_icon_result icon_path text size color icon_size s :
  TwoColumn3.add_sidebar_text_with_icon icon_path text size color icon_size s
  = (List.length (paragraphs (st_cell s)),
     mkSt (st_cell s)
          (paragraphs (st_cell s) ++ [sidebar_icon_row (st_fs s) icon_path text size color icon_size])
          (st_out s) (st_fs s)).
Proof. rewrite (St_eta s) at 1. apply add_sidebar_text_with_icon_run. Qed.

Lemma returned_paragraph_of b s para more out' :
  b s = (List.length (paragraphs (st_cell s)),
         mkSt (st_cell s) (paragraphs (st_cell s) ++ para :: more) out' (st_fs s)) ->
  returned_paragraph b s = Some para.
Proof. intros H. eapply returned_paragraph_eq; [apply St_eta|exact H]. Qed.

Lemma new_output_of b s p c ps out' fs :
  b s = (p, mkSt c ps (st_out s ++ out') fs) -> new_output b s = out'.
Proof.
  intros H. unfold new_output. rewrite H. cbn [snd st_out mkSt].
  rewrite drop_app_length. reflexivity.
Qed.

(** X5.  An icon file that exists but does not load is no error.
    [add_sidebar_text_with_icon] swallows the exception without a word:
    the empty run made for the picture stays in front of the spacer and
    the text.  [add_section_header] prints one warning line that names
    the key and the exception; the empty run stays in front of the label,
    no thin space is added, and the rule paragraph is appended as usual. *)
Theorem unloadable_icon_is_skipped :
  forall (k : Template.Consts) (s : St) (icon_path text icon_key path e : string)
         (size icon_size : Length) (color : RGBColor) (is_left_column : bool),
    (fs_exists (st_fs s) icon_path = true ->
     fs_picture_error (st_fs s) icon_path = Some e ->
     exists para,
       returned_paragraph
         (TwoColumn3.add_sidebar_text_with_icon icon_path text size color icon_size) s
       = Some para
       /\ runs para = [new_run ""; sidebar_spacer; sidebar_text_run text size color]
       /\ no_picture para
       /\ new_output (TwoColumn3.add_sidebar_text_with_icon icon_path text size color icon_size) s
          = [])
    /\ (Template.get_icon_path icon_key s = (Some path, s) ->
        fs_picture_error (st_fs s) path = Some e ->
        exists para,
          returned_paragraph (Template.add_section_header k text (Some icon_key) is_left_column) s
          = Some para
          /\ runs para = [new_run ""; label_run text]
          /\ no_picture para
          /\ new_output (Template.add_section_header k text (Some icon_key) is_left_column) s
             = ["Warning: Could not add icon " +:+ icon_key +:+ ": " +:+ e]
          /\ paragraphs_added (Template.add_section_header k text (Some icon_key) is_left_column) s
             = 2%nat).
Proof.
  intros. split.
  - intros Hex Herr. eexists. split; [|split; [|split]].
    + eapply returned_paragraph_of. rewrite sidebar_icon_result. reflexivity.
    + unfold sidebar_icon_row, sidebar_icon_runs. cbn [runs]. rewrite Hex, Herr. reflexivity.
    + unfold no_picture, sidebar_icon_row, sidebar_icon_runs. cbn [runs]. rewrite Hex, Herr.
      cbn [app]. repeat constructor. apply sidebar_text_run_no_picture.
    + eapply new_output_of. rewrite sidebar_icon_result, app_nil_r. reflexivity.
  - intros Hget Herr. apply get_icon_path_some in Hget as [El Hk].
    assert (Hicon : header_icon (st_fs s) (Some icon_key) = Some (icon_key, path)).
    { unfold header_icon. rewrite Hk, El. reflexivity. }
    eexists. split; [|split; [|split; [|split]]].
    + eapply returned_paragraph_of. rewrite section_header_result. reflexivity.
    + unfold label_paragraph. cbn [runs]. rewrite Hicon. cbn [fmap option_fmap option_map snd].
      unfold icon_prefix. rewrite Herr. reflexivity.
    + unfold no_picture, label_paragraph. cbn [runs]. rewrite Hicon.
      cbn [fmap option_fmap option_map snd]. unfold icon_prefix. rewrite Herr.
      repeat constructor.
    + eapply new_output_of. rewrite section_header_result, Hicon.
      unfold icon_warning. rewrite Herr. reflexivity.
    + unfold paragraphs_added. rewrite section_header_result.
      cbn [snd st_cell mkSt cell_set_paragraphs paragraphs]. rewrite length_app. cbn. lia.
Qed.

Lemma unloadable_icon_is_skipped_witness :
  (exists para,
     returned_paragraph
       (TwoColumn3.add_sidebar_text_with_icon "/icons/phone.png" "Skills" (Pt 8.5)
          TwoColumn3.WHITE (Pt 6.5)) (start broken_images)
     = Some para
     /\ runs para = [new_run ""; sidebar_spacer;
                     text_run "Skills" None (Pt 8.5) "Calibri" TwoColumn3.WHITE])
  /\ (exists para,
        returned_paragraph (Rajnish.add_section_header "Skills" (Some "skills") true)
          (start broken_images)
        = Some para
        /\ runs para = [new_run ""; label_run "Skills"]
        /\ new_output (Rajnish.add_section_header "Skills" (Some "skills") true)
             (start broken_images)
           = ["Warning: Could not add icon skills: cannot identify image file"]).
Proof.
  destruct (unloadable_icon_is_skipped Rajnish.consts (start broken_images)
              "/icons/phone.png" "Skills" "skills" "/home/user/resume/icon/skill.png"
              "cannot identify image file" (Pt 8.5) (Pt 6.5) TwoColumn3.WHITE true)
    as (H1 & H2).
  destruct (H1 eq_refl eq_refl) as (p1 & E1 & R1 & _).
  assert (G : Template.get_icon_path "skills" (start broken_images)
              = (Some "/home/user/resume/icon/skill.png", start broken_images))
    by (vm_compute; reflexivity).
  destruct (H2 G eq_refl) as (p2 & E2 & R2 & _ & O2 & _).
  split.
  - exists p1. split; [exact E1|exact R1].
  - exists p2. split; [exact E2|]. split; [exact R2|exact O2].
Defined.

(** X6.  An icon that loads comes first in its row: the paragraph starts
    with an empty-text run holding the one picture, square in the size
    asked for, then the spacer and the text.  In a section header the
    picture is 10pt, a thin space follows it, the paragraph is pulled
    144 twips to the left in either column, and nothing is printed. *)
Theorem loaded_icon_precedes_text :
  forall (k : Template.Consts) (s : St) (icon_path text icon_key path : string)
         (size icon_size : Length) (color : RGBColor) (is_left_column : bool),
    (fs_exists (st_fs s) icon_path = true ->
     fs_picture_error (st_fs s) icon_path = None ->
     exists para icon,
       returned_paragraph
         (TwoColumn3.add_sidebar_text_with_icon icon_path text size color icon_size) s
       = Some para
       /\ runs para = [icon; sidebar_spacer; sidebar_text_run text size color]
       /\ run_text icon = ""
       /\ run_pictures icon = [icon_picture icon_path icon_size])
    /\ (Template.get_icon_path icon_key s = (Some path, s) ->
        fs_picture_error (st_fs s) path = None ->
        exists para icon,
          returned_paragraph (Template.add_section_header k text (Some icon_key) is_left_column) s
          = Some para
          /\ runs para = [icon; header_thin_space; label_run text]
          /\ run_text icon = ""
          /\ run_pictures icon = [icon_picture path (Pt 10)]
          /\ returned_ind (Template.add_section_header k text (Some icon_key) is_left_column) s
             = Some {| ind_left := Some (Twips (-144)); ind_right := None;
                       ind_first_line := Some (Twips 0) |}
          /\ new_output (Template.add_section_header k text (Some icon_key) is_left_column) s
             = []).
Proof.
  intros. split.
  - intros Hex Herr. do 2 eexists. split; [|split; [|split]].
    + eapply returned_paragraph_of. rewrite sidebar_icon_result. reflexivity.
    + unfold sidebar_icon_row, sidebar_icon_runs. cbn [runs]. rewrite Hex, Herr. reflexivity.
    + reflexivity.
    + reflexivity.
  - intros Hget Herr. apply get_icon_path_some in Hget as [El Hk].
    assert (Hicon : header_icon (st_fs s) (Some icon_key) = Some (icon_key, path)).
    { unfold header_icon. rewrite Hk, El. reflexivity. }
    assert (Hret : returned_paragraph
                     (Template.add_section_header k text (Some icon_key) is_left_column) s
                   = Some (label_paragraph k (st_fs s) text (Some icon_key))).
    { eapply returned_paragraph_of. rewrite section_header_result. reflexivity. }
    do 2 eexists. split; [exact Hret|]. split; [|split; [|split; [|split]]].
    + unfold label_paragraph. cbn [runs]. rewrite Hicon. cbn [fmap option_fmap option_map snd].
      unfold icon_prefix. rewrite Herr. reflexivity.
    + reflexivity.
    + reflexivity.
    + unfold returned_ind. rewrite Hret. cbn [mbind option_bind].
      unfold label_paragraph. cbn [paragraph_format ind]. rewrite Hicon. reflexivity.
    + eapply new_output_of. rewrite section_header_result, Hicon.
      unfold icon_warning. rewrite Herr. reflexivity.
Qed.

Lemma loaded_icon_precedes_text_witness :
  (exists para icon,
     returned_paragraph
       (TwoColumn3.add_sidebar_text_with_icon "/icons/phone.png" "Skills" (Pt 8.5)
          TwoColumn3.WHITE (Pt 6.5)) (start all_files)
     = Some para
     /\ runs para = [icon; sidebar_spacer;
                     text_run "Skills" None (Pt 8.5) "Calibri" TwoColumn3.WHITE]
     /\ run_pictures icon = [icon_picture "/icons/phone.png" (Pt 6.5)])
  /\ (exists para icon,
        returned_paragraph (Rajnish.add_section_header "Skills" (Some "skills") false)
          (start all_files)
        = Some para
        /\ runs para = [icon; header_thin_space; label_run "Skills"]
        /\ run_pictures icon = [icon_picture "/home/user/resume/icon/skill.png" (Pt 10)]).
Proof.
  destruct (loaded_icon_precedes_text Rajnish.consts (start all_files)
              "/icons/phone.png" "Skills" "skills" "/home/user/resume/icon/skill.png"
              (Pt 8.5) (Pt 6.5) TwoColumn3.WHITE false)
    as (H1 & H2).
  destruct (H1 eq_refl eq_refl) as (p1 & i1 & E1 & R1 & _ & P1).
  assert (G : Template.get_icon_path "skills" (start all_files)
              = (Some "/home/user/resume/icon/skill.png", start all_files))
    by (vm_compute; reflexivity).
  destruct (H2 G eq_refl) as (p2 & i2 & E2 & R2 & _ & P2 & _).
  split.
  - exists p1, i1. split; [exact E1|]. split; [exact R1|exact P1].
  - exists p2, i2. split; [exact E2|]. split; [exact R2|exact P2].
Defined.

(** X7.  The column flag of [add_section_header] reaches the accent rule
    only: the label paragraph the builder returns, with its icon and its
    indentation, and the lines printed are the same for the left and the
    right column. *)
Theorem header_label_ignores_column :
  forall (k : Template.Consts) (text : string) (icon_key : option string) (s : St),
    returned_paragraph (Template.add_section_header k text icon_key true) s
    = returned_paragraph (Template.add_section_header k text icon_key false) s
    /\ (Template.add_section_header k text icon_key true s).1
       = (Template.add_section_header k text icon_key false s).1
    /\ st_out (Template.add_section_header k text icon_key true s).2
       = st_out (Template.add_section_header k text icon_key false s).2.
Proof.
  intros. split; [|split].
  - erewrite !returned_paragraph_of by (rewrite section_header_result; reflexivity).
    reflexivity.
  - rewrite !section_header_result. reflexivity.
  - rewrite !section_header_result. reflexivity.
Qed.

Lemma paragraphs_added_of b s new out' :
  b s = (List.length (paragraphs (st_cell s)),
         mkSt (st_cell s) (paragraphs (st_cell s) ++ new) out' (st_fs s)) ->
  paragraphs_added b s = List.length new.
Proof.
  intros H. unfold paragraphs_added. rewrite H.
  cbn [snd st_cell mkSt cell_set_paragraphs paragraphs]. rewrite length_app. lia.
Qed.

Ltac added_by lem :=
  eapply eq_trans;
  [eapply paragraphs_added_of; rewrite (St_eta _) at 1; rewrite lem; reflexivity
  |reflexivity].

(** X8.  Every block builder adds exactly one paragraph to the cell,
    whatever its arguments and whatever the icons do; [add_section_header]
    adds exactly two, the label and the rule. *)
Theorem builders_add_one_paragraph :
  forall (k : Template.Consts) (text icon_path icon_dir location email phone : string)
         (icon_key : option string) (flag : bool) (size icon_size : Length) (color : RGBColor)
         (s : St),
    paragraphs_added (TwoColumn3.add_sidebar_header text flag) s = 1%nat
    /\ paragraphs_added (TwoColumn3.add_main_header text) s = 1%nat
    /\ paragraphs_added (TwoColumn3.add_sidebar_text text size color) s = 1%nat
    /\ paragraphs_added
         (TwoColumn3.add_sidebar_text_with_icon icon_path text size color icon_size) s = 1%nat
    /\ paragraphs_added (TwoColumn3.add_sidebar_bullet text size) s = 1%nat
    /\ paragraphs_added (TwoColumn3.add_compact_bullet text) s = 1%nat
    /\ paragraphs_added Template._add_short_bold_line s = 1%nat
    /\ paragraphs_added (Template.add_section_header k text icon_key flag) s = 2%nat
    /\ paragraphs_added (Template.add_body_text k text size) s = 1%nat
    /\ paragraphs_added (Template.add_bullet k text size) s = 1%nat
    /\ paragraphs_added
         (Template.add_contact_header_centered k icon_dir location email phone icon_size) s
       = 1%nat.
Proof.
  intros. repeat split.
  - added_by add_sidebar_header_run.
  - added_by add_main_header_run.
  - added_by add_sidebar_text_run.
  - added_by add_sidebar_text_with_icon_run.
  - added_by add_sidebar_bullet_run.
  - added_by add_compact_bullet_run.
  - added_by _add_short_bold_line_run.
  - added_by add_section_header_run.
  - added_by add_body_text_run.
  - added_by add_bullet_run.
  - added_by add_contact_header_centered_run.
Qed.

(** ** Builders in a row, icon lookup, cell margins *)

(** X9.  Proxies stay good: when two builders that only append run one
    after the other on a cell, the proxy the first one returned still
    designates the paragraph it designated, unchanged, and the second
    proxy lies after it. *)
Theorem earlier_proxy_stays_valid :
  forall (b1 b2 : Build ParaRef) (s : St),
    appends_only b1 -> appends_only b2 ->
    paragraphs (st_cell (then_run b1 b2 s).2) !! (b1 s).1 = returned_paragraph b1 s
    /\ is_Some (returned_paragraph b1 s)
    /\ ((b1 s).1 < (then_run b1 b2 s).1)%nat.
Proof.
  intros b1 b2 s H1 H2. unfold then_run.
  destruct (H1 s) as (n1 & m1 & E1 & P1 & R1 & _).
  destruct (H2 (b1 s).2) as (n2 & m2 & E2 & P2 & _ & K2 & _).
  split; [|split].
  - rewrite R1. apply K2. exact R1.
  - rewrite R1. eexists. reflexivity.
  - rewrite P2, E1, P1, length_app. cbn. lia.
Qed.

Lemma earlier_proxy_stays_valid_witness :
  paragraphs (st_cell (then_run (Rajnish.add_section_header "Skills" None true)
                                (Rajnish.add_bullet "Built **React** apps" (Pt 9))
                                (start no_files)).2)
    !! (Rajnish.add_section_header "Skills" None true (start no_files)).1
  = returned_paragraph (Rajnish.add_section_header "Skills" None true) (start no_files).
Proof.
  apply earlier_proxy_stays_valid.
  - unfold Rajnish.add_section_header. appends_by add_section_header_run.
  - unfold Rajnish.add_bullet. appends_by add_bullet_run.
Defined.

(** X10.  [get_icon_path] only reads: it leaves cell and output alone.
    It answers with a path exactly when the key is one of the known keys
    and its file exists in the [icon] directory beside the script, and
    the path is that file's; an unknown key gives [None]. *)
Theorem get_icon_path_answers :
  forall (icon_key : string) (s : St),
    (Template.get_icon_path icon_key s).2 = s
    /\ (forall path,
          (Template.get_icon_path icon_key s).1 = Some path
          <-> exists icon_file,
                Template.ICON_FILES !! icon_key = Some icon_file
                /\ path = icon_file_path (st_fs s) icon_file
                /\ fs_exists (st_fs s) path = true)
    /\ (Template.ICON_FILES !! icon_key = None ->
        (Template.get_icon_path icon_key s).1 = None).
Proof.
  intros icon_key s. rewrite get_icon_path_lookup. cbn [fst snd].
  unfold icon_lookup, icon_file_path.
  split; [reflexivity|]. split.
  - intros path. destruct (Template.ICON_FILES !! icon_key) as [f|].
    + destruct (fs_exists (st_fs s) (os_path_join (os_path_join (fs_script_dir (st_fs s)) "icon") f))
        eqn:Ex.
      * split.
        -- intros [= <-]. exists f. repeat split. exact Ex.
        -- intros (f' & [= <-] & -> & _). reflexivity.
      * split; [discriminate|].
        intros (f' & [= <-] & -> & Hex). rewrite Ex in Hex. discriminate.
    + split; [discriminate|]. intros (f' & Hf & _). discriminate.
  - intros ->. reflexivity.
Qed.

Lemma get_icon_path_answers_witness :
  (Template.get_icon_path "Email" (start all_files)).1 = None
  /\ (Template.get_icon_path "email" (start all_files)).1
     = Some "/home/user/resume/icon/email.png".
Proof.
  split.
  - destruct (get_icon_path_answers "Email" (start all_files)) as (_ & _ & H).
    apply H. vm_compute. reflexivity.
  - destruct (get_icon_path_answers "email" (start all_files)) as (_ & H & _).
    apply H. exists "email.png". split; [vm_compute; reflexivity|]. split; reflexivity.
Defined.

Lemma find_app_last {A} (f : A -> bool) (l : list A) (x : A) :
  f x = false -> List.find f (l ++ [x]) = List.find f l.
Proof.
  intros Hx. induction l as [|y l IH]; [cbn; rewrite Hx; reflexivity|].
  cbn. destruct (f y); [reflexivity|exact IH].
Qed.

Lemma filter_app_last {A} (f : A -> bool) (l : list A) (x : A) :
  List.filter f (l ++ [x]) = List.filter f l ++ (if f x then [x] else []).
Proof. rewrite List.filter_app. reflexivity. Qed.

(** X11.  [set_cell_margins] touches nothing but the cell properties:
    the paragraphs, the vertical alignment and the shading of the cell
    stay, and one [w:tcMar] element with the four edges top, bottom,
    left, right, each of type [dxa], is appended after the properties
    already there.  It does not look for an earlier [w:tcMar]: a second
    call leaves two of them in the cell. *)
Theorem set_cell_margins_appends_tcMar :
  forall (top bottom left right top' bottom' left' right' : Q) (cell : Cell),
    let cell' := TwoColumn3.set_cell_margins top bottom left right cell in
    paragraphs cell' = paragraphs cell
    /\ vertical_alignment cell' = vertical_alignment cell
    /\ cell_shading cell' = cell_shading cell
    /\ (exists tcMar,
          tcPr cell' = Some (default [] (tcPr cell) ++ [tcMar])
          /\ xml_tag tcMar = "w:tcMar"
          /\ map xml_tag (xml_children tcMar) = ["w:top"; "w:bottom"; "w:left"; "w:right"]
          /\ Forall (fun edge => attr_get "w:type" (xml_attrs edge) = Some "dxa")
                    (xml_children tcMar))
    /\ count_tag "w:tcMar" cell' = S (count_tag "w:tcMar" cell)
    /\ count_tag "w:tcMar" (TwoColumn3.set_cell_margins top' bottom' left' right' cell')
       = S (S (count_tag "w:tcMar" cell)).
Proof.
  intros. 
  assert (Hcount : forall t b l r c,
    count_tag "w:tcMar" (TwoColumn3.set_cell_margins t b l r c) = S (count_tag "w:tcMar" c)).
  { intros t b l r c. unfold count_tag, TwoColumn3.set_cell_margins, pr_append.
    cbn [tcPr cell_set_tcPr default]. unfold id at 1.
    rewrite filter_app_last. cbn [xml_tag]. rewrite length_app. cbn. lia. }
  split; [reflexivity|]. split; [reflexivity|]. split; [|split; [|split]].
  - unfold cell', cell_shading, TwoColumn3.set_cell_margins, pr_append.
    cbn [tcPr cell_set_tcPr default]. unfold id at 1.
    rewrite find_app_last by reflexivity. reflexivity.
  - eexists. split; [reflexivity|]. split; [reflexivity|]. split; [reflexivity|].
    repeat constructor.
  - apply Hcount.
  - unfold cell'. rewrite !Hcount. reflexivity.
Qed.

Lemma filter_snd_enumerate (l : list string) : forall start,
  List.length (List.filter snd
     (map (fun '(i, part) => (part, Nat.odd i)) (PyStr.enumerate_from start l)))
  = Nat.div2 (List.length l + (if Nat.odd start then 1 else 0)).
Proof.
  induction l as [|part l IH]; intros start.
  - destruct (Nat.odd start); reflexivity.
  - cbn [PyStr.enumerate_from map List.filter snd List.length].
    specialize (IH (S start)). rewrite Nat.odd_succ, <- Nat.negb_odd in IH.
    destruct (Nat.odd start); cbn [negb] in IH; cbn [List.length]; rewrite IH.
    + rewrite Nat.add_0_r. replace (S (List.length l) + 1)%nat with (S (S (List.length l))) by lia.
      reflexivity.
    + rewrite Nat.add_0_r. replace (List.length l + 1)%nat with (S (List.length l)) by lia.
      reflexivity.
Qed.

(** X19.  [add_compact_bullet] makes one bold run for every second
    delimiter, an unpaired last delimiter included: a text with n
    delimiters gives (n+1) div 2 bold runs after the glyph, empty ones
    counted. *)
Theorem compact_bullet_bold_run_count :
  forall (text : string) (s : St),
    bold_runs (TwoColumn3.add_compact_bullet text) s
    = Nat.div2 (S (PyStr.count DELIM text)).
Proof.
  intros text s. unfold bold_runs. rewrite emitted_compact. cbn [tail].
  assert (Hall : List.length (List.filter snd (tagged_split text))
                 = Nat.div2 (S (PyStr.count DELIM text))).
  { unfold tagged_split, PyStr.enumerate. rewrite filter_snd_enumerate.
    cbn [Nat.odd Nat.even]. rewrite Nat.add_0_r, split_length. reflexivity. }
  destruct (PyStr.contains DELIM text); [|exact Hall].
  rewrite filter_filter_sub; [exact Hall|].
  intros seg Hs. unfold bold_or_nonempty. rewrite Hs. reflexivity.
Qed.

(** ** The converter *)

Module ConverterFacts.
Import ConvertToPdf ConverterSpec.

Lemma bind_conv {A B} (m : Conv A) (f : A -> Conv B) env h x h' :
  m env h = (inr x, h') -> (m ≫= f) env h = f x env h'.
Proof. intros H. unfold mbind, Conv_bind. rewrite H. reflexivity. Qed.

(** One round of the loop, case by case on what the spawn does. *)
Lemma try_candidate_run env h lo_path :
  try_candidate lo_path env h
  = match env_run env h (argv_of lo_path) 30 with
    | inl e =>
        if is_FileNotFound_or_Timeout e
        then (inr None, h ++ [attempt lo_path])
        else (inl e, h ++ [attempt lo_path])
    | inr returncode =>
        if (returncode =? 0)%Z then
          if env_exists env (h ++ [attempt lo_path]) pdf_file
          then (inr (Some true),
                h ++ [attempt lo_path; EExists pdf_file; EPrint success_line])
          else (inr None, h ++ [attempt lo_path; EExists pdf_file])
        else (inr None, h ++ [attempt lo_path])
    end.
Proof.
  unfold try_candidate, try_except, mbind, Conv_bind, subprocess_run, os_path_exists,
    print, mret, Conv_ret, attempt.
  destruct (env_run env h (argv_of lo_path) 30) as [e|code].
  - destruct (is_FileNotFound_or_Timeout e); reflexivity.
  - destruct (code =? 0)%Z; [|reflexivity].
    destruct (env_exists env (h ++ [ERun (argv_of lo_path) 30]) pdf_file);
      rewrite <- ?app_assoc; reflexivity.
Qed.

Lemma try_candidates_cons env h lo_path rest :
  try_candidates (lo_path :: rest) env h
  = match try_candidate lo_path env h with
    | (inl e, h') => (inl e, h')
    | (inr (Some v), h') => (inr (Some v), h')
    | (inr None, h') => try_candidates rest env h'
    end.
Proof.
  cbn [try_candidates]. unfold mbind, Conv_bind.
  destruct (try_candidate lo_path env h) as [[e|[v|]] h']; reflexivity.
Qed.

Lemma quiet_nil : quiet [].
Proof. constructor. Qed.

Lemma printed_app t1 t2 : printed (t1 ++ t2) = printed t1 ++ printed t2.
Proof. unfold printed. apply omap_app. Qed.

Lemma spawned_app t1 t2 : spawned (t1 ++ t2) = spawned t1 ++ spawned t2.
Proof. unfold spawned. apply omap_app. Qed.

Lemma quiet_app t1 t2 : quiet t1 -> quiet t2 -> quiet (t1 ++ t2).
Proof. unfold quiet. rewrite printed_app. apply Forall_app_2. Qed.

Lemma success_line_quiet : success_line <> remediation_header.
Proof. discriminate. Qed.

Lemma print_all_run lines env h : print_all lines env h = (inr tt, h ++ map EPrint lines).
Proof.
  revert h. induction lines as [|l ls IH]; intros h.
  - cbn. rewrite app_nil_r. reflexivity.
  - cbn [print_all map]. erewrite bind_conv by reflexivity.
    rewrite IH, <- app_assoc. reflexivity.
Qed.

(** The loop over the candidates: its spawns are those of the
    candidates, in order, up to the point where it stops; it prints
    nothing but the success line; it returns [True] or falls through or
    lets an exception pass; and it does not return when every candidate
    fails. *)
Lemma try_candidates_outcome env paths : forall h,
  exists t res,
    try_candidates paths env h = (res, h ++ t)
    /\ spawned t `prefix_of` map (fun p => (argv_of p, 30%Z)) paths
    /\ quiet t
    /\ (forall v, res = inr (Some v) -> v = true)
    /\ ((forall h' p, In p paths -> candidate_fails env h' p) -> forall v, res <> inr (Some v)).
Proof.
  induction paths as [|p rest IH]; intros h.
  - exists [], (inr None). split; [cbn; rewrite app_nil_r; reflexivity|].
    split; [apply prefix_nil|]. split; [apply quiet_nil|].
    split; [discriminate|]. intros _ v; discriminate.
  - rewrite try_candidates_cons, try_candidate_run.
    assert (Hp : forall t, spawned (attempt p :: t) = (argv_of p, 30%Z) :: spawned t)
      by reflexivity.
    assert (Hrest : forall h1 t1, spawned t1 = [(argv_of p, 30%Z)] -> quiet t1 ->
      (forall h', candidate_fails env h' p -> True) ->
      exists t res,
        try_candidates rest env (h1 ++ t1) = (res, h1 ++ t)
        /\ spawned t `prefix_of` map (fun p => (argv_of p, 30%Z)) (p :: rest)
        /\ quiet t
        /\ (forall v, res = inr (Some v) -> v = true)
        /\ ((forall h' q, In q (p :: rest) -> candidate_fails env h' q) ->
             forall v, res <> inr (Some v))).
    { intros h1 t1 Hs Hq _. destruct (IH (h1 ++ t1)) as (t & res & E & Hpre & Hqt & Hv & Hf).
      exists (t1 ++ t), res. split; [rewrite E, <- app_assoc; reflexivity|].
      split; [rewrite spawned_app, Hs; cbn [map app]; apply prefix_cons; exact Hpre|].
      split; [apply quiet_app; assumption|]. split; [exact Hv|].
      intros Hall. apply Hf. intros h' q Hq'. apply Hall. right. exact Hq'. }
    destruct (env_run env h (argv_of p) 30) as [e|code] eqn:Erun.
    + destruct (is_FileNotFound_or_Timeout e).
      * apply (Hrest h [attempt p]); [reflexivity|apply quiet_nil|trivial].
      * exists [attempt p], (inl e). split; [reflexivity|].
        split; [rewrite Hp; cbn [map]; apply prefix_cons, prefix_nil|].
        split; [apply quiet_nil|]. split; [discriminate|]. intros _ v; discriminate.
    + destruct (code =? 0)%Z eqn:Ecode.
      * destruct (env_exists env (h ++ [attempt p]) pdf_file) eqn:Epdf.
        -- exists [attempt p; EExists pdf_file; EPrint success_line], (inr (Some true)).
           split; [reflexivity|].
           split; [rewrite Hp; cbn [map]; apply prefix_cons, prefix_nil|].
           split; [repeat constructor; apply success_line_quiet|].
           split; [intros v [= <-]; reflexivity|].
           intros Hall v _. specialize (Hall h p (or_introl eq_refl)).
           unfold candidate_fails in Hall. rewrite Erun, Epdf in Hall.
           apply Z.eqb_eq in Ecode. destruct Hall as [Hne|Hne]; [contradiction|discriminate].
        -- apply (Hrest h [attempt p; EExists pdf_file]); [reflexivity|apply quiet_nil|trivial].
      * apply (Hrest h [attempt p]); [reflexivity|apply quiet_nil|trivial].
Qed.

(** The first [try] statement, case by case on what docx2pdf does. *)
Lemma try_native_run env h :
  try_except try_native is_Exception native_handler env h
  = match env_import env h with
    | Some e =>
        (inr None, h ++ [EImportDocx2pdf; EPrint ("docx2pdf failed: " +:+ exn_str e)])
    | None =>
        let h1 := h ++ [EImportDocx2pdf; EPrint "Converting DOCX to PDF using docx2pdf..."] in
        match env_convert env h1 docx_file pdf_file with
        | Some e =>
            (inr None,
             h1 ++ [EConvert docx_file pdf_file; EPrint ("docx2pdf failed: " +:+ exn_str e)])
        | None =>
            if env_exists env (h1 ++ [EConvert docx_file pdf_file]) pdf_file
            then (inr (Some true),
                  h1 ++ [EConvert docx_file pdf_file; EExists pdf_file; EPrint success_line])
            else (inr None, h1 ++ [EConvert docx_file pdf_file; EExists pdf_file])
        end
    end.
Proof.
  unfold try_except, try_native, native_handler, is_Exception,
    mbind, Conv_bind, import_docx2pdf, convert, print, os_path_exists, mret, Conv_ret.
  destruct (env_import env h) as [e|]; [rewrite <- app_assoc; reflexivity|].
  cbn zeta.
  assert (A : (h ++ [EImportDocx2pdf]) ++ [EPrint "Converting DOCX to PDF using docx2pdf..."]
              = h ++ [EImportDocx2pdf; EPrint "Converting DOCX to PDF using docx2pdf..."])
    by (rewrite <- app_assoc; reflexivity).
  rewrite A.
  destruct (env_convert env _ docx_file pdf_file) as [e|];
    [rewrite <- !app_assoc; reflexivity|].
  destruct (env_exists env _ pdf_file); rewrite <- ?app_assoc; reflexivity.
Qed.

(** The first [try] statement: it never raises, spawns nothing, and falls
    through when the native method fails. *)
Lemma native_outcome env h :
  exists t r,
    try_except try_native is_Exception native_handler env h = (inr r, h ++ t)
    /\ spawned t = []
    /\ quiet t
    /\ (forall v, r = Some v -> v = true)
    /\ (native_fails env h -> r = None).
Proof.
  rewrite try_native_run. unfold native_fails.
  destruct (env_import env h) as [e|].
  - eexists [_; _], None. split; [reflexivity|].
    split; [reflexivity|]. split; [repeat constructor; discriminate|].
    split; [discriminate|reflexivity].
  - cbn zeta.
    destruct (env_convert env _ docx_file pdf_file) as [e|].
    + eexists [_; _; _; _], None. split; [rewrite <- !app_assoc; reflexivity|].
      split; [reflexivity|]. split; [repeat constructor; discriminate|].
      split; [discriminate|reflexivity].
    + destruct (env_exists env _ pdf_file).
      * eexists [_; _; _; _; _], (Some true). split; [rewrite <- !app_assoc; reflexivity|].
        split; [reflexivity|]. split; [repeat constructor; discriminate|].
        split; [intros v [= <-]; reflexivity|discriminate].
      * eexists [_; _; _; _], None. split; [rewrite <- !app_assoc; reflexivity|].
        split; [reflexivity|]. split; [repeat constructor; discriminate|].
        split; [discriminate|reflexivity].
Qed.

(** The second [try] statement: it never raises either. *)
Lemma libreoffice_outcome env h :
  exists t r,
    try_except (try_candidates libreoffice_paths) is_Exception libreoffice_handler env h
    = (inr r, h ++ t)
    /\ spawned t `prefix_of` map (fun p => (argv_of p, 30%Z)) libreoffice_paths
    /\ quiet t
    /\ (forall v, r = Some v -> v = true)
    /\ ((forall h' p, In p libreoffice_paths -> candidate_fails env h' p) -> r = None).
Proof.
  destruct (try_candidates_outcome env libreoffice_paths h) as (t & res & E & Hpre & Hq & Hv & Hf).
  unfold try_except. rewrite E.
  destruct res as [e|r].
  - unfold is_Exception, libreoffice_handler, mbind, Conv_bind, print, mret, Conv_ret.
    exists (t ++ [EPrint ("LibreOffice conversion failed: " +:+ exn_str e)]), None.
    split; [rewrite <- app_assoc; reflexivity|].
    split; [rewrite spawned_app, app_nil_r; exact Hpre|].
    split; [apply quiet_app; [exact Hq|repeat constructor; discriminate]|].
    split; [discriminate|reflexivity].
  - exists t, r. split; [reflexivity|]. split; [exact Hpre|]. split; [exact Hq|].
    split; [intros v ->; apply (Hv v eq_refl)|].
    intros Hall. destruct r as [v|]; [|reflexivity].
    exfalso. apply (Hf Hall v). reflexivity.
Qed.

(** The whole function in terms of its two [try] statements. *)
Lemma convert_run env h :
  convert_docx_to_pdf env h
  = let h0 := h ++ [EExists docx_file] in
    if env_exists env h docx_file then
      match try_except try_native is_Exception native_handler env h0 with
      | (inl e, h1) => (inl e, h1)
      | (inr (Some v), h1) => (inr v, h1)
      | (inr None, h1) =>
          match try_except (try_candidates libreoffice_paths) is_Exception
                  libreoffice_handler env h1 with
          | (inl e, h2) => (inl e, h2)
          | (inr (Some v), h2) => (inr v, h2)
          | (inr None, h2) => (inr false, h2 ++ map EPrint remediation)
          end
      end
    else (inr false, h0 ++ [EPrint not_found_line]).
Proof.
  unfold convert_docx_to_pdf. erewrite bind_conv by reflexivity. cbn zeta.
  destruct (env_exists env h docx_file); cbn [negb]; [|reflexivity].
  change (fun e : Exn => print ("docx2pdf failed: " +:+ exn_str e);; mret None)
    with native_handler.
  change (fun e : Exn => print ("LibreOffice conversion failed: " +:+ exn_str e);; mret None)
    with libreoffice_handler.
  unfold mbind at 1, Conv_bind at 1.
  destruct (try_except try_native is_Exception native_handler env (h ++ [EExists docx_file]))
    as [[e|[v|]] h1]; try reflexivity.
  unfold mbind at 1, Conv_bind at 1.
  destruct (try_except (try_candidates libreoffice_paths) is_Exception libreoffice_handler env h1)
    as [[e|[v|]] h2]; try reflexivity.
  erewrite bind_conv by apply print_all_run. reflexivity.
Qed.

Lemma spawned_prints lines : spawned (map EPrint lines) = [].
Proof. induction lines as [|l ls IH]; [reflexivity|exact IH]. Qed.

Lemma finish_no_spawn res : spawned (finish res).2 = [].
Proof. destruct res as [e|[v|]]; [|reflexivity|]; apply (spawned_prints remediation). Qed.

(** A spawn in a history lies in the part that holds spawns. *)
Lemma spawn_not_in_front t1 : forall t2 pre argv timeout post,
  spawned t1 = [] ->
  t1 ++ t2 = pre ++ ERun argv timeout :: post ->
  exists pre', pre = t1 ++ pre' /\ t2 = pre' ++ ERun argv timeout :: post.
Proof.
  induction t1 as [|ev t1 IH]; intros t2 pre argv timeout post Hs E.
  - exists pre. split; [reflexivity|exact E].
  - destruct pre as [|ev' pre].
    + cbn [app] in E. injection E as -> _. discriminate Hs.
    + cbn [app] in E. injection E as <- E.
      assert (Hs' : spawned t1 = []) by (destruct ev; [exact Hs..|discriminate Hs]).
      destruct (IH _ _ _ _ _ Hs' E) as (pre' & -> & ->).
      exists pre'. split; reflexivity.
Qed.

Lemma spawn_not_behind t2 : forall t3 pre argv timeout post,
  spawned t3 = [] ->
  t2 ++ t3 = pre ++ ERun argv timeout :: post ->
  exists post', t2 = pre ++ ERun argv timeout :: post' /\ post = post' ++ t3.
Proof.
  induction t2 as [|ev t2 IH]; intros t3 pre argv timeout post Hs E.
  - cbn [app] in E. rewrite E, spawned_app in Hs. cbn in Hs.
    apply app_eq_nil in Hs as [_ Hs]. discriminate Hs.
  - destruct pre as [|ev' pre]; cbn [app] in E; injection E as -> E.
    + exists t2. split; [reflexivity|symmetry; exact E].
    + destruct (IH _ _ _ _ _ Hs E) as (post' & -> & ->).
      exists post'. split; reflexivity.
Qed.

Lemma no_spawn_no_split t pre argv timeout post :
  spawned t = [] -> t <> pre ++ ERun argv timeout :: post.
Proof.
  intros Hs ->. rewrite spawned_app in Hs. apply app_eq_nil in Hs as [_ Hs]. discriminate Hs.
Qed.

(** The loop, spawn by spawn. *)
Lemma try_candidates_spawns env paths : forall h,
  exists res t,
    try_candidates paths env h = (res, h ++ t)
    /\ match paths with
       | [] => t = [] /\ res = inr None
       | first :: _ => exists t', t = attempt first :: t'
       end
    /\ (forall pre argv timeout post,
          t = pre ++ ERun argv timeout :: post ->
          exists before lo_path after,
            paths = before ++ lo_path :: after
            /\ argv = argv_of lo_path /\ timeout = 30%Z
            /\ after_spawn env (h ++ pre) lo_path after (post ++ (finish res).2) (finish res).1)
    /\ (forall v, res = inr (Some v) ->
          v = true
          /\ exists pre lo_path,
               t = pre ++ attempt lo_path :: confirmation
               /\ env_run env (h ++ pre) (argv_of lo_path) 30 = inr 0%Z
               /\ env_exists env (h ++ pre ++ [attempt lo_path]) pdf_file = true).
Proof.
  induction paths as [|p rest IH]; intros h.
  - exists (inr None), []. split; [cbn; rewrite app_nil_r; reflexivity|].
    split; [split; reflexivity|]. split; [|discriminate].
    intros pre argv timeout post E. destruct pre; discriminate E.
  - (* the rounds that go on with the next candidate *)
    assert (Hgo : forall mid,
      spawned mid = [] ->
      try_candidates (p :: rest) env h = try_candidates rest env (h ++ attempt p :: mid) ->
      (forall post res, goes_on rest post res ->
         after_spawn env h p rest (mid ++ post) res) ->
      exists res t,
        try_candidates (p :: rest) env h = (res, h ++ t)
        /\ (exists t', t = attempt p :: t')
        /\ (forall pre argv timeout post,
              t = pre ++ ERun argv timeout :: post ->
              exists before lo_path after,
                p :: rest = before ++ lo_path :: after
                /\ argv = argv_of lo_path /\ timeout = 30%Z
                /\ after_spawn env (h ++ pre) lo_path after (post ++ (finish res).2)
                     (finish res).1)
        /\ (forall v, res = inr (Some v) ->
              v = true
              /\ exists pre lo_path,
                   t = pre ++ attempt lo_path :: confirmation
                   /\ env_run env (h ++ pre) (argv_of lo_path) 30 = inr 0%Z
                   /\ env_exists env (h ++ pre ++ [attempt lo_path]) pdf_file = true)).
    { intros mid Hmid Estep Hafter.
      destruct (IH (h ++ attempt p :: mid)) as (res & t & E & Hstart & Hsp & Hok).
      exists res, (attempt p :: mid ++ t).
      split; [rewrite Estep, E, <- app_assoc; reflexivity|].
      split; [eexists; reflexivity|]. split.
      - intros pre argv timeout post Et. destruct pre as [|ev pre].
        + cbn [app] in Et. injection Et as <- <- Et.
          exists [], p, rest. split; [reflexivity|]. split; [reflexivity|].
          split; [reflexivity|]. rewrite app_nil_r, <- Et, <- app_assoc.
          apply Hafter. destruct rest as [|q rest'].
          * destruct Hstart as [-> ->]. split; reflexivity.
          * destruct Hstart as [t' ->]. eexists. reflexivity.
        + cbn [app] in Et. injection Et as <- Et.
          destruct (spawn_not_in_front _ _ _ _ _ _ Hmid Et) as (pre' & -> & Et').
          destruct (Hsp _ _ _ _ Et') as (before & q & after & -> & -> & -> & Ha).
          exists (p :: before), q, after. split; [reflexivity|]. split; [reflexivity|].
          split; [reflexivity|].
          replace (h ++ attempt p :: mid ++ pre') with ((h ++ attempt p :: mid) ++ pre')
            by (rewrite <- app_assoc; reflexivity).
          exact Ha.
      - intros v Ev. destruct (Hok v Ev) as (-> & pre & q & -> & Hrun & Hpdf).
        split; [reflexivity|]. exists (attempt p :: mid ++ pre), q.
        split; [cbn [app]; rewrite <- app_assoc; reflexivity|].
        replace (h ++ attempt p :: mid ++ pre) with ((h ++ attempt p :: mid) ++ pre)
          by (rewrite <- app_assoc; reflexivity).
        split; [exact Hrun|].
        replace (h ++ (attempt p :: mid ++ pre) ++ [attempt q])
          with ((h ++ attempt p :: mid) ++ pre ++ [attempt q])
          by (cbn [app]; rewrite <- !app_assoc; reflexivity).
        exact Hpdf. }
    (* the rounds that end the loop *)
    assert (Hend : forall res mid,
      spawned mid = [] ->
      try_candidates (p :: rest) env h = (res, h ++ attempt p :: mid) ->
      after_spawn env h p rest (mid ++ (finish res).2) (finish res).1 ->
      (forall v, res = inr (Some v) ->
         v = true /\ mid = confirmation
         /\ env_run env h (argv_of p) 30 = inr 0%Z
         /\ env_exists env (h ++ [attempt p]) pdf_file = true) ->
      exists res t,
        try_candidates (p :: rest) env h = (res, h ++ t)
        /\ (exists t', t = attempt p :: t')
        /\ (forall pre argv timeout post,
              t = pre ++ ERun argv timeout :: post ->
              exists before lo_path after,
                p :: rest = before ++ lo_path :: after
                /\ argv = argv_of lo_path /\ timeout = 30%Z
                /\ after_spawn env (h ++ pre) lo_path after (post ++ (finish res).2)
                     (finish res).1)
        /\ (forall v, res = inr (Some v) ->
              v = true
              /\ exists pre lo_path,
                   t = pre ++ attempt lo_path :: confirmation
                   /\ env_run env (h ++ pre) (argv_of lo_path) 30 = inr 0%Z
                   /\ env_exists env (h ++ pre ++ [attempt lo_path]) pdf_file = true)).
    { intros res mid Hmid E Hafter Hok.
      exists res, (attempt p :: mid). split; [exact E|].
      split; [eexists; reflexivity|]. split.
      - intros pre argv timeout post Et. destruct pre as [|ev pre].
        + cbn [app] in Et. injection Et as <- <- <-.
          exists [], p, rest. split; [reflexivity|]. split; [reflexivity|].
          split; [reflexivity|]. rewrite app_nil_r. exact Hafter.
        + cbn [app] in Et. injection Et as <- Et.
          exfalso. exact (no_spawn_no_split _ _ _ _ _ Hmid Et).
      - intros v Ev. destruct (Hok v Ev) as (-> & -> & Hrun & Hpdf).
        split; [reflexivity|]. exists [], p. split; [reflexivity|].
        rewrite app_nil_r. split; [exact Hrun|exact Hpdf]. }
    pose proof (try_candidates_cons env h p rest) as Econs.
    rewrite try_candidate_run in Econs.
    destruct (env_run env h (argv_of p) 30) as [e|code] eqn:Erun.
    + destruct (is_FileNotFound_or_Timeout e) eqn:Eclass.
      * apply (Hgo []); [reflexivity|exact Econs|].
        intros post res Hpost. unfold after_spawn. rewrite Erun.
        unfold is_FileNotFound_or_Timeout in Eclass.
        destruct (exn_class e); [exact Hpost..|discriminate Eclass].
      * apply (Hend (inl e) []); [reflexivity|exact Econs| |discriminate].
        unfold after_spawn. rewrite Erun.
        unfold is_FileNotFound_or_Timeout in Eclass.
        destruct (exn_class e); [discriminate Eclass..|]. split; reflexivity.
    + destruct (code =? 0)%Z eqn:Ecode.
      * destruct (env_exists env (h ++ [attempt p]) pdf_file) eqn:Epdf.
        -- apply (Hend (inr (Some true)) confirmation); [reflexivity|exact Econs| |].
           ++ unfold after_spawn. rewrite Erun, Ecode, Epdf.
              split; [apply app_nil_r|reflexivity].
           ++ intros v [= <-]. apply Z.eqb_eq in Ecode. subst code. repeat split; assumption.
        -- apply (Hgo [EExists pdf_file]); [reflexivity|exact Econs|].
           intros post res Hpost. unfold after_spawn. rewrite Erun, Ecode, Epdf.
           exists post. split; [reflexivity|exact Hpost].
      * apply (Hgo []); [reflexivity|exact Econs|].
        intros post res Hpost. unfold after_spawn. rewrite Erun, Ecode. exact Hpost.
Qed.

(** The function in terms of the loop: after the DOCX check and the
    native method, which spawn nothing, either the run is over with
    [True], or the loop runs and [finish] does the rest. *)
Lemma convert_via_loop env h :
  env_exists env h docx_file = true ->
  exists (t1 : Trace) (r1 : option bool),
    spawned t1 = []
    /\ (forall v, r1 = Some v -> convert_docx_to_pdf env h = (inr true, h ++ t1))
    /\ (r1 = None ->
        forall res t2,
          try_candidates libreoffice_paths env (h ++ t1) = (res, (h ++ t1) ++ t2) ->
          convert_docx_to_pdf env h = ((finish res).1, h ++ t1 ++ t2 ++ (finish res).2))
    /\ (native_fails env (h ++ [EExists docx_file]) -> r1 = None).
Proof.
  intros Hdocx. rewrite convert_run. cbn zeta. rewrite Hdocx.
  destruct (native_outcome env (h ++ [EExists docx_file])) as (t1 & r1 & E1 & Hs1 & _ & Hv & Hn).
  exists ([EExists docx_file] ++ t1), r1. rewrite E1.
  split; [rewrite spawned_app, Hs1; reflexivity|]. split; [|split; [|exact Hn]].
  - intros v ->. rewrite (Hv v eq_refl), <- app_assoc. reflexivity.
  - intros ->. intros res t2 E2.
    replace (h ++ [EExists docx_file] ++ t1) with ((h ++ [EExists docx_file]) ++ t1) in E2
      by (rewrite <- app_assoc; reflexivity).
    unfold try_except at 1. rewrite E2.
    destruct res as [e|[v|]]; cbn [finish fst snd is_Exception].
    + unfold libreoffice_handler, mbind, Conv_bind, print, mret, Conv_ret.
      rewrite <- !app_assoc. reflexivity.
    + rewrite app_nil_r, <- !app_assoc. reflexivity.
    + rewrite <- !app_assoc. reflexivity.
Qed.

End ConverterFacts.

Import ConvertToPdf ConverterSpec ConverterFacts.

(** C10.  When the DOCX file does not exist, [convert_docx_to_pdf] asks
    for the file, prints the file-not-found line and returns [False]:
    it imports nothing, converts nothing, spawns nothing and does not
    print the list of manual options. *)
Theorem missing_docx_returns_at_once :
  forall (env : Env) (h : Trace),
    env_exists env h docx_file = false ->
    convert_docx_to_pdf env h = (inr false, h ++ [EExists docx_file; EPrint not_found_line])
    /\ spawned [EExists docx_file; EPrint not_found_line] = []
    /\ ~ In EImportDocx2pdf [EExists docx_file; EPrint not_found_line]
    /\ ~ In (EConvert docx_file pdf_file) [EExists docx_file; EPrint not_found_line]
    /\ Forall (fun line => ~ In line remediation) (printed [EExists docx_file; EPrint not_found_line]).
Proof.
  intros env h Hno. split; [|split; [|split; [|split]]].
  - rewrite convert_run. cbn zeta. rewrite Hno, <- app_assoc. reflexivity.
  - reflexivity.
  - intros [H|[H|[]]]; discriminate H.
  - intros [H|[H|[]]]; discriminate H.
  - repeat constructor. cbn. intros H.
    repeat (destruct H as [H|H]; [discriminate H|]). exact H.
Qed.

Lemma missing_docx_returns_at_once_witness :
  convert_docx_to_pdf (bare_env false) []
  = (inr false, [EExists docx_file; EPrint not_found_line]).
Proof.
  destruct (missing_docx_returns_at_once (bare_env false) [] eq_refl) as [H _].
  exact H.
Defined.

(** C5.  When the DOCX file exists, the native method fails and every
    external candidate fails, [convert_docx_to_pdf] returns [False]
    without raising, and the last thing it prints is the list of manual
    options, whose header line is printed exactly once in the run. *)
Theorem all_methods_fail_prints_remediation_once :
  forall (env : Env) (h : Trace),
    env_exists env h docx_file = true ->
    native_fails env (h ++ [EExists docx_file]) ->
    (forall h' lo_path, In lo_path libreoffice_paths -> candidate_fails env h' lo_path) ->
    exists t,
      convert_docx_to_pdf env h = (inr false, h ++ t ++ map EPrint remediation)
      /\ printed (t ++ map EPrint remediation) = printed t ++ remediation
      /\ quiet t
      /\ count_occ string_dec (printed (t ++ map EPrint remediation)) remediation_header = 1%nat.
Proof.
  intros env h Hdocx Hnative Hcands.
  rewrite convert_run. cbn zeta. rewrite Hdocx.
  destruct (native_outcome env (h ++ [EExists docx_file])) as (t1 & r1 & E1 & _ & Hq1 & _ & Hn).
  rewrite E1, (Hn Hnative).
  destruct (libreoffice_outcome env ((h ++ [EExists docx_file]) ++ t1))
    as (t2 & r2 & E2 & _ & Hq2 & _ & Hc).
  rewrite E2, (Hc Hcands).
  exists ([EExists docx_file] ++ t1 ++ t2).
  assert (Hq : quiet ([EExists docx_file] ++ t1 ++ t2)).
  { apply quiet_app; [apply quiet_nil|]. apply quiet_app; assumption. }
  assert (Hp : printed (map EPrint remediation) = remediation) by reflexivity.
  split; [rewrite <- !app_assoc; reflexivity|].
  split; [rewrite printed_app, Hp; reflexivity|].
  split; [exact Hq|].
  rewrite printed_app, Hp, count_occ_app.
  replace (count_occ string_dec (printed ([EExists docx_file] ++ t1 ++ t2)) remediation_header)
    with 0%nat.
  - vm_compute. reflexivity.
  - symmetry. apply count_occ_not_In. intros Hin.
    unfold quiet in Hq. rewrite Forall_forall in Hq.
    apply (Hq remediation_header); [|reflexivity].
    apply list_elem_of_In. exact Hin.
Qed.

Lemma bare_env_native_fails h : native_fails (bare_env true) h.
Proof. exact I. Qed.

Lemma bare_env_candidate_fails h lo_path : candidate_fails (bare_env true) h lo_path.
Proof. exact I. Qed.

Lemma all_methods_fail_prints_remediation_once_witness :
  exists t,
    convert_docx_to_pdf (bare_env true) [] = (inr false, t ++ map EPrint remediation)
    /\ count_occ string_dec (printed (t ++ map EPrint remediation)) remediation_header = 1%nat.
Proof.
  destruct (all_methods_fail_prints_remediation_once (bare_env true) [] eq_refl
              (bare_env_native_fails _) (fun h' p _ => bare_env_candidate_fails h' p))
    as (t & E & _ & _ & Hc).
  exists t. split; [exact E | exact Hc].
Defined.

(** C2.  In every run of [convert_docx_to_pdf] the spawns are those of
    the candidate list, in its order and up to the point where the run
    stops, each with a timeout of 30 seconds, so no candidate is spawned
    twice.  When the DOCX is there and the native method fails the loop
    is entered and the first candidate is spawned.  After every spawn the
    run does what the outcome of that spawn asks for: when the process
    exits with code zero and the PDF exists afterwards the run ends with
    the success line and [True]; when the binary is missing or the
    process times out, and also on a non-zero exit code or a PDF that is
    not there, the next candidate of the list is spawned, or the manual
    options are printed behind the last one.  A run that spawned a
    process returns [True] only if the last process it spawned exited
    with code zero and the PDF existed afterwards. *)
Theorem candidates_tried_once_in_order :
  forall (env : Env) (h : Trace),
    exists res t,
      convert_docx_to_pdf env h = (res, h ++ t)
      /\ spawned t `prefix_of` map (fun lo_path => (argv_of lo_path, 30%Z)) libreoffice_paths
      /\ NoDup (spawned t)
      /\ (env_exists env h docx_file = true ->
          native_fails env (h ++ [EExists docx_file]) ->
          exists t0 post, t = t0 ++ attempt first_candidate :: post /\ spawned t0 = [])
      /\ (forall pre argv timeout post,
            t = pre ++ ERun argv timeout :: post ->
            exists before lo_path after,
              libreoffice_paths = before ++ lo_path :: after
              /\ argv = argv_of lo_path /\ timeout = 30%Z
              /\ after_spawn env (h ++ pre) lo_path after post res)
      /\ (res = inr true -> spawned t <> [] ->
          exists pre lo_path,
            t = pre ++ attempt lo_path :: confirmation
            /\ env_run env (h ++ pre) (argv_of lo_path) 30 = inr 0%Z
            /\ env_exists env (h ++ pre ++ [attempt lo_path]) pdf_file = true).
Proof.
  intros env h.
  assert (Hnodup : NoDup (map (fun lo_path => (argv_of lo_path, 30%Z)) libreoffice_paths)).
  { cbv [libreoffice_paths map].
    repeat (apply NoDup_cons_2;
      [rewrite ?elem_of_cons, elem_of_nil; intros H;
       repeat (destruct H as [H|H]; [discriminate H|]); exact H|]).
    apply NoDup_nil_2. }
  assert (Hsub : forall t,
    spawned t `prefix_of` map (fun lo_path => (argv_of lo_path, 30%Z)) libreoffice_paths ->
    NoDup (spawned t)).
  { intros t [k Hk]. rewrite Hk in Hnodup. apply NoDup_app in Hnodup. apply Hnodup. }
  destruct (env_exists env h docx_file) eqn:Hdocx.
  - destruct (convert_via_loop env h Hdocx) as (t1 & r1 & Hs1 & Hdone & Hloop & Hfails).
    destruct r1 as [v|].
    + exists (inr true), t1. split; [apply (Hdone v eq_refl)|].
      rewrite Hs1. split; [apply prefix_nil|]. split; [apply NoDup_nil_2|].
      split; [intros _ Hn; discriminate (Hfails Hn)|]. split.
      * intros pre argv timeout post E. exfalso.
        exact (no_spawn_no_split _ _ _ _ _ Hs1 E).
      * intros _ Hne. exfalso. apply Hne. reflexivity.
    + destruct (try_candidates_spawns env libreoffice_paths (h ++ t1))
        as (res & t2 & E2 & Hstart & Hsp & Hok).
      destruct (try_candidates_outcome env libreoffice_paths (h ++ t1))
        as (t2' & res' & E2' & Hpre & _).
      rewrite E2 in E2'. injection E2' as _ E2'. apply app_inv_head in E2'. subst t2'.
      assert (Hspawned : spawned (t1 ++ t2 ++ (finish res).2) = spawned t2).
      { rewrite !spawned_app, Hs1, finish_no_spawn, app_nil_r. reflexivity. }
      exists (finish res).1, (t1 ++ t2 ++ (finish res).2).
      split; [apply (Hloop eq_refl), E2|]. rewrite Hspawned.
      split; [exact Hpre|]. split; [apply Hsub, Hpre|]. split; [|split].
      * intros _ _. destruct Hstart as [t' ->].
        exists t1, (t' ++ (finish res).2). split; [reflexivity|exact Hs1].
      * intros pre argv timeout post E.
        destruct (spawn_not_in_front _ _ _ _ _ _ Hs1 E) as (pre' & -> & E').
        destruct (spawn_not_behind _ _ _ _ _ _ (finish_no_spawn res) E') as (post' & Et2 & ->).
        destruct (Hsp _ _ _ _ Et2) as (before & q & after & Hq & -> & -> & Ha).
        exists before, q, after. split; [exact Hq|]. split; [reflexivity|].
        split; [reflexivity|]. rewrite app_assoc. exact Ha.
      * intros Hres _.
        destruct res as [e|[v|]]; cbn [finish fst] in Hres; try discriminate Hres.
        destruct (Hok v eq_refl) as (_ & pre & q & -> & Hrun & Hpdf).
        exists (t1 ++ pre), q. cbn [finish snd]. rewrite app_nil_r.
        split; [rewrite <- app_assoc; reflexivity|].
        rewrite <- app_assoc in Hrun, Hpdf. split; [exact Hrun|].
        rewrite <- app_assoc. exact Hpdf.
  - exists (inr false), [EExists docx_file; EPrint not_found_line].
    split; [rewrite convert_run; cbn zeta; rewrite Hdocx, <- app_assoc; reflexivity|].
    split; [apply prefix_nil|]. split; [apply NoDup_nil_2|].
    split; [discriminate|]. split; [|discriminate].
    intros pre argv timeout post E. exfalso.
    exact (no_spawn_no_split [EExists docx_file; EPrint not_found_line] _ _ _ _ eq_refl E).
Qed.

Lemma candidates_tried_once_in_order_witness :
  exists post,
    convert_docx_to_pdf soffice_env []
    = (inr true,
       [EExists docx_file; EImportDocx2pdf;
        EPrint "docx2pdf failed: No module named 'docx2pdf'";
        attempt first_candidate] ++ post)
    /\ (exists t0 post0,
          [EExists docx_file; EImportDocx2pdf;
           EPrint "docx2pdf failed: No module named 'docx2pdf'";
           attempt first_candidate] ++ post
          = t0 ++ attempt first_candidate :: post0
          /\ spawned t0 = [])
    /\ (exists before lo_path after,
          libreoffice_paths = before ++ lo_path :: after
          /\ argv_of first_candidate = argv_of lo_path
          /\ after_spawn soffice_env
               [EExists docx_file; EImportDocx2pdf;
                EPrint "docx2pdf failed: No module named 'docx2pdf'"]
               lo_path after post (inr true))
    /\ (exists before lo_path after,
          libreoffice_paths = before ++ lo_path :: after
          /\ argv_of "libreoffice" = argv_of lo_path
          /\ after_spawn soffice_env
               [EExists docx_file; EImportDocx2pdf;
                EPrint "docx2pdf failed: No module named 'docx2pdf'";
                attempt first_candidate]
               lo_path after (tail post) (inr true))
    /\ (exists pre lo_path,
          [EExists docx_file; EImportDocx2pdf;
           EPrint "docx2pdf failed: No module named 'docx2pdf'";
           attempt first_candidate] ++ post
          = pre ++ attempt lo_path :: confirmation
          /\ env_run soffice_env pre (argv_of lo_path) 30 = inr 0%Z
          /\ env_exists soffice_env (pre ++ [attempt lo_path]) pdf_file = true).
Proof.
  destruct (candidates_tried_once_in_order soffice_env [])
    as (res & t & E & _ & _ & Hloop & Hsp & Hok).
  vm_compute in E. injection E as <- <-.
  exists [attempt "libreoffice"; attempt "soffice"; EExists pdf_file; EPrint success_line].
  split; [vm_compute; reflexivity|]. split; [exact (Hloop eq_refl I)|]. split; [|split].
  - destruct (Hsp [EExists docx_file; EImportDocx2pdf;
                   EPrint "docx2pdf failed: No module named 'docx2pdf'"]
                (argv_of first_candidate) 30%Z
                [attempt "libreoffice"; attempt "soffice"; EExists pdf_file;
                 EPrint success_line] eq_refl)
      as (before & q & after & Hq & Ha & _ & Hafter).
    exists before, q, after. split; [exact Hq|]. split; [exact Ha|exact Hafter].
  - destruct (Hsp [EExists docx_file; EImportDocx2pdf;
                   EPrint "docx2pdf failed: No module named 'docx2pdf'";
                   attempt first_candidate]
                (argv_of "libreoffice") 30%Z
                [attempt "soffice"; EExists pdf_file; EPrint success_line] eq_refl)
      as (before & q & after & Hq & Ha & _ & Hafter).
    exists before, q, after. split; [exact Hq|]. split; [exact Ha|exact Hafter].
  - apply Hok; [reflexivity|discriminate].
Defined.

(** ** More on the converter *)

Ltac by_history H :=
  refine (eq_trans (f_equal (fun x => env_exists _ x _) _) H);
  rewrite <- ?app_assoc; reflexivity.

Lemma quiet_confirmation : quiet confirmation.
Proof. repeat constructor. apply success_line_quiet. Qed.

(** The first [try] statement falls through or returns [True] after the
    confirmation. *)
Lemma native_shape env h :
  exists t r,
    try_except try_native is_Exception native_handler env h = (inr r, h ++ t)
    /\ quiet t /\ spawned t = []
    /\ (r = None
        \/ r = Some true
           /\ exists t0, t = t0 ++ confirmation /\ env_exists env (h ++ t0) pdf_file = true).
Proof.
  rewrite try_native_run.
  destruct (env_import env h) as [e|].
  - eexists [_; _], None. split; [reflexivity|].
    split; [repeat constructor; discriminate|]. split; [reflexivity|]. left. reflexivity.
  - cbn zeta.
    destruct (env_convert env _ docx_file pdf_file) as [e|].
    + eexists [_; _; _; _], None. split; [rewrite <- !app_assoc; reflexivity|].
      split; [repeat constructor; discriminate|]. split; [reflexivity|]. left. reflexivity.
    + destruct (env_exists env _ pdf_file) eqn:Ex.
      * eexists [_; _; _; _; _], (Some true). split; [rewrite <- !app_assoc; reflexivity|].
        split; [repeat constructor; discriminate|]. split; [reflexivity|].
        right. split; [reflexivity|].
        exists [EImportDocx2pdf; EPrint "Converting DOCX to PDF using docx2pdf...";
                EConvert docx_file pdf_file].
        split; [reflexivity|]. by_history Ex.
      * eexists [_; _; _; _], None. split; [rewrite <- !app_assoc; reflexivity|].
        split; [repeat constructor; discriminate|]. split; [reflexivity|]. left. reflexivity.
Qed.

(** The loop returns only after a confirmation. *)
Lemma try_candidates_shape env paths : forall h,
  exists t res,
    try_candidates paths env h = (res, h ++ t)
    /\ quiet t
    /\ match res with
       | inr (Some v) =>
           v = true
           /\ exists t0, t = t0 ++ confirmation /\ env_exists env (h ++ t0) pdf_file = true
       | _ => True
       end.
Proof.
  induction paths as [|p rest IH]; intros h.
  - exists [], (inr None). split; [cbn; rewrite app_nil_r; reflexivity|].
    split; [apply quiet_nil|exact I].
  - rewrite try_candidates_cons, try_candidate_run.
    assert (Hrest : forall t1, quiet t1 ->
      exists t res,
        try_candidates rest env (h ++ t1) = (res, h ++ t)
        /\ quiet t
        /\ match res with
           | inr (Some v) =>
               v = true
               /\ exists t0, t = t0 ++ confirmation /\ env_exists env (h ++ t0) pdf_file = true
           | _ => True
           end).
    { intros t1 Hq1. destruct (IH (h ++ t1)) as (t & res & E & Hq & Hres).
      exists (t1 ++ t), res. split; [rewrite E, <- app_assoc; reflexivity|].
      split; [apply quiet_app; assumption|].
      destruct res as [e|[v|]]; try exact I.
      destruct Hres as (-> & t0 & -> & Hex). split; [reflexivity|].
      exists (t1 ++ t0). split; [rewrite <- app_assoc; reflexivity|].
      by_history Hex. }
    destruct (env_run env h (argv_of p) 30) as [e|code].
    + destruct (is_FileNotFound_or_Timeout e).
      * apply (Hrest [attempt p]), quiet_nil.
      * exists [attempt p], (inl e). split; [reflexivity|]. split; [apply quiet_nil|exact I].
    + destruct (code =? 0)%Z.
      * destruct (env_exists env (h ++ [attempt p]) pdf_file) eqn:Epdf.
        -- exists ([attempt p] ++ confirmation), (inr (Some true)).
           split; [reflexivity|].
           split; [apply quiet_app; [apply quiet_nil|apply quiet_confirmation]|].
           split; [reflexivity|]. exists [attempt p]. split; [reflexivity|exact Epdf].
        -- apply (Hrest [attempt p; EExists pdf_file]), quiet_nil.
      * apply (Hrest [attempt p]), quiet_nil.
Qed.

Lemma libreoffice_shape env h :
  exists t r,
    try_except (try_candidates libreoffice_paths) is_Exception libreoffice_handler env h
    = (inr r, h ++ t)
    /\ quiet t
    /\ (r = None
        \/ r = Some true
           /\ exists t0, t = t0 ++ confirmation /\ env_exists env (h ++ t0) pdf_file = true).
Proof.
  destruct (try_candidates_shape env libreoffice_paths h) as (t & res & E & Hq & Hres).
  unfold try_except. rewrite E.
  destruct res as [e|[v|]].
  - unfold is_Exception, libreoffice_handler, mbind, Conv_bind, print, mret, Conv_ret.
    exists (t ++ [EPrint ("LibreOffice conversion failed: " +:+ exn_str e)]), None.
    split; [rewrite <- app_assoc; reflexivity|].
    split; [apply quiet_app; [exact Hq|repeat constructor; discriminate]|]. left. reflexivity.
  - destruct Hres as (-> & Hres). exists t, (Some true).
    split; [reflexivity|]. split; [exact Hq|]. right. split; [reflexivity|exact Hres].
  - exists t, None. split; [reflexivity|]. split; [exact Hq|]. left. reflexivity.
Qed.

(** The three ways a run can end. *)
Lemma convert_shape env h :
  (env_exists env h docx_file = false
   /\ convert_docx_to_pdf env h = (inr false, h ++ [EExists docx_file; EPrint not_found_line]))
  \/ (env_exists env h docx_file = true
      /\ exists t0,
           convert_docx_to_pdf env h = (inr true, h ++ t0 ++ confirmation)
           /\ env_exists env (h ++ t0) pdf_file = true
           /\ quiet (t0 ++ confirmation))
  \/ (env_exists env h docx_file = true
      /\ exists t,
           convert_docx_to_pdf env h = (inr false, h ++ t ++ map EPrint remediation)
           /\ quiet t).
Proof.
  rewrite convert_run. cbn zeta.
  destruct (env_exists env h docx_file) eqn:Hdocx.
  2: { left. split; [reflexivity|]. rewrite <- app_assoc. reflexivity. }
  right.
  destruct (native_shape env (h ++ [EExists docx_file])) as (t1 & r1 & E1 & Hq1 & _ & Hr1).
  rewrite E1.
  destruct Hr1 as [-> | (-> & t0 & -> & Hex)].
  - destruct (libreoffice_shape env ((h ++ [EExists docx_file]) ++ t1))
      as (t2 & r2 & E2 & Hq2 & Hr2).
    rewrite E2.
    destruct Hr2 as [-> | (-> & t0 & -> & Hex)].
    + right. split; [reflexivity|]. exists ([EExists docx_file] ++ t1 ++ t2).
      split; [rewrite <- !app_assoc; reflexivity|].
      apply quiet_app; [apply quiet_nil|]. apply quiet_app; assumption.
    + left. split; [reflexivity|]. exists ([EExists docx_file] ++ t1 ++ t0).
      split; [rewrite <- !app_assoc; reflexivity|]. split.
      * by_history Hex.
      * rewrite <- !app_assoc. apply quiet_app; [apply quiet_nil|].
        apply quiet_app; assumption.
  - left. split; [reflexivity|]. exists ([EExists docx_file] ++ t0).
    split; [rewrite <- !app_assoc; reflexivity|]. split.
    + by_history Hex.
    + rewrite <- app_assoc. apply quiet_app; [apply quiet_nil|exact Hq1].
Qed.

(** X13.  [True] means the PDF was seen: when [convert_docx_to_pdf]
    returns [True], the last thing it did was to find the PDF file
    present and to print the success line, the DOCX existed at the
    start, and the header of the manual options was never printed. *)
Theorem true_means_pdf_confirmed :
  forall (env : Env) (h h' : Trace),
    convert_docx_to_pdf env h = (inr true, h') ->
    exists t0,
      h' = h ++ t0 ++ confirmation
      /\ env_exists env (h ++ t0) pdf_file = true
      /\ env_exists env h docx_file = true
      /\ quiet (t0 ++ confirmation).
Proof.
  intros env h h' H.
  destruct (convert_shape env h) as [(_ & E) | [(Hd & t0 & E & Hex & Hq) | (_ & t & E & _)]];
    rewrite E in H; try discriminate H.
  injection H as <-. exists t0. repeat split; assumption.
Qed.

Lemma true_means_pdf_confirmed_witness :
  exists t0,
    [EExists docx_file; EImportDocx2pdf; EPrint "Converting DOCX to PDF using docx2pdf...";
     EConvert docx_file pdf_file; EExists pdf_file; EPrint success_line]
    = [] ++ t0 ++ confirmation
    /\ env_exists word_env ([] ++ t0) pdf_file = true.
Proof.
  destruct (true_means_pdf_confirmed word_env [] native_success_events eq_refl)
    as (t0 & E & Hex & _).
  exists t0. split; [exact E|exact Hex].
Defined.

(** X14.  [False] on an existing DOCX means the manual options were
    printed: whenever [convert_docx_to_pdf] returns [False] although the
    DOCX file exists, whatever went wrong, the last lines it printed are
    the remediation lines, and their header was not printed before. *)
Theorem false_means_remediation_printed :
  forall (env : Env) (h h' : Trace),
    env_exists env h docx_file = true ->
    convert_docx_to_pdf env h = (inr false, h') ->
    exists t, h' = h ++ t ++ map EPrint remediation /\ quiet t.
Proof.
  intros env h h' Hd H.
  destruct (convert_shape env h) as [(Hn & _) | [(_ & t0 & E & _) | (_ & t & E & Hq)]].
  - rewrite Hn in Hd. discriminate.
  - rewrite E in H. discriminate.
  - rewrite E in H. injection H as <-. exists t. split; [reflexivity|exact Hq].
Qed.

Lemma false_means_remediation_printed_witness :
  exists t, (convert_docx_to_pdf denied_env []).2 = [] ++ t ++ map EPrint remediation /\ quiet t.
Proof.
  apply (false_means_remediation_printed denied_env []); vm_compute; reflexivity.
Defined.

Lemma is_other_not_caught e :
  exn_class e = OtherException -> is_FileNotFound_or_Timeout e = false.
Proof. unfold is_FileNotFound_or_Timeout. intros ->. reflexivity. Qed.

(** The first [try] statement when the native method fails. *)
Lemma native_falls_through env h :
  native_fails env h ->
  exists t,
    try_except try_native is_Exception native_handler env h = (inr None, h ++ t)
    /\ spawned t = [] /\ quiet t.
Proof.
  intros Hf. destruct (native_outcome env h) as (t & r & E & Hs & Hq & _ & Hn).
  exists t. rewrite E, (Hn Hf). repeat split; assumption.
Qed.

(** X15.  An exception of a spawn that is neither [FileNotFoundError]
    nor [TimeoutExpired] ends the candidate loop: the candidates after
    it are not tried.  When the native method has failed and the first
    candidate raises such an exception, the run spawns that candidate
    only, prints "LibreOffice conversion failed: " with the exception,
    then the remediation lines, and returns [False]. *)
Theorem unexpected_exception_ends_the_loop :
  forall (env : Env) (h : Trace) (e : Exn),
    exn_class e = OtherException ->
    (forall h', env_run env h' (argv_of first_candidate) 30 = inl e) ->
    (forall rest, try_candidates (first_candidate :: rest) env h
                  = (inl e, h ++ [attempt first_candidate]))
    /\ (env_exists env h docx_file = true ->
        native_fails env (h ++ [EExists docx_file]) ->
        exists t,
          convert_docx_to_pdf env h
          = (inr false,
             h ++ t ++ [attempt first_candidate;
                        EPrint ("LibreOffice conversion failed: " +:+ exn_str e)]
               ++ map EPrint remediation)
          /\ spawned t = []).
Proof.
  intros env h e Hclass Hrun.
  assert (Hloop : forall h0 rest,
    try_candidates (first_candidate :: rest) env h0 = (inl e, h0 ++ [attempt first_candidate])).
  { intros h0 rest. rewrite try_candidates_cons, try_candidate_run, Hrun.
    rewrite (is_other_not_caught e Hclass). reflexivity. }
  split; [apply Hloop|].
  intros Hdocx Hnative. rewrite convert_run. cbn zeta. rewrite Hdocx.
  destruct (native_falls_through env _ Hnative) as (t1 & E1 & Hs1 & _).
  rewrite E1. unfold try_except at 1.
  change libreoffice_paths with (first_candidate :: ["libreoffice"; "soffice"]).
  rewrite Hloop.
  unfold is_Exception, libreoffice_handler, mbind, Conv_bind, print, mret, Conv_ret.
  exists ([EExists docx_file] ++ t1). split.
  - rewrite <- !app_assoc. reflexivity.
  - rewrite spawned_app, Hs1. reflexivity.
Qed.

Lemma unexpected_exception_ends_the_loop_witness :
  exists t,
    convert_docx_to_pdf denied_env []
    = (inr false,
       t ++ [attempt first_candidate;
             EPrint "LibreOffice conversion failed: [Errno 13] Permission denied"]
         ++ map EPrint remediation)
    /\ spawned t = [].
Proof.
  destruct (unexpected_exception_ends_the_loop denied_env [] permission_denied eq_refl
              (fun _ => eq_refl)) as (_ & H).
  apply (H eq_refl I).
Defined.

(** X16.  A candidate that runs but does not deliver is passed over
    without a word: after a non-zero exit code the loop goes on with the
    next candidate, and after exit code zero with no PDF in place it
    does so too, having looked for the file; nothing is printed. *)
Theorem failed_exit_goes_on_silently :
  forall (env : Env) (h : Trace) (lo_path : string) (rest : list string) (returncode : Z),
    env_run env h (argv_of lo_path) 30 = inr returncode ->
    (returncode <> 0%Z ->
     try_candidates (lo_path :: rest) env h = try_candidates rest env (h ++ [attempt lo_path]))
    /\ (returncode = 0%Z ->
        env_exists env (h ++ [attempt lo_path]) pdf_file = false ->
        try_candidates (lo_path :: rest) env h
        = try_candidates rest env (h ++ [attempt lo_path; EExists pdf_file])).
Proof.
  intros env h p rest code Hrun. rewrite try_candidates_cons, try_candidate_run, Hrun.
  split.
  - intros Hne. apply Z.eqb_neq in Hne. rewrite Hne. reflexivity.
  - intros -> Hpdf. cbn [Z.eqb]. rewrite Hpdf. reflexivity.
Qed.

Lemma failed_exit_goes_on_silently_witness :
  try_candidates libreoffice_paths failing_env []
  = try_candidates ["libreoffice"; "soffice"] failing_env [attempt first_candidate].
Proof.
  destruct (failed_exit_goes_on_silently failing_env [] first_candidate
              ["libreoffice"; "soffice"] 1%Z eq_refl) as (H & _).
  apply H. discriminate.
Defined.



(** The loop when no candidate can be used: all of them are spawned. *)
Lemma try_candidates_all_unusable env paths :
  (forall h' p, In p paths -> candidate_unusable env h' p) ->
  forall h, exists t,
    try_candidates paths env h = (inr None, h ++ t)
    /\ spawned t = map (fun p => (argv_of p, 30%Z)) paths
    /\ printed t = [].
Proof.
  induction paths as [|p rest IH]; intros Hall h.
  - exists []. split; [cbn; rewrite app_nil_r; reflexivity|]. split; reflexivity.
  - assert (Hrest : forall h' q, In q rest -> candidate_unusable env h' q).
    { intros h' q Hq. apply Hall. right. exact Hq. }
    assert (Hgo : forall t1, spawned t1 = [(argv_of p, 30%Z)] -> printed t1 = [] ->
      exists t,
        try_candidates rest env (h ++ t1) = (inr None, h ++ t)
        /\ spawned t = map (fun p => (argv_of p, 30%Z)) (p :: rest)
        /\ printed t = []).
    { intros t1 Hs1 Hp1. destruct (IH Hrest (h ++ t1)) as (t & E & Hs & Hp).
      exists (t1 ++ t). split; [rewrite E, <- app_assoc; reflexivity|].
      split; [rewrite spawned_app, Hs1, Hs; reflexivity|].
      rewrite printed_app, Hp1, Hp. reflexivity. }
    rewrite try_candidates_cons, try_candidate_run.
    pose proof (Hall h p (or_introl eq_refl)) as Hp. unfold candidate_unusable in Hp.
    destruct (env_run env h (argv_of p) 30) as [e|code].
    + assert (Hc : is_FileNotFound_or_Timeout e = true).
      { unfold is_FileNotFound_or_Timeout. destruct Hp as [-> | ->]; reflexivity. }
      rewrite Hc. apply (Hgo [attempt p]); reflexivity.
    + destruct (code =? 0)%Z eqn:Ecode.
      * apply Z.eqb_eq in Ecode. destruct Hp as [Hne|Hpdf]; [contradiction|].
        rewrite Hpdf. apply (Hgo [attempt p; EExists pdf_file]); reflexivity.
      * apply (Hgo [attempt p]); reflexivity.
Qed.

(** X18.  When the native method fails and no candidate can be used
    (each is missing, hangs, exits non-zero or leaves no PDF), the run
    spawns every candidate of the list exactly once, in the order of the
    list, each with the 30 second timeout, before it gives up. *)
Theorem unusable_candidates_are_all_tried :
  forall (env : Env) (h : Trace),
    env_exists env h docx_file = true ->
    native_fails env (h ++ [EExists docx_file]) ->
    (forall h' lo_path, In lo_path libreoffice_paths -> candidate_unusable env h' lo_path) ->
    exists t,
      convert_docx_to_pdf env h = (inr false, h ++ t)
      /\ spawned t = map (fun lo_path => (argv_of lo_path, 30%Z)) libreoffice_paths.
Proof.
  intros env h Hdocx Hnative Hall. rewrite convert_run. cbn zeta. rewrite Hdocx.
  destruct (native_falls_through env _ Hnative) as (t1 & E1 & Hs1 & _).
  rewrite E1. unfold try_except at 1.
  destruct (try_candidates_all_unusable env libreoffice_paths Hall
              ((h ++ [EExists docx_file]) ++ t1)) as (t2 & E2 & Hs2 & _).
  rewrite E2.
  exists ([EExists docx_file] ++ t1 ++ t2 ++ map EPrint remediation).
  split; [rewrite <- !app_assoc; reflexivity|].
  rewrite !spawned_app, Hs1, Hs2. cbn [app].
  replace (spawned (map EPrint remediation)) with (@nil (list string * Z)) by reflexivity.
  rewrite app_nil_r. reflexivity.
Qed.

Lemma bare_env_candidate_unusable h lo_path : candidate_unusable (bare_env true) h lo_path.
Proof. left. reflexivity. Qed.

Lemma unusable_candidates_are_all_tried_witness :
  exists t,
    convert_docx_to_pdf (bare_env true) [] = (inr false, t)
    /\ spawned t = [(argv_of first_candidate, 30%Z); (argv_of "libreoffice", 30%Z);
                    (argv_of "soffice", 30%Z)].
Proof.
  destruct (unusable_candidates_are_all_tried (bare_env true) [] eq_refl
              (bare_env_native_fails _) (fun h' p _ => bare_env_candidate_unusable h' p))
    as (t & E & Hs).
  exists t. split; [exact E|exact Hs].
Defined.

(** Whatever the first candidate does, the second [try] statement starts
    with its spawn. *)
Lemma libreoffice_starts_with_first env h :
  exists t,
    (try_except (try_candidates libreoffice_paths) is_Exception libreoffice_handler env h).2
    = h ++ attempt first_candidate :: t.
Proof.
  unfold try_except.
  change libreoffice_paths with (first_candidate :: ["libreoffice"; "soffice"]).
  rewrite try_candidates_cons, try_candidate_run.
  assert (Hrest : forall t1,
    exists t,
      (let (r, h') := try_candidates ["libreoffice"; "soffice"] env (h ++ attempt first_candidate :: t1) in
       match r with
       | inl e => if is_Exception e then libreoffice_handler e env h' else (inl e, h')
       | inr x => (inr x, h')
       end).2 = h ++ attempt first_candidate :: t).
  { intros t1.
    destruct (try_candidates_shape env ["libreoffice"; "soffice"] (h ++ attempt first_candidate :: t1))
      as (t & res & E & _).
    rewrite E. destruct res as [e|r].
    - unfold is_Exception, libreoffice_handler, mbind, Conv_bind, print, mret, Conv_ret.
      cbn [snd]. exists (t1 ++ t ++ [EPrint ("LibreOffice conversion failed: " +:+ exn_str e)]).
      rewrite <- !app_assoc. reflexivity.
    - cbn [snd]. exists (t1 ++ t). rewrite <- !app_assoc. reflexivity. }
  destruct (env_run env h (argv_of first_candidate) 30) as [e|code].
  - destruct (is_FileNotFound_or_Timeout e).
    + apply (Hrest []).
    + unfold is_Exception, libreoffice_handler, mbind, Conv_bind, print, mret, Conv_ret.
      cbn [snd]. eexists. rewrite <- app_assoc. reflexivity.
  - destruct (code =? 0)%Z.
    + destruct (env_exists env (h ++ [attempt first_candidate]) pdf_file).
      * cbn [snd]. eexists. reflexivity.
      * apply (Hrest [EExists pdf_file]).
    + apply (Hrest []).
Qed.

Lemma convert_after_native env h t1 :
  env_exists env h docx_file = true ->
  try_except try_native is_Exception native_handler env (h ++ [EExists docx_file])
  = (inr None, (h ++ [EExists docx_file]) ++ t1) ->
  exists t,
    (convert_docx_to_pdf env h).2
    = h ++ [EExists docx_file] ++ t1 ++ attempt first_candidate :: t.
Proof.
  intros Hdocx E1. rewrite convert_run. cbn zeta. rewrite Hdocx, E1.
  destruct (libreoffice_starts_with_first env ((h ++ [EExists docx_file]) ++ t1)) as (t & Et).
  destruct (try_except (try_candidates libreoffice_paths) is_Exception libreoffice_handler env
              ((h ++ [EExists docx_file]) ++ t1)) as [[e|[v|]] h2]; cbn [snd] in Et |- *; subst h2.
  - exists t. rewrite <- !app_assoc. reflexivity.
  - exists t. rewrite <- !app_assoc. reflexivity.
  - exists (t ++ map EPrint remediation). rewrite <- !app_assoc. reflexivity.
Qed.

(** X20.  A failure of docx2pdf never ends the run; the next step is the
    spawn of the first candidate.  A failed import and a failed
    conversion are reported in one line, "docx2pdf failed: " with the
    exception; a conversion that returns without leaving the PDF is not
    reported at all. *)
Theorem native_failure_falls_back :
  forall (env : Env) (h : Trace),
    env_exists env h docx_file = true ->
    (forall e,
       env_import env (h ++ [EExists docx_file]) = Some e ->
       exists t,
         (convert_docx_to_pdf env h).2
         = h ++ [EExists docx_file; EImportDocx2pdf;
                 EPrint ("docx2pdf failed: " +:+ exn_str e);
                 attempt first_candidate] ++ t)
    /\ (forall e,
          env_import env (h ++ [EExists docx_file]) = None ->
          env_convert env
            (h ++ [EExists docx_file; EImportDocx2pdf;
                   EPrint "Converting DOCX to PDF using docx2pdf..."])
            docx_file pdf_file = Some e ->
          exists t,
            (convert_docx_to_pdf env h).2
            = h ++ [EExists docx_file; EImportDocx2pdf;
                    EPrint "Converting DOCX to PDF using docx2pdf...";
                    EConvert docx_file pdf_file;
                    EPrint ("docx2pdf failed: " +:+ exn_str e);
                    attempt first_candidate] ++ t)
    /\ (env_import env (h ++ [EExists docx_file]) = None ->
        env_convert env
          (h ++ [EExists docx_file; EImportDocx2pdf;
                 EPrint "Converting DOCX to PDF using docx2pdf..."])
          docx_file pdf_file = None ->
        env_exists env
          (h ++ [EExists docx_file; EImportDocx2pdf;
                 EPrint "Converting DOCX to PDF using docx2pdf...";
                 EConvert docx_file pdf_file])
          pdf_file = false ->
        exists t,
          (convert_docx_to_pdf env h).2
          = h ++ [EExists docx_file; EImportDocx2pdf;
                  EPrint "Converting DOCX to PDF using docx2pdf...";
                  EConvert docx_file pdf_file; EExists pdf_file;
                  attempt first_candidate] ++ t).
Proof.
  intros env h Hdocx.
  assert (A1 : (h ++ [EExists docx_file])
               ++ [EImportDocx2pdf; EPrint "Converting DOCX to PDF using docx2pdf..."]
               = h ++ [EExists docx_file; EImportDocx2pdf;
                       EPrint "Converting DOCX to PDF using docx2pdf..."])
    by (rewrite <- app_assoc; reflexivity).
  assert (A2 : (h ++ [EExists docx_file; EImportDocx2pdf;
                      EPrint "Converting DOCX to PDF using docx2pdf..."])
               ++ [EConvert docx_file pdf_file]
               = h ++ [EExists docx_file; EImportDocx2pdf;
                       EPrint "Converting DOCX to PDF using docx2pdf...";
                       EConvert docx_file pdf_file])
    by (rewrite <- app_assoc; reflexivity).
  split; [|split].
  - intros e Himp.
    destruct (convert_after_native env h
                [EImportDocx2pdf; EPrint ("docx2pdf failed: " +:+ exn_str e)] Hdocx) as (t & Et).
    { rewrite try_native_run, Himp. reflexivity. }
    exists t. rewrite Et. reflexivity.
  - intros e Himp Hconv.
    destruct (convert_after_native env h
                [EImportDocx2pdf; EPrint "Converting DOCX to PDF using docx2pdf...";
                 EConvert docx_file pdf_file; EPrint ("docx2pdf failed: " +:+ exn_str e)] Hdocx)
      as (t & Et).
    { rewrite try_native_run, Himp. cbn zeta. rewrite A1, Hconv, <- A1, <- !app_assoc.
      reflexivity. }
    exists t. rewrite Et. reflexivity.
  - intros Himp Hconv Hpdf.
    destruct (convert_after_native env h
                [EImportDocx2pdf; EPrint "Converting DOCX to PDF using docx2pdf...";
                 EConvert docx_file pdf_file; EExists pdf_file] Hdocx)
      as (t & Et).
    { rewrite try_native_run, Himp. cbn zeta. rewrite A1, Hconv, A2, Hpdf, <- A1, <- !app_assoc.
      reflexivity. }
    exists t. rewrite Et. reflexivity.
Qed.

Lemma native_failure_falls_back_witness :
  exists t,
    (convert_docx_to_pdf (bare_env true) []).2
    = [EExists docx_file; EImportDocx2pdf;
       EPrint "docx2pdf failed: No module named 'docx2pdf'";
       attempt first_candidate] ++ t.
Proof.
  destruct (native_failure_falls_back (bare_env true) [] eq_refl) as (H & _).
  apply (H {| exn_class := OtherException; exn_str := "No module named 'docx2pdf'" |}).
  reflexivity.
Defined.
